(** * CodeChecker server: authentication sessions

    A shallow embedding of [web/server/codechecker_server/session_manager.py]:
    the [_Session] class, and the [SessionManager] operations that validate
    credentials, keep the two tiers of sessions (the worker's list and the
    [auth_sessions] table), prune them, prepare the OAuth providers and reload
    the configuration.

    Conventions of the embedding.
    - Python exceptions are values of [exn]; a computation yields a [result].
      Stateful methods live in the monad [M], which threads the manager object
      and the database and keeps the state reached when an exception is raised.
    - Python [str] values are [string]s holding their UTF-8 bytes, so that
      [encode("utf-8")] is the identity.
    - Configuration dictionaries are JSON objects kept as association lists in
      insertion order, as [dict] keeps them.  JSON numbers are integers.
    - Instants and durations are integers counted in seconds; one call of an
      operation reads the clock once ([now]).
    - Logging is left out, except in [reload_config], whose report is its result.
    - A configuration value is read at the type the server documents for it;
      where the dictionary holds a value of another type, the read raises
      [TypeError] or [AttributeError].
    - The collaborators that are not part of the module ([re], [str.format],
      [hashlib] beyond SHA-256, PAM, LDAP, the template table) are the fields of
      [Env]. *)

From Stdlib Require Import ZArith NArith List String Ascii Bool Lia.
Import ListNotations.
Local Open Scope string_scope.
Local Open Scope list_scope.
Local Open Scope Z_scope.

Set Implicit Arguments.
Set Warnings "-register-all".

(** ** Exceptions and results *)

Inductive exn : Type :=
| ValueError
| IndexError
| KeyError (key : string)
| AttributeError
| TypeError
| UnboundLocalError
| ReError
| DBError.

Inductive result (A : Type) : Type :=
| Ok (a : A)
| Raise (e : exn).
Arguments Ok {A} a.
Arguments Raise {A} e.

Definition rbind {A B} (r : result A) (k : A -> result B) : result B :=
  match r with
  | Ok a => k a
  | Raise e => Raise e
  end.

Declare Scope result_scope.
Delimit Scope result_scope with res.
Notation "'let?' x ':=' r 'in' k" := (rbind r (fun x => k))
  (at level 10, x pattern, r at level 100, k at level 200) : result_scope.

Definition raises {A} (r : result A) : bool :=
  match r with
  | Ok _ => false
  | Raise _ => true
  end.

(** ** Strings, the way Python splits and joins them *)

Definition is_empty_string (s : string) : bool :=
  match s with
  | EmptyString => true
  | String _ _ => false
  end.

(** [s.split(sep, maxsplit)] for a one-character separator: at most
    [maxsplit] cuts, from the left; the result is never empty. *)
Fixpoint split (sep : ascii) (maxsplit : nat) (s : string) : list string :=
  match s with
  | EmptyString => [EmptyString]
  | String c rest =>
      if Ascii.eqb c sep then
        match maxsplit with
        | O => [s]
        | S k => EmptyString :: split sep k rest
        end
      else
        match split sep maxsplit rest with
        | hd :: tl => String c hd :: tl
        | [] => [String c EmptyString]
        end
  end.

(** [s.split(sep)]: no bound on the number of cuts. *)
Definition split_all (sep : ascii) (s : string) : list string :=
  split sep (String.length s) s.

(** [sep.join(parts)]. *)
Definition join (sep : string) (parts : list string) : string :=
  String.concat sep parts.

(** [c in s]. *)
Fixpoint contains_char (c : ascii) (s : string) : bool :=
  match s with
  | EmptyString => false
  | String c' rest => Ascii.eqb c c' || contains_char c rest
  end.

Definition in_strings (s : string) (l : list string) : bool :=
  existsb (String.eqb s) l.

(** ** JSON values and dictionaries *)

Inductive json : Type :=
| JNull
| JBool (b : bool)
| JNum (z : Z)
| JStr (s : string)
| JList (l : list json)
| JDict (d : list (string * json)).

Abbreviation dict := (list (string * json)).

(** Truth value of a configuration value, as [if v:] sees it. *)
Definition truthy (v : json) : bool :=
  match v with
  | JNull => false
  | JBool b => b
  | JNum z => negb (z =? 0)
  | JStr s => negb (is_empty_string s)
  | JList l => match l with [] => false | _ => true end
  | JDict d => match d with [] => false | _ => true end
  end.

Definition truthy_opt (o : option json) : bool :=
  match o with
  | Some v => truthy v
  | None => false
  end.

(** [d.get(k)], [k in d], [d[k]], [d[k] = v], [del d[k]], [d.setdefault]. *)
Fixpoint dict_get (k : string) (d : dict) : option json :=
  match d with
  | [] => None
  | (k', v) :: rest => if String.eqb k k' then Some v else dict_get k rest
  end.

Definition dict_mem (k : string) (d : dict) : bool :=
  match dict_get k d with
  | Some _ => true
  | None => false
  end.

Definition dict_index (k : string) (d : dict) : result json :=
  match dict_get k d with
  | Some v => Ok v
  | None => Raise (KeyError k)
  end.

Fixpoint dict_set (k : string) (v : json) (d : dict) : dict :=
  match d with
  | [] => [(k, v)]
  | (k', v') :: rest =>
      if String.eqb k k' then (k', v) :: rest else (k', v') :: dict_set k v rest
  end.

Fixpoint dict_del (k : string) (d : dict) : dict :=
  match d with
  | [] => []
  | (k', v') :: rest =>
      if String.eqb k k' then rest else (k', v') :: dict_del k rest
  end.

Definition dict_setdefault (k : string) (v : json) (d : dict) : dict :=
  if dict_mem k d then d else dict_set k v d.

(** [a.update(b)]. *)
Definition dict_update (a b : dict) : dict :=
  fold_left (fun acc kv => dict_set (fst kv) (snd kv) acc) b a.

Definition dict_keys (d : dict) : list string := map fst d.

(** Keys of a Python dictionary are pairwise distinct. *)
Fixpoint dict_wf (d : dict) : bool :=
  match d with
  | [] => true
  | (k, _) :: rest => negb (dict_mem k rest) && dict_wf rest
  end.

(** [v.get(k, default)] on a value that has to be a dictionary. *)
Definition py_get (v : json) (k : string) (default : json) : result json :=
  match v with
  | JDict d => Ok (match dict_get k d with Some x => x | None => default end)
  | _ => Raise AttributeError
  end.

Definition as_dict (v : json) : result dict :=
  match v with
  | JDict d => Ok d
  | _ => Raise AttributeError
  end.

Definition as_num (v : json) : result Z :=
  match v with
  | JNum z => Ok z
  | JBool b => Ok (if b then 1 else 0)
  | _ => Raise TypeError
  end.

Definition as_str (v : json) : result string :=
  match v with
  | JStr s => Ok s
  | _ => Raise AttributeError
  end.

Fixpoint as_str_list_aux (l : list json) : result (list string) :=
  match l with
  | [] => Ok []
  | v :: rest =>
      match v with
      | JStr s => rbind (as_str_list_aux rest) (fun tl => Ok (s :: tl))
      | _ => Raise TypeError
      end
  end.

(** A list of strings read from the configuration. *)
Definition as_str_list (v : json) : result (list string) :=
  match v with
  | JList l => as_str_list_aux l
  | _ => Raise TypeError
  end.

Definition json_is_str (v : json) (s : string) : bool :=
  match v with
  | JStr s' => String.eqb s' s
  | _ => false
  end.

(** Structural comparison of two JSON values, keys in the order given. *)
Fixpoint json_eqb (a b : json) {struct a} : bool :=
  match a, b with
  | JNull, JNull => true
  | JBool x, JBool y => Bool.eqb x y
  | JNum x, JNum y => x =? y
  | JStr x, JStr y => String.eqb x y
  | JList x, JList y =>
      (fix all2 (x : list json) (y : list json) {struct x} : bool :=
         match x, y with
         | [], [] => true
         | u :: x', v :: y' => json_eqb u v && all2 x' y'
         | _, _ => false
         end) x y
  | JDict x, JDict y =>
      (fix all2 (x : list (string * json)) (y : dict) {struct x} : bool :=
         match x, y with
         | [], [] => true
         | (k, u) :: x', (k', v) :: y' => String.eqb k k' && json_eqb u v && all2 x' y'
         | _, _ => false
         end) x y
  | _, _ => false
  end.

(** Insertion of an item into a dictionary sorted by key. *)
Fixpoint insert_by_key (kv : string * json) (d : dict) : dict :=
  match d with
  | [] => [kv]
  | kv' :: rest =>
      if String.leb (fst kv) (fst kv') then kv :: d else kv' :: insert_by_key kv rest
  end.

Definition sort_by_key (d : dict) : dict :=
  fold_right insert_by_key [] d.

(** The value [json.dumps(v, sort_keys=True)] prints: every dictionary of
    [v] with its keys in ascending order.  Two values print the same text
    exactly when these forms are the same. *)
Fixpoint sort_keys (v : json) : json :=
  match v with
  | JList l => JList (map sort_keys l)
  | JDict d => JDict (sort_by_key (map (fun kv => (fst kv, sort_keys (snd kv))) d))
  | _ => v
  end.

Definition json_dumps_eqb (a b : json) : bool :=
  json_eqb (sort_keys a) (sort_keys b).

(** Python's [==] on configuration values: dictionaries compare without
    regard to the order of their keys, and [True == 1], [False == 0]. *)
Fixpoint py_norm (v : json) : json :=
  match v with
  | JBool b => JNum (if b then 1 else 0)
  | JList l => JList (map py_norm l)
  | JDict d => JDict (sort_by_key (map (fun kv => (fst kv, py_norm (snd kv))) d))
  | _ => v
  end.

Definition py_eqb (a b : json) : bool :=
  json_eqb (py_norm a) (py_norm b).

(** ** SHA-256, the digest [hashlib.sha256] computes (FIPS 180-4) *)

Module Sha256.

Definition hex_value (c : ascii) : Z :=
  let n := Z.of_N (N_of_ascii c) in
  if (48 <=? n) && (n <=? 57) then n - 48
  else if (97 <=? n) && (n <=? 102) then n - 87
  else 0.

Fixpoint hex_number (acc : Z) (s : string) : Z :=
  match s with
  | EmptyString => acc
  | String c rest => hex_number (16 * acc + hex_value c) rest
  end.

(** The 32-bit words written in a run of hexadecimal digits, eight digits
    to the word. *)
Fixpoint hex_words (fuel : nat) (s : string) : list Z :=
  match fuel with
  | O => []
  | S fuel' =>
      if is_empty_string s then []
      else hex_number 0 (String.substring 0 8 s)
             :: hex_words fuel' (String.substring 8 (String.length s - 8) s)
  end.

Definition round_constants : list Z :=
  hex_words 64
    ("428a2f9871374491b5c0fbcfe9b5dba53956c25b59f111f1923f82a4ab1c5ed5" ++
     "d807aa9812835b01243185be550c7dc372be5d7480deb1fe9bdc06a7c19bf174" ++
     "e49b69c1efbe47860fc19dc6240ca1cc2de92c6f4a7484aa5cb0a9dc76f988da" ++
     "983e5152a831c66db00327c8bf597fc7c6e00bf3d5a7914706ca635114292967" ++
     "27b70a852e1b21384d2c6dfc53380d13650a7354766a0abb81c2c92e92722c85" ++
     "a2bfe8a1a81a664bc24b8b70c76c51a3d192e819d6990624f40e3585106aa070" ++
     "19a4c1161e376c082748774c34b0bcb5391c0cb34ed8aa4a5b9cca4f682e6ff3" ++
     "748f82ee78a5636f84c878148cc7020890befffaa4506cebbef9a3f7c67178f2").

Definition initial_hash : list Z :=
  hex_words 8 "6a09e667bb67ae853c6ef372a54ff53a510e527f9b05688c1f83d9ab5be0cd19".

Definition wrap (x : Z) : Z := x mod 2 ^ 32.
Definition add32 (x y : Z) : Z := wrap (x + y).
Definition rotr (n x : Z) : Z :=
  Z.lor (Z.shiftr x n) (wrap (Z.shiftl x (32 - n))).
Definition xor3 (a b c : Z) : Z := Z.lxor (Z.lxor a b) c.

Definition choose (x y z : Z) : Z :=
  Z.lxor (Z.land x y) (Z.land (Z.lxor x (2 ^ 32 - 1)) z).
Definition majority (x y z : Z) : Z :=
  xor3 (Z.land x y) (Z.land x z) (Z.land y z).
Definition big_sigma0 (x : Z) : Z := xor3 (rotr 2 x) (rotr 13 x) (rotr 22 x).
Definition big_sigma1 (x : Z) : Z := xor3 (rotr 6 x) (rotr 11 x) (rotr 25 x).
Definition small_sigma0 (x : Z) : Z := xor3 (rotr 7 x) (rotr 18 x) (Z.shiftr x 3).
Definition small_sigma1 (x : Z) : Z := xor3 (rotr 17 x) (rotr 19 x) (Z.shiftr x 10).

Definition bytes_of (s : string) : list Z :=
  map (fun c => Z.of_N (N_of_ascii c)) (list_ascii_of_string s).

(** Big-endian bytes of [x], [n] of them. *)
Fixpoint be_bytes (n : nat) (x : Z) : list Z :=
  match n with
  | O => []
  | S n' => (Z.shiftr x (8 * Z.of_nat n')) mod 256 :: be_bytes n' x
  end.

(** The message, a set bit, zeros up to 56 modulo 64, and the length in
    bits on eight bytes. *)
Definition pad (msg : list Z) : list Z :=
  let len := Z.of_nat (List.length msg) in
  let zeros := Z.to_nat ((55 - len) mod 64) in
  msg ++ [128] ++ repeat 0 zeros ++ be_bytes 8 (8 * len).

Fixpoint words_of_bytes (fuel : nat) (bs : list Z) : list Z :=
  match fuel, bs with
  | S fuel', b0 :: b1 :: b2 :: b3 :: rest =>
      (((b0 * 256 + b1) * 256 + b2) * 256 + b3) :: words_of_bytes fuel' rest
  | _, _ => []
  end.

(** The message schedule: sixteen words of the block, extended to
    sixty-four. *)
Fixpoint extend (steps : nat) (w : list Z) : list Z :=
  match steps with
  | O => w
  | S steps' =>
      let i := List.length w in
      let at_ (back : nat) := nth (i - back) w 0 in
      extend steps'
        (w ++ [add32 (add32 (small_sigma1 (at_ 2%nat)) (at_ 7%nat))
                     (add32 (small_sigma0 (at_ 15%nat)) (at_ 16%nat))])
  end.

Definition state : Type := (Z * Z * Z * Z * Z * Z * Z * Z)%type.

Definition round (st : state) (kw : Z * Z) : state :=
  let '(a, b, c, d, e, f, g, h) := st in
  let t1 := add32 (add32 (add32 h (big_sigma1 e)) (choose e f g))
                  (add32 (fst kw) (snd kw)) in
  let t2 := add32 (big_sigma0 a) (majority a b c) in
  (add32 t1 t2, a, b, c, add32 d t1, e, f, g).

Definition state_of (l : list Z) : state :=
  (nth 0 l 0, nth 1 l 0, nth 2 l 0, nth 3 l 0,
   nth 4 l 0, nth 5 l 0, nth 6 l 0, nth 7 l 0).

Definition words_of_state (st : state) : list Z :=
  let '(a, b, c, d, e, f, g, h) := st in [a; b; c; d; e; f; g; h].

Definition compress (hash : list Z) (block : list Z) : list Z :=
  let w := extend 48 block in
  let st := fold_left round (combine round_constants w) (state_of hash) in
  map (fun p => add32 (fst p) (snd p)) (combine hash (words_of_state st)).

Fixpoint blocks (fuel : nat) (ws : list Z) : list (list Z) :=
  match fuel with
  | O => []
  | S fuel' =>
      match ws with
      | [] => []
      | _ => firstn 16 ws :: blocks fuel' (skipn 16 ws)
      end
  end.

Definition digest_words (msg : list Z) : list Z :=
  let bs := pad msg in
  let ws := words_of_bytes (List.length bs) bs in
  fold_left compress (blocks (List.length ws) ws) initial_hash.

Definition hex_digit (x : Z) : ascii :=
  ascii_of_N (Z.to_N (if x <? 10 then 48 + x else 87 + x)).

Fixpoint hex_of (digits : nat) (x : Z) : string :=
  match digits with
  | O => EmptyString
  | S n => String (hex_digit ((Z.shiftr x (4 * Z.of_nat n)) mod 16)) (hex_of n x)
  end.

(** [hashlib.sha256(data).hexdigest()]. *)
Definition hexdigest (data : string) : string :=
  String.concat "" (map (hex_of 8) (digest_words (bytes_of data))).

End Sha256.

(** ** The [_Session] class *)

Record Session : Type := mkSession {
  token : string;
  user : string;
  groups : list string;
  session_lifetime : Z;
  refresh_time : option Z;
  is_root : bool;
  (** [self.__database]: whether a connection was given at creation. *)
  has_database : bool;
  last_access : Z
}.

(** [_Session.__init__]: a refresh time that is unset or zero is kept as
    [None]; a missing last access is the present instant. *)
Definition new_session (now : Z) (tok username : string) (grps : list string)
    (lifetime : Z) (refresh : option Z) (root database : bool)
    (accessed : option Z) : Session :=
  {| token := tok;
     user := username;
     groups := grps;
     session_lifetime := lifetime;
     refresh_time := match refresh with
                     | Some r => if r =? 0 then None else Some r
                     | None => None
                     end;
     is_root := root;
     has_database := database;
     last_access := match accessed with
                    | Some t => t
                    | None => now
                    end |}.

Definition set_last_access (t : Z) (s : Session) : Session :=
  {| token := token s; user := user s; groups := groups s;
     session_lifetime := session_lifetime s; refresh_time := refresh_time s;
     is_root := is_root s; has_database := has_database s;
     last_access := t |}.

Definition set_policy (lifetime : Z) (refresh : option Z) (s : Session) : Session :=
  {| token := token s; user := user s; groups := groups s;
     session_lifetime := lifetime; refresh_time := refresh;
     is_root := is_root s; has_database := has_database s;
     last_access := last_access s |}.

(** [is_refresh_time_expire]. *)
Definition is_refresh_time_expire (now : Z) (s : Session) : bool :=
  match refresh_time s with
  | None => true
  | Some r => if r =? 0 then true else now - last_access s >? r
  end.

(** [is_alive]. *)
Definition is_alive (now : Z) (s : Session) : bool :=
  now - last_access s <=? session_lifetime s.

(** ** The database: the tables the module reads and writes *)

Record SessionRecord : Type := {
  rec_id : Z;
  rec_token : string;
  rec_user_name : string;
  rec_groups : option string;
  rec_last_access : Z
}.

Record PersonalAccessToken : Type := {
  pat_user_name : string;
  pat_token : string;
  pat_groups : option string;
  pat_expiration : Z
}.

Record SystemPermission : Type := {
  perm_name : string;
  perm_permission : string
}.

Record OAuthToken : Type := {
  access_token : string;
  expires_at : Z;
  refresh_token : string;
  auth_session_id : Z
}.

(** [faults] scripts the failures of the persistence layer: every
    transaction the module opens takes the next flag, and raises when the
    flag is set; when no flag is left, transactions succeed. *)
Record Database : Type := {
  session_records : list SessionRecord;
  personal_access_tokens : list PersonalAccessToken;
  system_permissions : list SystemPermission;
  oauth_tokens : list OAuthToken;
  next_session_id : Z;
  faults : list bool
}.

Definition set_faults (fs : list bool) (d : Database) : Database :=
  {| session_records := session_records d;
     personal_access_tokens := personal_access_tokens d;
     system_permissions := system_permissions d;
     oauth_tokens := oauth_tokens d;
     next_session_id := next_session_id d;
     faults := fs |}.

Definition set_session_records (rs : list SessionRecord) (d : Database) : Database :=
  {| session_records := rs;
     personal_access_tokens := personal_access_tokens d;
     system_permissions := system_permissions d;
     oauth_tokens := oauth_tokens d;
     next_session_id := next_session_id d;
     faults := faults d |}.

Definition set_personal_access_tokens (ps : list PersonalAccessToken) (d : Database)
    : Database :=
  {| session_records := session_records d;
     personal_access_tokens := ps;
     system_permissions := system_permissions d;
     oauth_tokens := oauth_tokens d;
     next_session_id := next_session_id d;
     faults := faults d |}.

(** Modelled from the spec: the constructor of the [SessionRecord] row
    class of [config_db_model], which is not part of this module; the row is
    created together with the session, its last access being the instant of
    creation, and the table numbers its rows. *)
Definition add_session_record (now : Z) (tok user_name grps : string) (d : Database)
    : Database :=
  {| session_records :=
       session_records d ++
       [{| rec_id := next_session_id d; rec_token := tok;
           rec_user_name := user_name; rec_groups := Some grps;
           rec_last_access := now |}];
     personal_access_tokens := personal_access_tokens d;
     system_permissions := system_permissions d;
     oauth_tokens := oauth_tokens d;
     next_session_id := next_session_id d + 1;
     faults := faults d |}.

Definition add_oauth_token (t : OAuthToken) (d : Database) : Database :=
  {| session_records := session_records d;
     personal_access_tokens := personal_access_tokens d;
     system_permissions := system_permissions d;
     oauth_tokens := oauth_tokens d ++ [t];
     next_session_id := next_session_id d;
     faults := faults d |}.

(** Modelled from the spec: the deletion of the rows of a token from the
    [auth_sessions] table, which belongs to [config_db_model] and is not part
    of this module.  An [OAuthToken] exists only as long as its parent record:
    the OAuth tokens attached to the deleted rows go with them. *)
Definition delete_session_rows (tok : string) (d : Database) : Database :=
  let deleted :=
    map rec_id (filter (fun r => String.eqb (rec_token r) tok) (session_records d)) in
  {| session_records :=
       filter (fun r => negb (String.eqb (rec_token r) tok)) (session_records d);
     personal_access_tokens := personal_access_tokens d;
     system_permissions := system_permissions d;
     oauth_tokens :=
       filter (fun t => negb (existsb (Z.eqb (auth_session_id t)) deleted))
              (oauth_tokens d);
     next_session_id := next_session_id d;
     faults := faults d |}.

(** Opening a transaction: [Raise DBError] when the script says so. *)
Definition begin_transaction (d : Database) : result unit * Database :=
  match faults d with
  | [] => (Ok tt, d)
  | false :: fs => (Ok tt, set_faults fs d)
  | true :: fs => (Raise DBError, set_faults fs d)
  end.

(** [_Session.revalidate]: nothing for a session beyond its lifetime;
    otherwise, when due, the last access moves to the present instant and is
    written to the session's row, a failure of the database being
    swallowed. *)
Definition revalidate (now : Z) (s : Session) (d : Database) : Session * Database :=
  if negb (is_alive now s) then (s, d)
  else if has_database s && is_refresh_time_expire now s then
    let s' := set_last_access now s in
    match begin_transaction d with
    | (Raise _, d') => (s', d')
    | (Ok _, d') =>
        let mine (r : SessionRecord) :=
          String.eqb (rec_user_name r) (user s') && String.eqb (rec_token r) (token s') in
        let fix touch (rs : list SessionRecord) : list SessionRecord :=
          match rs with
          | [] => []
          | r :: rest =>
              if mine r then
                {| rec_id := rec_id r; rec_token := rec_token r;
                   rec_user_name := rec_user_name r; rec_groups := rec_groups r;
                   rec_last_access := last_access s' |} :: rest
              else r :: touch rest
          end in
        (s', set_session_records (touch (session_records d')) d')
    end
  else (s, d).

(** ** Collaborators outside the module *)

Record Env : Type := {
  (** Methods whose backend library failed to import. *)
  UNSUPPORTED_METHODS : list string;
  (** The table of [codechecker_web.server.oauth_templates]. *)
  OAUTH_TEMPLATES : dict;
  (** [SUPERUSER.name] of the permissions module. *)
  SUPERUSER_name : string;
  (** [re.compile(pattern).match(text) is not None]; compiling may fail. *)
  re_match : string -> string -> result bool;
  (** [re.search(compiled, text)] as a truth value. *)
  re_search : string -> string -> bool;
  (** [template.format] applied to the variables as keyword arguments. *)
  str_format : string -> dict -> result string;
  (** [getattr(hashlib, name)(data).hexdigest()] for the attributes of
      [hashlib] other than [sha256]; [None] when there is no such attribute. *)
  hashlib_attr : string -> option (string -> result string);
  (** [cc_pam.auth_user(config, username, password)]. *)
  pam_auth_user : json -> string -> string -> bool;
  (** [cc_ldap.auth_user] and [cc_ldap.get_groups] for one authority. *)
  ldap_auth_user : json -> string -> string -> bool;
  ldap_get_groups : json -> string -> string -> list string
}.

Definition hashlib (env : Env) (name : string) : option (string -> result string) :=
  if String.eqb name "sha256" then Some (fun data => Ok (Sha256.hexdigest data))
  else hashlib_attr env name.

(** ** The manager object and the monad of its methods *)

Record SessionManager : Type := {
  database_connection : bool;
  logins_since_prune : Z;
  sessions : list Session;
  auth_config : dict;
  max_run_count : json;
  store_config : json;
  (** [self.__refresh_time], read from the configuration at start-up. *)
  configured_refresh_time : json;
  regex_groups_enabled : bool;
  group_regexes_compiled : list (string * list string)
}.

Definition set_sessions (l : list Session) (m : SessionManager) : SessionManager :=
  {| database_connection := database_connection m;
     logins_since_prune := logins_since_prune m;
     sessions := l;
     auth_config := auth_config m;
     max_run_count := max_run_count m;
     store_config := store_config m;
     configured_refresh_time := configured_refresh_time m;
     regex_groups_enabled := regex_groups_enabled m;
     group_regexes_compiled := group_regexes_compiled m |}.

Definition set_logins_since_prune (n : Z) (m : SessionManager) : SessionManager :=
  {| database_connection := database_connection m;
     logins_since_prune := n;
     sessions := sessions m;
     auth_config := auth_config m;
     max_run_count := max_run_count m;
     store_config := store_config m;
     configured_refresh_time := configured_refresh_time m;
     regex_groups_enabled := regex_groups_enabled m;
     group_regexes_compiled := group_regexes_compiled m |}.

Definition set_auth_config (c : dict) (m : SessionManager) : SessionManager :=
  {| database_connection := database_connection m;
     logins_since_prune := logins_since_prune m;
     sessions := sessions m;
     auth_config := c;
     max_run_count := max_run_count m;
     store_config := store_config m;
     configured_refresh_time := configured_refresh_time m;
     regex_groups_enabled := regex_groups_enabled m;
     group_regexes_compiled := group_regexes_compiled m |}.

Definition set_max_run_count (v : json) (m : SessionManager) : SessionManager :=
  {| database_connection := database_connection m;
     logins_since_prune := logins_since_prune m;
     sessions := sessions m;
     auth_config := auth_config m;
     max_run_count := v;
     store_config := store_config m;
     configured_refresh_time := configured_refresh_time m;
     regex_groups_enabled := regex_groups_enabled m;
     group_regexes_compiled := group_regexes_compiled m |}.

Definition set_store_config (v : json) (m : SessionManager) : SessionManager :=
  {| database_connection := database_connection m;
     logins_since_prune := logins_since_prune m;
     sessions := sessions m;
     auth_config := auth_config m;
     max_run_count := max_run_count m;
     store_config := v;
     configured_refresh_time := configured_refresh_time m;
     regex_groups_enabled := regex_groups_enabled m;
     group_regexes_compiled := group_regexes_compiled m |}.

Record World : Type := {
  mgr : SessionManager;
  db : Database
}.

Definition M (A : Type) : Type := World -> result A * World.

Definition ret {A} (a : A) : M A := fun w => (Ok a, w).

Definition raise {A} (e : exn) : M A := fun w => (Raise e, w).

Definition bind {A B} (m : M A) (k : A -> M B) : M B :=
  fun w =>
    match m w with
    | (Ok a, w') => k a w'
    | (Raise e, w') => (Raise e, w')
    end.

Definition lift {A} (r : result A) : M A := fun w => (r, w).

(** [try: body / except Exception: handler]. *)
Definition try_except {A} (body : M A) (handler : exn -> M A) : M A :=
  fun w =>
    match body w with
    | (Ok a, w') => (Ok a, w')
    | (Raise e, w') => handler e w'
    end.

Declare Scope monad_scope.
Delimit Scope monad_scope with M.
Notation "x <- m ;; k" := (bind m (fun x => k))
  (at level 61, m at next level, right associativity) : monad_scope.
Notation "' p <- m ;; k" := (bind m (fun x => match x with p => k end))
  (at level 61, p pattern, m at next level, right associativity) : monad_scope.
Notation "m ;; k" := (bind m (fun _ => k))
  (at level 61, right associativity) : monad_scope.
Local Open Scope monad_scope.

Definition get_mgr : M SessionManager := fun w => (Ok (mgr w), w).
Definition get_db : M Database := fun w => (Ok (db w), w).
Definition put_mgr (m : SessionManager) : M unit :=
  fun w => (Ok tt, {| mgr := m; db := db w |}).
Definition put_db (d : Database) : M unit :=
  fun w => (Ok tt, {| mgr := mgr w; db := d |}).
Definition modify_mgr (f : SessionManager -> SessionManager) : M unit :=
  fun w => (Ok tt, {| mgr := f (mgr w); db := db w |}).
Definition modify_db (f : Database -> Database) : M unit :=
  fun w => (Ok tt, {| mgr := mgr w; db := f (db w) |}).

(** [transaction = self.__database_connection()] and its first query. *)
Definition transaction : M unit :=
  fun w =>
    let '(r, d) := begin_transaction (db w) in
    (r, {| mgr := mgr w; db := d |}).

(** What a method hands back where Python has [None], [False] or an
    object. *)
Inductive pyval (A : Type) : Type :=
| PNone
| PFalse
| PVal (a : A).
Arguments PNone {A}.
Arguments PFalse {A}.
Arguments PVal {A} a.

Definition is_truthy {A} (v : pyval A) : bool :=
  match v with
  | PVal _ => true
  | _ => false
  end.

(** [a or b]: [b] is evaluated only when [a] is not true. *)
Definition py_or {A} (a b : M (pyval A)) : M (pyval A) :=
  r <- a ;;
  if is_truthy r then ret r else b.

(** The validation object; [v_groups] is [None] when the object has no
    ['groups'] key. *)
Record Validation : Type := {
  v_username : string;
  v_groups : option (list string)
}.

(** [user_name, token = auth_string.split(':', 1)]. *)
Definition unpack2 (parts : list string) : result (string * string) :=
  match parts with
  | [a; b] => Ok (a, b)
  | _ => Raise ValueError
  end.

Definition colon : ascii := ":"%char.
Definition semicolon : ascii := ";"%char.

(** [list(a | b)] on two sets of names.  Python leaves the order of the
    elements of a set open; they are listed here in order of first
    appearance. *)
Definition set_union (a b : list string) : list string :=
  nodup string_dec (a ++ b).

Definition first_part (s : string) : string :=
  match split colon 1 s with
  | hd :: _ => hd
  | [] => EmptyString
  end.

(** [str(groups)] of a nullable column. *)
Definition py_str (o : option string) : string :=
  match o with
  | Some s => s
  | None => "None"
  end.

Fixpoint as_strings (l : list json) : result (list string) :=
  match l with
  | [] => Ok []
  | JStr s :: rest => rbind (as_strings rest) (fun tl => Ok (s :: tl))
  | _ :: _ => Raise AttributeError
  end.

(** The list of strings a [for] loop runs over. *)
Definition iter_strings (v : json) : result (list string) :=
  match v with
  | JList l => as_strings l
  | _ => Raise TypeError
  end.

Definition iter_list (v : json) : result (list json) :=
  match v with
  | JList l => Ok l
  | _ => Raise TypeError
  end.

Section Manager.

Variable env : Env.

(** *** Validators *)

(** [__is_method_enabled]. *)
Definition is_method_enabled (method : string) : M bool :=
  m <- get_mgr ;;
  if in_strings method (UNSUPPORTED_METHODS env) then ret false
  else
    match dict_get ("method_" ++ method)%string (auth_config m) with
    | None => ret false
    | Some cfg =>
        enabled <- lift (py_get cfg "enabled" JNull) ;;
        ret (truthy enabled)
    end.

(** [__try_auth_token]: the bearer session token, looked up in the
    [auth_sessions] table. *)
Definition try_auth_token (auth_string : string) : M (pyval string) :=
  m <- get_mgr ;;
  if negb (database_connection m) then ret PNone
  else
    ' (user_name, tok) <- lift (unpack2 (split colon 1 auth_string)) ;;
    try_except
      (transaction ;;
       d <- get_db ;;
       match find (fun r => String.eqb (rec_user_name r) user_name
                            && String.eqb (rec_token r) tok)
                  (session_records d) with
       | None => ret PNone
       | Some r => ret (PVal (rec_token r))
       end)
      (fun _ => ret PNone).

(** [__try_personal_access_token].  The local variable
    [personal_access_token] is bound by the query only: when the query
    raises, the handler logs, and the test that follows reads a name that
    was never bound. *)
Definition try_personal_access_token (now : Z) (auth_string : string)
    : M (pyval Validation) :=
  m <- get_mgr ;;
  if negb (database_connection m) then ret PNone
  else
    ' (user_name, tok) <- lift (unpack2 (split colon 1 auth_string)) ;;
    personal_access_token <-
      try_except
        (transaction ;;
         d <- get_db ;;
         ret (Some (find (fun p => String.eqb (pat_user_name p) user_name
                                   && String.eqb (pat_token p) tok)
                         (personal_access_tokens d))))
        (fun _ => ret None) ;;
    match personal_access_token with
    | None => raise UnboundLocalError
    | Some None => ret PFalse
    | Some (Some p) =>
        if pat_expiration p <? now then ret PFalse
        else ret (PVal {| v_username := pat_user_name p;
                          v_groups := Some (split_all semicolon (py_str (pat_groups p))) |})
    end.

(** [__update_personal_access_token_groups]. *)
Definition update_personal_access_token_groups (user_name : string)
    (grps : list string) : M unit :=
  m <- get_mgr ;;
  if negb (database_connection m) then ret tt
  else
    try_except
      (transaction ;;
       modify_db (fun d =>
         set_personal_access_tokens
           (map (fun p =>
                   if String.eqb (pat_user_name p) user_name then
                     {| pat_user_name := pat_user_name p; pat_token := pat_token p;
                        pat_groups := Some (join ";" grps);
                        pat_expiration := pat_expiration p |}
                   else p)
                (personal_access_tokens d)) d))
      (fun _ => ret tt).

(** [__update_groups]. *)
Definition update_groups (user_name : string) (grps : list string) : M unit :=
  m <- get_mgr ;;
  if negb (database_connection m) then ret tt
  else
    try_except
      (transaction ;;
       modify_db (fun d =>
         set_session_records
           (map (fun r =>
                   if String.eqb (rec_user_name r) user_name then
                     {| rec_id := rec_id r; rec_token := rec_token r;
                        rec_user_name := rec_user_name r;
                        rec_groups := Some (join ";" grps);
                        rec_last_access := rec_last_access r |}
                   else r)
                (session_records d)) d))
      (fun _ => ret tt).

(** The test [__try_auth_dictionary] applies to the stored entry of the
    user: the entry is the credential itself, or it names a digest of
    [hashlib] and holds the digest of the password, the salt appended when
    there is one.  [Ok false] is the method's [return False]. *)
Definition check_password (saved_auth_string auth_string : string)
    (auth_string_split : list string) : result bool :=
  if String.eqb saved_auth_string auth_string then Ok true
  else
    let saved_auth_string_split := split colon 3 saved_auth_string in
    match nth_error saved_auth_string_split 2 with
    | None => Ok false
    | Some hash_algorithm =>
        match hashlib env hash_algorithm with
        | None => Ok false
        | Some digest =>
            match nth_error auth_string_split 1 with
            | None => Raise IndexError
            | Some password =>
                let password :=
                  match nth_error saved_auth_string_split 3 with
                  | Some salt => (password ++ salt)%string
                  | None => password
                  end in
                let saved_password_hash := nth 1 saved_auth_string_split EmptyString in
                match digest password with
                | Ok hexdigest => Ok (String.eqb saved_password_hash hexdigest)
                | Raise e => Raise e
                end
            end
        end
    end.

(** [__try_auth_dictionary]. *)
Definition try_auth_dictionary (auth_string : string) : M (pyval Validation) :=
  m <- get_mgr ;;
  match dict_get "method_dictionary" (auth_config m) with
  | None => ret PFalse
  | Some method_config =>
      if negb (truthy method_config) then ret PFalse
      else
        enabled <- is_method_enabled "dictionary" ;;
        if negb enabled then ret PFalse
        else
          let auth_string_split := split colon 1 auth_string in
          let username := nth 0 auth_string_split EmptyString in
          auths_value <- lift (py_get method_config "auths" JNull) ;;
          auths <- lift (iter_strings auths_value) ;;
          match filter (fun auth => String.eqb (first_part auth) username) auths with
          | [] => ret PFalse
          | saved_auth_string :: _ =>
              accepted <-
                lift (check_password saved_auth_string auth_string auth_string_split) ;;
              if negb accepted then ret PFalse
              else
                method_dict <- lift (as_dict method_config) ;;
                group_list <-
                  match dict_get "groups" method_dict with
                  | None => ret []
                  | Some all_groups =>
                      by_user <- lift (as_dict all_groups) ;;
                      match dict_get username by_user with
                      | None => ret []
                      | Some l => lift (as_str_list l)
                      end
                  end ;;
                update_personal_access_token_groups username group_list ;;
                ret (PVal {| v_username := username; v_groups := Some group_list |})
          end
  end.

(** [__try_auth_pam]: PAM knows no groups, and the validation object it
    builds has no ['groups'] key. *)
Definition try_auth_pam (auth_string : string) : M (pyval Validation) :=
  enabled <- is_method_enabled "pam" ;;
  if enabled then
    ' (username, password) <- lift (unpack2 (split colon 1 auth_string)) ;;
    m <- get_mgr ;;
    method_pam <- lift (dict_index "method_pam" (auth_config m)) ;;
    if pam_auth_user env method_pam username password then
      ret (PVal {| v_username := username; v_groups := None |})
    else ret PFalse
  else ret PFalse.

(** The loop of [__try_auth_ldap] over the configured authorities. *)
Fixpoint try_ldap_authorities (authorities : list json) (username password : string)
    : M (pyval Validation) :=
  match authorities with
  | [] => ret PFalse
  | ldap_conf :: rest =>
      if ldap_auth_user env ldap_conf username password then
        let grps := ldap_get_groups env ldap_conf username password in
        update_groups username grps ;;
        update_personal_access_token_groups username grps ;;
        ret (PVal {| v_username := username; v_groups := Some grps |})
      else try_ldap_authorities rest username password
  end.

(** [__try_auth_ldap]. *)
Definition try_auth_ldap (auth_string : string) : M (pyval Validation) :=
  enabled <- is_method_enabled "ldap" ;;
  if enabled then
    ' (username, password) <- lift (unpack2 (split colon 1 auth_string)) ;;
    m <- get_mgr ;;
    method_ldap <- lift (dict_index "method_ldap" (auth_config m)) ;;
    authorities_value <- lift (py_get method_ldap "authorities" JNull) ;;
    ldap_authorities <- lift (iter_list authorities_value) ;;
    try_ldap_authorities ldap_authorities username password
  else ret PFalse.

(** [__try_regex_groups]: the groups one of whose patterns is found in
    the user name. *)
Definition try_regex_groups (m : SessionManager) (username : string) : list string :=
  if negb (regex_groups_enabled m) then []
  else
    map fst
        (filter (fun entry => existsb (fun r => re_search env r username) (snd entry))
                (group_regexes_compiled m)).

(** [__handle_validation]. *)
Definition handle_validation (now : Z) (auth_string : string) : M (pyval Validation) :=
  validation <-
    py_or (try_personal_access_token now auth_string)
      (py_or (try_auth_dictionary auth_string)
         (py_or (try_auth_pam auth_string)
                (try_auth_ldap auth_string))) ;;
  match validation with
  | PVal v =>
      m <- get_mgr ;;
      let extra_groups := try_regex_groups m (v_username v) in
      match extra_groups with
      | [] => ret (PVal v)
      | _ :: _ =>
          match v_groups v with
          | None => raise (KeyError "groups")
          | Some already_groups =>
              ret (PVal {| v_username := v_username v;
                           v_groups := Some (set_union already_groups extra_groups) |})
          end
      end
  | _ => ret PFalse
  end.

(** *** Sessions: creation *)

(** [__is_root_user]. *)
Definition is_root_user (user_name : string) : M bool :=
  m <- get_mgr ;;
  if match dict_get "super_user" (auth_config m) with
     | Some v => json_is_str v user_name
     | None => false
     end
  then ret true
  else
    try_except
      (if negb (database_connection m) then raise TypeError
       else
         transaction ;;
         d <- get_db ;;
         ret (existsb (fun p => String.eqb (perm_name p) user_name
                                && String.eqb (perm_permission p) (SUPERUSER_name env))
                      (system_permissions d)))
      (fun _ => ret false).

(** [__create_local_session].  The session carries its lifetime and its
    refresh time as numbers.  With a [session_lifetime] or a refresh time of
    another type the code builds the session all the same, and [TypeError]
    comes when [is_alive] or [is_refresh_time_expire] compares the value with
    the age of the session; here it comes when the session is built.  The
    two agree on every configuration whose session policy is numeric. *)
Definition create_local_session (now : Z) (tok user_name : string)
    (grps : list string) (root : bool) (accessed : option Z) : M Session :=
  root <- (if negb root then is_root_user user_name else ret root) ;;
  m <- get_mgr ;;
  lifetime_value <- lift (dict_index "session_lifetime" (auth_config m)) ;;
  lifetime <- lift (as_num lifetime_value) ;;
  refresh <-
    (if truthy (configured_refresh_time m)
     then r <- lift (as_num (configured_refresh_time m)) ;; ret (Some r)
     else ret None) ;;
  ret (new_session now tok user_name grps lifetime refresh root
                   (database_connection m) accessed).

(** [__get_local_session_from_db]. *)
Definition get_local_session_from_db (now : Z) (tok : string) : M (option Session) :=
  m <- get_mgr ;;
  if negb (database_connection m) then ret None
  else
    try_except
      (transaction ;;
       d <- get_db ;;
       match find (fun r => String.eqb (rec_token r) tok) (session_records d) with
       | Some db_record =>
           let user_name := rec_user_name db_record in
           root <- is_root_user user_name ;;
           let grps :=
             match rec_groups db_record with
             | Some g => if is_empty_string g then [] else split_all semicolon g
             | None => []
             end in
           s <- create_local_session now tok user_name grps root
                                     (Some (rec_last_access db_record)) ;;
           ret (Some s)
       | None => ret None
       end)
      (fun _ => ret None).

(** [session.revalidate()] on a session object. *)
Definition revalidate_session (now : Z) (s : Session) : M Session :=
  fun w =>
    let '(s', d) := revalidate now s (db w) in
    (Ok s', {| mgr := mgr w; db := d |}).

Definition append_session (s : Session) : M unit :=
  modify_mgr (fun m => set_sessions (sessions m ++ [s]) m).

(** *** Sessions: removal and pruning *)

Fixpoint remove_first_with_token (tok : string) (l : list Session) : list Session :=
  match l with
  | [] => []
  | s :: rest =>
      if String.eqb (token s) tok then rest else s :: remove_first_with_token tok rest
  end.

(** [invalidate_local_session]: the first session of the list that bears
    the token leaves it. *)
Definition invalidate_local_session (tok : string) : M bool :=
  m <- get_mgr ;;
  if existsb (fun s => String.eqb (token s) tok) (sessions m) then
    put_mgr (set_sessions (remove_first_with_token tok (sessions m)) m) ;;
    ret true
  else ret false.

(** [invalidate]: the session leaves the list of the worker and, with a
    database, the rows of the token leave the store, their OAuth tokens with
    them. *)
Definition invalidate (tok : string) : M bool :=
  try_except
    (invalidate_local_session tok ;;
     m <- get_mgr ;;
     (if database_connection m then
        transaction ;;
        modify_db (delete_session_rows tok)
      else ret tt) ;;
     ret true)
    (fun _ => ret false).

(** The first loop of [__cleanup_sessions].  A Python [for] over a list
    reads position 0, 1, 2, ... of the list as it is at that moment, and
    stops at the first position beyond its end; the body removes elements
    from the very list the loop runs over.  [fuel] bounds the number of
    rounds. *)
Fixpoint cleanup_refresh_pass (fuel : nat) (now : Z) (i : nat) : M unit :=
  match fuel with
  | O => ret tt
  | S fuel' =>
      m <- get_mgr ;;
      match nth_error (sessions m) i with
      | None => ret tt
      | Some s =>
          (if is_refresh_time_expire now s
           then invalidate_local_session (token s) ;; ret tt
           else ret tt) ;;
          cleanup_refresh_pass fuel' now (S i)
      end
  end.

(** The second loop of [__cleanup_sessions]. *)
Fixpoint cleanup_lifetime_pass (fuel : nat) (now : Z) (i : nat) : M unit :=
  match fuel with
  | O => ret tt
  | S fuel' =>
      m <- get_mgr ;;
      match nth_error (sessions m) i with
      | None => ret tt
      | Some s =>
          (if negb (is_alive now s)
           then invalidate (token s) ;; ret tt
           else ret tt) ;;
          cleanup_lifetime_pass fuel' now (S i)
      end
  end.

(** [__cleanup_sessions].  No loop runs more rounds than the list has
    elements when it starts, see [cleanup_refresh_pass_fuel] and
    [cleanup_lifetime_pass_fuel]. *)
Definition cleanup_sessions (now : Z) : M unit :=
  modify_mgr (set_logins_since_prune 0) ;;
  m <- get_mgr ;;
  cleanup_refresh_pass (List.length (sessions m)) now 0 ;;
  m <- get_mgr ;;
  cleanup_lifetime_pass (List.length (sessions m)) now 0.

(** *** The operations offered to the transport layer *)

(** [create_session].  [fresh] is the token [generate_session_token]
    draws in this call. *)
Definition create_session (now : Z) (fresh : string) (auth_string : string)
    : M (pyval Session) :=
  m <- get_mgr ;;
  enabled <- lift (dict_index "enabled" (auth_config m)) ;;
  if negb (truthy enabled) then ret PNone
  else
    modify_mgr (fun m => set_logins_since_prune (logins_since_prune m + 1) m) ;;
    m <- get_mgr ;;
    limit_value <- lift (dict_index "logins_until_cleanup" (auth_config m)) ;;
    limit <- lift (as_num limit_value) ;;
    (if logins_since_prune m >=? limit then cleanup_sessions now else ret tt) ;;
    auth_token <- try_auth_token auth_string ;;
    match auth_token with
    | PVal tok =>
        local_session <- get_local_session_from_db now tok ;;
        match local_session with
        | None => raise AttributeError
        | Some s =>
            s <- revalidate_session now s ;;
            append_session s ;;
            ret (PVal s)
        end
    | _ =>
        validation <- handle_validation now auth_string ;;
        match validation with
        | PVal v =>
            let user_name := v_username v in
            let grps := match v_groups v with Some g => g | None => [] end in
            local_session <- create_local_session now fresh user_name grps false None ;;
            append_session local_session ;;
            m <- get_mgr ;;
            (if database_connection m then
               try_except
                 (transaction ;;
                  modify_db (add_session_record now fresh user_name (join ";" grps)))
                 (fun _ => ret tt)
             else ret tt) ;;
            ret (PVal local_session)
        | _ => ret PFalse
        end
    end.

(** [create_session_oauth]. *)
Definition create_session_oauth (now : Z) (fresh : string) (provider username : string)
    (oauth_access_token : string) (token_expires_at : Z) (oauth_refresh_token : string)
    (grps : option (list string)) : M (pyval Session) :=
  let grps := match grps with Some g => g | None => [] end in
  enabled <- is_method_enabled "oauth" ;;
  if negb enabled then ret PFalse
  else
    m <- get_mgr ;;
    method_oauth <- lift (py_get (JDict (auth_config m)) "method_oauth" (JDict [])) ;;
    providers_value <- lift (py_get method_oauth "providers" (JDict [])) ;;
    providers <- lift (as_dict providers_value) ;;
    match dict_get provider providers with
    | None => ret PFalse
    | Some provider_cfg =>
        provider_enabled <- lift (py_get provider_cfg "enabled" JNull) ;;
        if negb (truthy provider_enabled) then ret PFalse
        else
          local_session <- create_local_session now fresh username grps false None ;;
          append_session local_session ;;
          update_personal_access_token_groups username grps ;;
          m <- get_mgr ;;
          (if database_connection m then
             try_except
               (transaction ;;
                modify_db (add_session_record now fresh username (join ";" grps)) ;;
                d <- get_db ;;
                match find (fun r => String.eqb (rec_user_name r) username)
                           (session_records d) with
                | Some r =>
                    modify_db (add_oauth_token
                                 {| access_token := oauth_access_token;
                                    expires_at := token_expires_at;
                                    refresh_token := oauth_refresh_token;
                                    auth_session_id := rec_id r |})
                | None => raise TypeError
                end)
               (fun _ => ret tt)
           else ret tt) ;;
          ret (PVal local_session)
    end.

(** [is_enabled]. *)
Definition is_enabled (m : SessionManager) : bool :=
  truthy_opt (dict_get "enabled" (auth_config m)).

(** The scan of [get_session] over the worker's sessions: the first one
    that is alive and bears the token, with the sessions before it. *)
Fixpoint find_live (now : Z) (tok : string) (before l : list Session)
    : option (list Session * Session * list Session) :=
  match l with
  | [] => None
  | s :: rest =>
      if is_alive now s && String.eqb (token s) tok then Some (before, s, rest)
      else find_live now tok (before ++ [s]) rest
  end.

(** [get_session].  The session found in the list is the object that is
    revalidated and returned: the list holds its new state.  A session
    rehydrated from the store is appended and then revalidated in place,
    which leaves the list as appending the revalidated session does. *)
Definition get_session (now : Z) (tok : string) : M (option Session) :=
  m <- get_mgr ;;
  if negb (is_enabled m) then ret None
  else
    match find_live now tok [] (sessions m) with
    | Some (before, sess, after) =>
        if is_refresh_time_expire now sess then
          sess' <- revalidate_session now sess ;;
          modify_mgr (set_sessions (before ++ sess' :: after)) ;;
          ret (Some sess')
        else ret (Some sess)
    | None =>
        local_session <- get_local_session_from_db now tok ;;
        match local_session with
        | Some s =>
            if is_alive now s then
              (if is_refresh_time_expire now s then
                 s' <- revalidate_session now s ;;
                 append_session s' ;;
                 ret (Some s')
               else
                 append_session s ;;
                 ret (Some s))
            else
              invalidate tok ;;
              ret None
        | None =>
            invalidate tok ;;
            ret None
        end
    end.

(** *** OAuth providers *)

Definition callback_url_pattern (provider_name : string) : string :=
  let protocol := "http(s|)" in
  let website := "[a-zA-Z0-9.-_]+([:][0-9]{2,5})?(?<!/)" in
  let paths := "login[/]OAuthLogin" in
  ("^" ++ protocol ++ "://" ++ website ++ "/(?!/)" ++ paths ++ "/"
       ++ provider_name ++ "$")%string.

(** [check_callback_url_format]: [None] for a provider name with an
    ['@'], otherwise whether the pattern matches the URL. *)
Definition check_callback_url_format (provider_name callback_url : string)
    : result (option bool) :=
  if contains_char "@"%char provider_name then Ok None
  else
    match re_match env (callback_url_pattern provider_name) callback_url with
    | Ok b => Ok (Some b)
    | Raise e => Raise e
    end.

Definition check_passed (c : option bool) : bool :=
  match c with
  | Some true => true
  | _ => false
  end.

Definition skipped_params : list string :=
  ["enabled"; "client_id"; "client_secret"; "template"; "variables";
   "user_info_mapping"].

(** The loop of [__oauth_apply_templates] over the items of one provider.
    [items] are the items the loop has yet to visit; the values it assigns
    on the way belong to keys it has already visited, or to ['enabled'],
    which it skips. *)
Fixpoint format_params (provider_name : string) (variables : dict)
    (items : dict) (provider : dict) : result dict :=
  match items with
  | [] => Ok provider
  | (param, param_value) :: rest =>
      if in_strings param skipped_params then
        format_params provider_name variables rest provider
      else
        match rbind (as_str param_value) (fun t => str_format env t variables) with
        | Ok text =>
            let provider := dict_set param (JStr text) provider in
            if String.eqb param "callback_url" then
              match check_callback_url_format provider_name text with
              | Ok c =>
                  format_params provider_name variables rest
                    (if check_passed c then provider
                     else dict_set "enabled" (JBool false) provider)
              | Raise (KeyError _) => Ok (dict_set "enabled" (JBool false) provider)
              | Raise e => Raise e
              end
            else format_params provider_name variables rest provider
        | Raise (KeyError _) => Ok (dict_set "enabled" (JBool false) provider)
        | Raise e => Raise e
        end
  end.

Definition as_mapping (v : json) : result dict :=
  match v with
  | JDict d => Ok d
  | _ => Raise TypeError
  end.

(** The variables of one provider: the shared ones, overridden by its
    own, with its name; a host left at the placeholder is dropped. *)
Definition provider_variables (shared_variables : json) (provider_name : string)
    (provider : dict) : result dict :=
  rbind (as_mapping shared_variables) (fun shared =>
  rbind (as_mapping (match dict_get "variables" provider with
                     | Some v => v
                     | None => JDict []
                     end)) (fun own =>
  let variables := dict_update (dict_update [] shared) own in
  let variables := dict_set "provider" (JStr provider_name) variables in
  Ok (if match dict_get "host" variables with
         | Some h => json_is_str h "https://<server_host>"
         | None => false
         end
      then dict_del "host" variables
      else variables))).

(** The template named by a provider, as [OAUTH_TEMPLATES.get] finds it. *)
Definition lookup_template (template_name : json) : result (option json) :=
  match template_name with
  | JStr s => Ok (dict_get s (OAUTH_TEMPLATES env))
  | JList _ | JDict _ => Raise TypeError
  | _ => Ok None
  end.

(** One round of the outer loop of [__oauth_apply_templates]. *)
Definition apply_template (shared_variables : json) (provider_name : string)
    (provider_value : json) : result json :=
  rbind (py_get provider_value "enabled" JNull) (fun enabled =>
  if negb (truthy enabled) then Ok provider_value
  else
    rbind (as_dict provider_value) (fun provider =>
    let template_name :=
      match dict_get "template" provider with
      | Some t => t
      | None => JStr "default"
      end in
    rbind (lookup_template template_name) (fun template =>
    if negb (truthy_opt template) then
      Ok (JDict (dict_set "enabled" (JBool false) provider))
    else if json_is_str template_name "default" then
      Ok (JDict (dict_set "enabled" (JBool false) provider))
    else
      rbind (as_dict (match template with Some t => t | None => JNull end))
        (fun defaults =>
      let provider :=
        fold_left (fun p kv => dict_setdefault (fst kv) (snd kv) p) defaults provider in
      rbind (provider_variables shared_variables provider_name provider)
        (fun variables =>
      rbind (format_params provider_name variables provider provider)
        (fun provider => Ok (JDict provider))))))).

Fixpoint apply_templates (shared_variables : json) (providers : dict) : result dict :=
  match providers with
  | [] => Ok []
  | (provider_name, provider) :: rest =>
      rbind (apply_template shared_variables provider_name provider) (fun p =>
      rbind (apply_templates shared_variables rest) (fun rest' =>
      Ok ((provider_name, p) :: rest')))
  end.

(** [__oauth_apply_templates], run once by the constructor: the
    authentication configuration with every provider prepared.  The
    constructor does not survive an exception raised here. *)
Definition oauth_apply_templates (config : dict) : result dict :=
  match dict_get "method_oauth" config with
  | None => Ok config
  | Some method_oauth =>
      rbind (py_get method_oauth "providers" (JDict [])) (fun providers_value =>
      rbind (py_get method_oauth "shared_variables" (JDict [])) (fun shared_variables =>
      rbind (as_dict providers_value) (fun providers =>
      rbind (as_dict method_oauth) (fun oauth =>
      rbind (apply_templates shared_variables providers) (fun providers' =>
      Ok (match providers with
          | [] => config
          | _ => dict_set "method_oauth"
                   (JDict (dict_set "providers" (JDict providers') oauth)) config
          end))))))
  end.

(** The provider table of a configuration. *)
Definition oauth_providers_of (config : dict) : result dict :=
  rbind (py_get (JDict config) "method_oauth" (JDict [])) (fun method_oauth =>
  rbind (py_get method_oauth "providers" (JDict [])) as_dict).

Fixpoint enabled_names (providers : dict) : result (list string) :=
  match providers with
  | [] => Ok []
  | (name, cfg) :: rest =>
      rbind (py_get cfg "enabled" (JBool false)) (fun enabled =>
      rbind (enabled_names rest) (fun names =>
      Ok (if truthy enabled then name :: names else names)))
  end.

(** [get_oauth_providers]. *)
Definition get_oauth_providers (m : SessionManager) : result (list string) :=
  rbind (oauth_providers_of (auth_config m)) enabled_names.

(** [get_oauth_config]: the provider's configuration; the provider is
    switched off first when its client id or secret is the example value. *)
Definition get_oauth_config (provider : string) : M json :=
  let read (m : SessionManager) : result json :=
    rbind (py_get (JDict (auth_config m)) "method_oauth" (JDict [])) (fun method_oauth =>
    rbind (py_get method_oauth "providers" (JDict [])) (fun providers =>
    py_get providers provider (JDict []))) in
  m <- get_mgr ;;
  provider_cfg <- lift (read m) ;;
  client_secret <- lift (py_get provider_cfg "client_secret" (JStr "ExampleClientSecret")) ;;
  client_id <- lift (py_get provider_cfg "client_id" (JStr "ExampleClientID")) ;;
  (if py_eqb client_secret (JStr "ExampleClientSecret")
      || py_eqb client_id (JStr "ExampleClientID")
   then
     method_oauth <- lift (dict_index "method_oauth" (auth_config m)) ;;
     oauth <- lift (as_mapping method_oauth) ;;
     providers_value <- lift (dict_index "providers" oauth) ;;
     providers <- lift (as_mapping providers_value) ;;
     cfg_value <- lift (dict_index provider providers) ;;
     cfg <- lift (as_mapping cfg_value) ;;
     let cfg := dict_set "enabled" (JBool false) cfg in
     let providers := dict_set provider (JDict cfg) providers in
     let oauth := dict_set "providers" (JDict providers) oauth in
     put_mgr (set_auth_config (dict_set "method_oauth" (JDict oauth) (auth_config m)) m)
   else ret tt) ;;
  m <- get_mgr ;;
  lift (read m).

(** *** Reloading the configuration *)

(** Modelled from the spec: [load_json] of [codechecker_common.util], which
    is not part of this module.  The configuration source holds a parsed
    document, or nothing when the file cannot be read or parsed, in which
    case the given default is returned. *)
Definition load_json (source : option json) (default : json) : json :=
  match source with
  | Some document => document
  | None => default
  end.

(** [__get_config_dict]: an empty dictionary stands for a file that
    could not be parsed. *)
Definition get_config_dict (source : option json) : result json :=
  let cfg_dict := load_json source (JDict []) in
  if negb (py_eqb cfg_dict (JDict [])) then Ok cfg_dict
  else Raise ValueError.

Inductive reload_report : Type :=
| Reloaded
| ReloadError.

Definition auth_fields_to_update : list string :=
  ["session_lifetime"; "refresh_time"; "logins_until_cleanup"].

(** The loop of [reload_config] over the three fields of the
    authentication section; the flag tells whether one of them changed. *)
Fixpoint update_auth_fields (cfg_dict : json) (fields : list string)
    (config : dict) (update_sessions : bool) : result (dict * bool) :=
  match fields with
  | [] => Ok (config, update_sessions)
  | field :: rest =>
      match dict_get field config with
      | None => update_auth_fields cfg_dict rest config update_sessions
      | Some prev_value =>
          rbind (rbind (as_dict cfg_dict) (dict_index "authentication"))
            (fun authentication =>
          rbind (py_get authentication field (JNum 0)) (fun new_value =>
          if negb (py_eqb prev_value new_value) then
            update_auth_fields cfg_dict rest (dict_set field new_value config) true
          else update_auth_fields cfg_dict rest config update_sessions))
      end
  end.

(** The loop of [reload_config] over the sessions of the worker: each
    session takes the lifetime, then the refresh time, of the
    configuration.  A key that is missing stops the loop where it stands,
    the sessions keeping what was assigned before. *)
Fixpoint adopt_policy (config : dict) (l : list Session)
    : list Session * result unit :=
  match l with
  | [] => ([], Ok tt)
  | session :: rest =>
      match rbind (dict_index "session_lifetime" config) as_num with
      | Raise e => (l, Raise e)
      | Ok lifetime =>
          let session := set_policy lifetime (refresh_time session) session in
          match rbind (dict_index "refresh_time" config)
                      (fun v => match v with
                                | JNull => Ok None
                                | _ => rbind (as_num v) (fun r => Ok (Some r))
                                end) with
          | Raise e => (session :: rest, Raise e)
          | Ok refresh =>
              let '(rest', r) := adopt_policy config rest in
              (set_policy lifetime refresh session :: rest', r)
          end
      end
  end.

(** The body of the [try] of [reload_config]. *)
Definition reload_body (source : option json) : M unit :=
  cfg_dict <- lift (get_config_dict source) ;;
  m <- get_mgr ;;
  new_max_run_count <- lift (py_get cfg_dict "max_run_count" JNull) ;;
  (if negb (py_eqb (max_run_count m) new_max_run_count)
   then modify_mgr (set_max_run_count new_max_run_count)
   else ret tt) ;;
  new_store_config_val <- lift (py_get cfg_dict "store" (JDict [])) ;;
  (if negb (json_dumps_eqb (store_config m) new_store_config_val)
   then modify_mgr (set_store_config new_store_config_val)
   else ret tt) ;;
  m <- get_mgr ;;
  ' (config, update_sessions) <-
    lift (update_auth_fields cfg_dict auth_fields_to_update (auth_config m) false) ;;
  put_mgr (set_auth_config config m) ;;
  if update_sessions then
    m <- get_mgr ;;
    let '(l, r) := adopt_policy (auth_config m) (sessions m) in
    put_mgr (set_sessions l m) ;;
    lift r
  else ret tt.

(** [reload_config]: only a [ValueError] is caught, and reported. *)
Definition reload_config (source : option json) : M reload_report :=
  fun w =>
    match reload_body source w with
    | (Ok _, w') => (Ok Reloaded, w')
    | (Raise ValueError, w') => (Ok ReloadError, w')
    | (Raise e, w') => (Raise e, w')
    end.

End Manager.

(** ** Reference collaborators

    Executable stand-ins for the libraries behind [Env], each on the part of
    its domain the examples below use. *)

Module Reference.

(** [str.format] on templates whose replacement fields are plain names
    bound to strings; [{{] and [}}] stand for the braces themselves. *)
Fixpoint read_field (s : string) (name : string) : option (string * string) :=
  match s with
  | EmptyString => None
  | String c rest =>
      if Ascii.eqb c "}"%char then Some (name, rest)
      else read_field rest (name ++ String c EmptyString)%string
  end.

Fixpoint format_fields (fuel : nat) (template : string) (variables : dict)
    : result string :=
  match fuel with
  | O => Ok EmptyString
  | S fuel' =>
      match template with
      | EmptyString => Ok EmptyString
      | String c rest =>
          if Ascii.eqb c "{"%char then
            match rest with
            | String "{"%char rest' =>
                rbind (format_fields fuel' rest' variables)
                      (fun tl => Ok (String "{"%char tl))
            | _ =>
                match read_field rest EmptyString with
                | None => Raise ValueError
                | Some (name, rest') =>
                    if is_empty_string name then Raise IndexError
                    else
                      match dict_get name variables with
                      | None => Raise (KeyError name)
                      | Some (JStr v) =>
                          rbind (format_fields fuel' rest' variables)
                                (fun tl => Ok (v ++ tl)%string)
                      | Some _ => Raise TypeError
                      end
                end
            end
          else if Ascii.eqb c "}"%char then
            match rest with
            | String "}"%char rest' =>
                rbind (format_fields fuel' rest' variables)
                      (fun tl => Ok (String "}"%char tl))
            | _ => Raise ValueError
            end
          else
            rbind (format_fields fuel' rest variables) (fun tl => Ok (String c tl))
      end
  end.

Definition format (template : string) (variables : dict) : result string :=
  format_fields (S (String.length template)) template variables.

(** [re.search] for a pattern made of literal characters: the pattern
    occurs in the text. *)
Fixpoint occurs (pattern text : string) : bool :=
  String.prefix pattern text
  || match text with
     | EmptyString => false
     | String _ rest => occurs pattern rest
     end.

Fixpoint strip_prefix (p s : string) : option string :=
  match p, s with
  | EmptyString, _ => Some s
  | String a p', String b s' => if Ascii.eqb a b then strip_prefix p' s' else None
  | String _ _, EmptyString => None
  end.

Fixpoint reverse (s acc : string) : string :=
  match s with
  | EmptyString => acc
  | String c rest => reverse rest (String c acc)
  end.

Definition strip_suffix (p s : string) : option string :=
  match strip_prefix (reverse p EmptyString) (reverse s EmptyString) with
  | Some r => Some (reverse r EmptyString)
  | None => None
  end.

(** The characters of the class [[a-zA-Z0-9.-_]]: lower-case letters and
    the range from ['.'] to ['_']. *)
Definition website_char (c : ascii) : bool :=
  let n := N_of_ascii c in
  ((46 <=? n) && (n <=? 95) || (97 <=? n) && (n <=? 122))%N.

Fixpoint all_chars (f : ascii -> bool) (s : string) : bool :=
  match s with
  | EmptyString => true
  | String c rest => f c && all_chars f rest
  end.

Definition last_is_slash (s : string) : bool :=
  match reverse s EmptyString with
  | String "/"%char _ => true
  | _ => false
  end.

Definition line_feed : ascii := ascii_of_nat 10.

(** The characters [re] reads as operators. *)
Definition operator_char (c : ascii) : bool :=
  existsb (Ascii.eqb c) (list_ascii_of_string ".^$*+?{}[]\|()").

(** The provider name stands in the pattern as it is written: a dot of the
    name matches any character but a line feed, a character that is no
    operator matches itself. *)
Definition name_pattern_char (c : ascii) : bool :=
  Ascii.eqb c "."%char || negb (operator_char c).

Fixpoint name_matches (provider_name text : string) : bool :=
  match provider_name, text with
  | EmptyString, EmptyString => true
  | String p name', String c text' =>
      (if Ascii.eqb p "."%char then negb (Ascii.eqb c line_feed) else Ascii.eqb p c)
      && name_matches name' text'
  | _, _ => false
  end.

(** The text from its first character to the end of the text: a scheme, a
    non-empty run of website characters that does not end in a slash, the
    login path and the name.  The optional port of the pattern adds nothing:
    the colon and the digits are website characters. *)
Definition matches_to_the_end (provider_name url : string) : bool :=
  let n := String.length provider_name in
  let len := String.length url in
  (n <=? len)%nat
  && name_matches provider_name (substring (len - n) n url)
  && match strip_suffix "/login/OAuthLogin/" (substring 0 (len - n) url) with
     | None => false
     | Some front =>
         let site :=
           match strip_prefix "https://" front with
           | Some w => Some w
           | None => strip_prefix "http://" front
           end in
         match site with
         | None => false
         | Some w =>
             negb (is_empty_string w) && all_chars website_char w
             && negb (last_is_slash w)
         end
     end.

(** The pattern of the callback URL: [$] stands at the end of the text, or
    before a line feed that ends it. *)
Definition callback_matches (provider_name url : string) : bool :=
  matches_to_the_end provider_name url
  || match strip_suffix (String line_feed EmptyString) url with
     | Some u => matches_to_the_end provider_name u
     | None => false
     end.

(** [re.compile(pattern).match(text)] for the patterns
    [check_callback_url_format] builds, the provider name being made of dots
    and of characters that are no operators of [re].  A name with another
    operator in it makes a pattern of another shape, which this stand-in does
    not read: it answers [ReError] there, where [re] may compile the pattern. *)
Definition match_callback_pattern (pattern text : string) : result bool :=
  let head := "^http(s|)://[a-zA-Z0-9.-_]+([:][0-9]{2,5})?(?<!/)/(?!/)login[/]OAuthLogin/" in
  match strip_prefix head pattern with
  | None => Raise ReError
  | Some tail =>
      match strip_suffix "$" tail with
      | None => Raise ReError
      | Some provider_name =>
          if all_chars name_pattern_char provider_name
          then Ok (callback_matches provider_name text)
          else Raise ReError
      end
  end.

(** A template table with one entry, in the shape of the table of the
    server. *)
Definition templates : dict :=
  [("github/v1",
    JDict [("callback_url", JStr "{host}/login/OAuthLogin/{provider}");
           ("scope", JStr "openid email profile")])].

(** PAM and LDAP accept the one account [bob], password [builder]; LDAP
    reports the group [ldap_users]. *)
Definition bob_builder (config : json) (username password : string) : bool :=
  String.eqb username "bob" && String.eqb password "builder".

Definition env : Env :=
  {| UNSUPPORTED_METHODS := [];
     OAUTH_TEMPLATES := templates;
     SUPERUSER_name := "SUPERUSER";
     re_match := match_callback_pattern;
     re_search := occurs;
     str_format := format;
     hashlib_attr := fun _ => None;
     pam_auth_user := bob_builder;
     ldap_auth_user := bob_builder;
     ldap_get_groups := fun _ _ _ => ["ldap_users"] |}.

End Reference.

(** ** The validator chain, as the design states it

    The design describes credential validation as an ordered list of
    validators, walked until the first one succeeds.  [create_session_by_chain]
    is written from that description, over the validators of the module, to
    be compared with [create_session]. *)

Section Chain.

Variable env : Env.

Inductive validator : Type :=
| BearerToken
| PersonalToken
| Dictionary
| Pam
| Ldap.

(** What a validator that succeeds hands on: a stored session to
    rehydrate, or an identity with its groups. *)
Inductive accepted : Type :=
| Rehydrate (tok : string)
| Identity (v : Validation).

Definition accepted_by {A} (f : A -> accepted) (r : pyval A) : option accepted :=
  match r with
  | PVal a => Some (f a)
  | _ => None
  end.

Definition run_validator (now : Z) (v : validator) (auth_string : string)
    : M (option accepted) :=
  match v with
  | BearerToken =>
      r <- try_auth_token auth_string ;; ret (accepted_by Rehydrate r)
  | PersonalToken =>
      r <- try_personal_access_token now auth_string ;; ret (accepted_by Identity r)
  | Dictionary =>
      r <- try_auth_dictionary env auth_string ;; ret (accepted_by Identity r)
  | Pam =>
      r <- try_auth_pam env auth_string ;; ret (accepted_by Identity r)
  | Ldap =>
      r <- try_auth_ldap env auth_string ;; ret (accepted_by Identity r)
  end.

(** The validators are tried in the order of the list; the first one
    that succeeds ends the walk, and the ones after it are not run. *)
Fixpoint first_accepting (now : Z) (chain : list validator) (auth_string : string)
    : M (option (validator * accepted)) :=
  match chain with
  | [] => ret None
  | v :: rest =>
      r <- run_validator now v auth_string ;;
      match r with
      | Some a => ret (Some (v, a))
      | None => first_accepting now rest auth_string
      end
  end.

(** The count of logins, and the pruning it triggers. *)
Definition count_login (now : Z) : M unit :=
  modify_mgr (fun m => set_logins_since_prune (logins_since_prune m + 1) m) ;;
  m <- get_mgr ;;
  limit_value <- lift (dict_index "logins_until_cleanup" (auth_config m)) ;;
  limit <- lift (as_num limit_value) ;;
  if logins_since_prune m >=? limit then cleanup_sessions now else ret tt.

(** A stored session is brought back into the worker's list. *)
Definition rehydrate (now : Z) (tok : string) : M (pyval Session) :=
  local_session <- get_local_session_from_db env now tok ;;
  match local_session with
  | None => raise AttributeError
  | Some s =>
      s <- revalidate_session now s ;;
      append_session s ;;
      ret (PVal s)
  end.

(** The groups the patterns grant are added to those of the validator. *)
Definition add_regex_groups (v : Validation) : M Validation :=
  m <- get_mgr ;;
  match try_regex_groups env m (v_username v) with
  | [] => ret v
  | extra_groups =>
      match v_groups v with
      | None => raise (KeyError "groups")
      | Some already_groups =>
          ret {| v_username := v_username v;
                 v_groups := Some (set_union already_groups extra_groups) |}
      end
  end.

(** A new session is issued for a validated identity, in the worker's
    list and in the store. *)
Definition issue (now : Z) (fresh : string) (v : Validation) : M (pyval Session) :=
  let user_name := v_username v in
  let grps := match v_groups v with Some g => g | None => [] end in
  local_session <- create_local_session env now fresh user_name grps false None ;;
  append_session local_session ;;
  m <- get_mgr ;;
  (if database_connection m then
     try_except
       (transaction ;;
        modify_db (add_session_record now fresh user_name (join ";" grps)))
       (fun _ => ret tt)
   else ret tt) ;;
  ret (PVal local_session).

(** What becomes of the outcome of the walk. *)
Definition after_chain (now : Z) (fresh : string) (r : option (validator * accepted))
    : M (pyval Session) :=
  match r with
  | None => ret PFalse
  | Some (_, Rehydrate tok) => rehydrate now tok
  | Some (_, Identity v) => v <- add_regex_groups v ;; issue now fresh v
  end.

(** The creation of a session over a chain of validators. *)
Definition create_session_by_chain (chain : list validator) (now : Z) (fresh : string)
    (auth_string : string) : M (pyval Session) :=
  m <- get_mgr ;;
  enabled <- lift (dict_index "enabled" (auth_config m)) ;;
  if negb (truthy enabled) then ret PNone
  else
    count_login now ;;
    r <- first_accepting now chain auth_string ;;
    after_chain now fresh r.

(** What [create_session] does with the outcome of [__handle_validation]. *)
Definition after_validation (now : Z) (fresh : string) (validation : pyval Validation)
    : M (pyval Session) :=
  match validation with
  | PVal v => issue now fresh v
  | _ => ret PFalse
  end.

(** The groups of the patterns are added, and the session is issued. *)
Definition regex_then_issue (now : Z) (fresh : string) (r : pyval Validation)
    : M (pyval Session) :=
  match r with
  | PVal v => v <- add_regex_groups v ;; issue now fresh v
  | _ => ret PFalse
  end.

End Chain.

(** ** Runs of [revalidate] *)

(** The session is revalidated at each of the given instants in turn. *)
Fixpoint revalidate_many (times : list Z) (s : Session) (d : Database)
    : Session * Database :=
  match times with
  | [] => (s, d)
  | t :: rest =>
      let '(s', d') := revalidate t s d in
      revalidate_many rest s' d'
  end.

(** ** The callback URL a provider ends up with *)

Section Callback.

Variable env : Env.

(** The provider as the inner loop of [__oauth_apply_templates] meets it:
    enabled, with a named template whose defaults have been filled in. *)
Definition provider_with_defaults (provider_value : json) : option dict :=
  match py_get provider_value "enabled" JNull, provider_value with
  | Ok enabled, JDict provider =>
      if truthy enabled then
        let template_name :=
          match dict_get "template" provider with
          | Some t => t
          | None => JStr "default"
          end in
        match lookup_template env template_name with
        | Ok (Some (JDict defaults)) =>
            if truthy (JDict defaults) && negb (json_is_str template_name "default") then
              Some (fold_left (fun p kv => dict_setdefault (fst kv) (snd kv) p)
                              defaults provider)
            else None
        | _ => None
        end
      else None
  | _, _ => None
  end.

(** The callback URL of the provider after substitution of the
    variables. *)
Definition substituted_callback_url (shared_variables : json) (provider_name : string)
    (provider_value : json) : option string :=
  match provider_with_defaults provider_value with
  | None => None
  | Some provider =>
      match provider_variables shared_variables provider_name provider,
            dict_get "callback_url" provider with
      | Ok variables, Some (JStr template) =>
          match str_format env template variables with
          | Ok url => Some url
          | Raise _ => None
          end
      | _, _ => None
      end
  end.

Definition shared_variables_of (config : dict) : json :=
  match dict_get "method_oauth" config with
  | Some (JDict oauth) =>
      match dict_get "shared_variables" oauth with
      | Some v => v
      | None => JDict []
      end
  | _ => JDict []
  end.

(** The client id or the client secret is the example value, or is
    missing. *)
Definition left_at_example_values (provider_cfg : json) : bool :=
  match py_get provider_cfg "client_secret" (JStr "ExampleClientSecret"),
        py_get provider_cfg "client_id" (JStr "ExampleClientID") with
  | Ok client_secret, Ok client_id =>
      py_eqb client_secret (JStr "ExampleClientSecret")
      || py_eqb client_id (JStr "ExampleClientID")
  | _, _ => false
  end.

End Callback.

(** ** The callback URL, as the design states it

    Modelled from the spec: the design gives the pattern of the callback URL
    as [^http(s)?://<host[:port]>/(?!/)login/OAuthLogin/<provider_name>$].
    [required_callback_url] is written from that description, to be compared
    with [check_callback_url_format]: a scheme, a host, a port if there is a
    colon, the login path and the name of the provider, and nothing else.  A
    host is a non-empty run of letters, digits, dots, hyphens and underscores,
    a port a non-empty run of digits. *)

Definition is_digit (c : ascii) : bool :=
  let n := N_of_ascii c in
  ((48 <=? n) && (n <=? 57))%N.

Definition is_letter (c : ascii) : bool :=
  let n := N_of_ascii c in
  ((65 <=? n) && (n <=? 90) || (97 <=? n) && (n <=? 122))%N.

Definition host_char (c : ascii) : bool :=
  is_letter c || is_digit c
  || Ascii.eqb c "."%char || Ascii.eqb c "-"%char || Ascii.eqb c "_"%char.

(** The text before the first colon, and the text after it when there is
    one. *)
Fixpoint split_at_colon (s : string) : string * option string :=
  match s with
  | EmptyString => (EmptyString, None)
  | String c rest =>
      if Ascii.eqb c ":"%char then (EmptyString, Some rest)
      else let (host, port) := split_at_colon rest in (String c host, port)
  end.

Definition is_host_and_port (site : string) : bool :=
  let (host, port) := split_at_colon site in
  negb (is_empty_string host) && Reference.all_chars host_char host
  && match port with
     | None => true
     | Some p => negb (is_empty_string p) && Reference.all_chars is_digit p
     end.

Definition required_callback_url (provider_name callback_url : string) : bool :=
  match Reference.strip_suffix ("/login/OAuthLogin/" ++ provider_name) callback_url with
  | None => false
  | Some front =>
      match Reference.strip_prefix "https://" front with
      | Some site => is_host_and_port site
      | None =>
          match Reference.strip_prefix "http://" front with
          | Some site => is_host_and_port site
          | None => false
          end
      end
  end.

(** ** Sample states *)

Module Samples.

Definition empty_database : Database :=
  {| session_records := [];
     personal_access_tokens := [];
     system_permissions := [];
     oauth_tokens := [];
     next_session_id := 1;
     faults := [] |}.

(** An authentication section: sessions live 300 seconds and are due for
    refresh after 60; the sessions are pruned every 30 logins. *)
Definition config (methods : dict) : dict :=
  [("enabled", JBool true);
   ("session_lifetime", JNum 300);
   ("refresh_time", JNum 60);
   ("logins_until_cleanup", JNum 30);
   ("super_user", JStr "root")] ++ methods.

Definition manager (connected : bool) (methods : dict) : SessionManager :=
  {| database_connection := connected;
     logins_since_prune := 0;
     sessions := [];
     auth_config := config methods;
     max_run_count := JNull;
     store_config := JDict [];
     configured_refresh_time := JNum 60;
     regex_groups_enabled := false;
     group_regexes_compiled := [] |}.

Definition method_dictionary (auths : list string) : dict :=
  [("method_dictionary",
    JDict [("enabled", JBool true); ("auths", JList (map JStr auths))])].

(** The digest of the dictionary entry as the design document prints it,
    and the SHA-256 digest of [password]. *)
Definition printed_digest : string :=
  "5e884898da28047151d0e56f8dc6292773603d0d6aabbdd62a11ef721d1542d".
Definition password_digest : string :=
  "5e884898da28047151d0e56f8dc6292773603d0d6aabbdd62a11ef721d1542d8".

Definition alice_entry (digest : string) : string :=
  ("alice:" ++ digest ++ ":sha256")%string.

(** The identity the dictionary backend hands back for [alice], who is
    in no group. *)
Definition alice : Validation := {| v_username := "alice"; v_groups := Some [] |}.

(** A worker with the dictionary backend and no database. *)
Definition dictionary_world (digest : string) (d : Database) : World :=
  {| mgr := manager false (method_dictionary [alice_entry digest]); db := d |}.

(** A worker connected to a database whose second transaction fails. *)
Definition failing_store_world : World :=
  {| mgr := manager true (method_dictionary ["alice:secret"]);
     db := set_faults [false; true] empty_database |}.

(** A worker without a database, PAM enabled, and a pattern that grants
    the group [builders] to user names containing [bob]. *)
Definition pam_manager : SessionManager :=
  {| database_connection := false;
     logins_since_prune := 0;
     sessions := [];
     auth_config := config [("method_pam", JDict [("enabled", JBool true)])];
     max_run_count := JNull;
     store_config := JDict [];
     configured_refresh_time := JNum 60;
     regex_groups_enabled := true;
     group_regexes_compiled := [("builders", ["bob"])] |}.

Definition pam_world : World := {| mgr := pam_manager; db := empty_database |}.

(** A worker where both the dictionary and PAM accept [bob:builder]; the
    dictionary puts [bob] in the group [staff]. *)
Definition two_backends_world : World :=
  {| mgr := manager false
              [("method_dictionary",
                JDict [("enabled", JBool true);
                       ("auths", JList [JStr "bob:builder"]);
                       ("groups", JDict [("bob", JList [JStr "staff"])])]);
               ("method_pam", JDict [("enabled", JBool true)])];
     db := empty_database |}.

(** Three sessions at instant 1000: [ann] and [ben] are due for refresh
    and within their lifetime, [eve] is beyond hers.  Each has its row in
    the store. *)
Definition session_of (tok name : string) (accessed : Z) : Session :=
  {| token := tok; user := name; groups := [];
     session_lifetime := 300; refresh_time := Some 60;
     is_root := false; has_database := true; last_access := accessed |}.

Definition row_of (id : Z) (tok name : string) (accessed : Z) : SessionRecord :=
  {| rec_id := id; rec_token := tok; rec_user_name := name;
     rec_groups := Some ""; rec_last_access := accessed |}.

Definition ann : Session := session_of "t-ann" "ann" 900.
Definition ben : Session := session_of "t-ben" "ben" 920.
Definition eve : Session := session_of "t-eve" "eve" 100.

Definition three_rows : list SessionRecord :=
  [row_of 1 "t-ann" "ann" 900; row_of 2 "t-ben" "ben" 920; row_of 3 "t-eve" "eve" 100].

Definition prune_world (logins : Z) : World :=
  {| mgr := set_logins_since_prune logins
              (set_sessions [ann; ben; eve] (manager true []));
     db := {| session_records := three_rows;
              personal_access_tokens := [];
              system_permissions := [];
              oauth_tokens := [];
              next_session_id := 4;
              faults := [] |} |}.

(** OAuth: a provider left at the example client id and secret. *)
Definition example_provider : json :=
  JDict [("enabled", JBool true);
         ("client_id", JStr "ExampleClientID");
         ("client_secret", JStr "ExampleClientSecret");
         ("template", JStr "github/v1")].

Definition oauth_section (providers : dict) : dict :=
  [("method_oauth",
    JDict [("enabled", JBool true);
           ("shared_variables",
            JDict [("host", JStr "http://localhost:8080");
                   ("oauth_host", JStr "http://localhost:3000")]);
           ("providers", JDict providers)])].

Definition example_world : World :=
  {| mgr := manager false (oauth_section [("github", example_provider)]);
     db := empty_database |}.

(** OAuth: the providers [github] and [always_off] of the test
    environment of the server; the second one has a callback URL of its
    own, which does not fit the pattern. *)
Definition github : json :=
  JDict [("enabled", JBool true);
         ("client_id", JStr "1");
         ("client_secret", JStr "1");
         ("template", JStr "github/v1");
         ("authorization_url", JStr "{oauth_host}/login");
         ("token_url", JStr "{oauth_host}/token")].

Definition always_off : json :=
  JDict [("enabled", JBool true);
         ("client_id", JStr "4");
         ("client_secret", JStr "4");
         ("template", JStr "github/v1");
         ("authorization_url", JStr "{oauth_host}/login");
         ("callback_url", JStr "https://gjtujg//loginOAuthLogin/fakeprovider");
         ("token_url", JStr "{oauth_host}/token")].

Definition test_providers : dict := [("github", github); ("always_off", always_off)].

Definition test_config : dict := config (oauth_section test_providers).

(** The same configuration once [__oauth_apply_templates] has run over it. *)
Definition prepared_test_config : dict :=
  Eval vm_compute in
    match oauth_apply_templates Reference.env test_config with
    | Ok c => c
    | Raise _ => []
    end.

(** OAuth: a provider [github] whose callback URL has credentials and a
    path of its own between the scheme and the login path, and one whose
    callback URL has a hyphen in the host. *)
Definition detour_url : string := "http://user:pw@host/x/y/login/OAuthLogin/github".

Definition hyphen_url : string := "https://my-host.example.com/login/OAuthLogin/github".

Definition github_at (callback_url : string) : json :=
  JDict [("enabled", JBool true);
         ("client_id", JStr "1");
         ("client_secret", JStr "1");
         ("template", JStr "github/v1");
         ("authorization_url", JStr "{oauth_host}/login");
         ("callback_url", JStr callback_url);
         ("token_url", JStr "{oauth_host}/token")].

Definition config_at (callback_url : string) : dict :=
  config (oauth_section [("github", github_at callback_url)]).

End Samples.

(** ** More of the module *)

(** [get_worker_processes]: the configured number of worker processes, or
    the number of processors when none is configured or the configured one is
    negative. *)
Definition get_worker_processes (cpu_count : Z) (scfg_dict : json) : result Z :=
  rbind (py_get scfg_dict "worker_processes" (JNum cpu_count)) (fun value =>
  rbind (as_num value) (fun worker_processes =>
  Ok (if worker_processes <? 0 then cpu_count else worker_processes))).

(** [get_user_name]. *)
Definition get_user_name (auth_string : string) : string :=
  nth 0 (split_all colon auth_string) EmptyString.

(** [turn_off_oauth_provider]. *)
Definition turn_off_oauth_provider (provider_name : string) : M unit :=
  (m <- get_mgr ;;
   method_oauth <- lift (dict_index "method_oauth" (auth_config m)) ;;
   providers_value <- lift (py_get method_oauth "providers" (JDict [])) ;;
   oauth_config <- lift (as_mapping providers_value) ;;
   cfg_value <- lift (dict_index provider_name oauth_config) ;;
   cfg <- lift (as_mapping cfg_value) ;;
   oauth <- lift (as_mapping method_oauth) ;;
   let cfg := dict_set "enabled" (JBool false) cfg in
   let oauth_config := dict_set provider_name (JDict cfg) oauth_config in
   let oauth := dict_set "providers" (JDict oauth_config) oauth in
   put_mgr (set_auth_config (dict_set "method_oauth" (JDict oauth) (auth_config m)) m))%M.

(** [get_max_run_count], [get_analysis_statistics_dir]. *)
Definition get_max_run_count (m : SessionManager) : json := max_run_count m.

Definition get_analysis_statistics_dir (m : SessionManager) : result json :=
  py_get (store_config m) "analysis_statistics_dir" JNull.

(** ** Notions used by the properties *)

(** A computation keeps a property of the state, whatever it returns or
    raises. *)
Definition preserves {A : Type} (P : World -> Prop) (c : M A) : Prop :=
  forall w, P w -> P (snd (c w)).

(** The tables of the store, the script of failures left aside. *)
Definition tables (d : Database)
    : list SessionRecord * list PersonalAccessToken * list SystemPermission
      * list OAuthToken * Z :=
  (session_records d, personal_access_tokens d, system_permissions d,
   oauth_tokens d, next_session_id d).

(** The answer of [__is_root_user] when the store answers: the user is the
    configured super user, or holds the super-user permission. *)
Definition root_status (env : Env) (config : dict) (perms : list SystemPermission)
    (user_name : string) : bool :=
  match dict_get "super_user" config with
  | Some v => json_is_str v user_name
  | None => false
  end
  || existsb (fun p => String.eqb (perm_name p) user_name
                       && String.eqb (perm_permission p) (SUPERUSER_name env))
             perms.

(** The number of sessions of a list that bear a token. *)
Definition count_token (tok : string) (l : list Session) : nat :=
  List.length (filter (fun s => String.eqb (token s) tok) l).

(** The part of a row that [revalidate] never writes. *)
Definition row_identity (r : SessionRecord) : Z * string * string * option string :=
  (rec_id r, rec_token r, rec_user_name r, rec_groups r).

(** The part of a session that only its creation sets. *)
Definition session_identity (s : Session) : string * string * list string * bool * bool :=
  (token s, user s, groups s, is_root s, has_database s).

(** The worker is connected to a store that answers, and holds a given
    configuration. *)
Definition answering_store (config : dict) (refresh : json)
    (perms : list SystemPermission) (w : World) : Prop :=
  database_connection (mgr w) = true
  /\ auth_config (mgr w) = config
  /\ configured_refresh_time (mgr w) = refresh
  /\ faults (db w) = []
  /\ system_permissions (db w) = perms.

(** The worker is connected to a store that answers, holds a given
    configuration, and no row of the store bears a given token. *)
Definition reliable_store (fresh : string) (config : dict) (refresh : json)
    (perms : list SystemPermission) (w : World) : Prop :=
  database_connection (mgr w) = true
  /\ auth_config (mgr w) = config
  /\ configured_refresh_time (mgr w) = refresh
  /\ faults (db w) = []
  /\ system_permissions (db w) = perms
  /\ Forall (fun r => rec_token r <> fresh) (session_records (db w)).

(** The store and the worker but for its sessions and its count of logins:
    what a look-up of credentials has no business to change. *)
Definition same_tables (w w' : World) : Prop :=
  tables (db w') = tables (db w) /\ mgr w' = mgr w.

(** A computation leaves the tables and the worker as they are, or hands
    back a validation object with groups. *)
Definition quiet_or_accepting (c : M (pyval Validation)) : Prop :=
  forall w,
    same_tables w (snd (c w))
    \/ exists v g, fst (c w) = Ok (PVal v) /\ v_groups v = Some g.

(** What pruning may only shrink or must keep: the sessions of the worker,
    the rows of the store and the OAuth tokens come from given lists; the
    configuration and the other tables are given. *)
Definition within (l0 : list Session) (r0 : list SessionRecord) (m0 : SessionManager)
    (d0 : Database) (w : World) : Prop :=
  incl (sessions (mgr w)) l0
  /\ incl (session_records (db w)) r0
  /\ incl (oauth_tokens (db w)) (oauth_tokens d0)
  /\ auth_config (mgr w) = auth_config m0
  /\ configured_refresh_time (mgr w) = configured_refresh_time m0
  /\ database_connection (mgr w) = database_connection m0
  /\ personal_access_tokens (db w) = personal_access_tokens d0
  /\ system_permissions (db w) = system_permissions d0.

(** Every OAuth token of the store has its parent: a row of the table of
    sessions bears the identifier the token is attached to. *)
Definition attached (d : Database) : Prop :=
  Forall (fun t => existsb (fun r => Z.eqb (rec_id r) (auth_session_id t))
                           (session_records d) = true)
         (oauth_tokens d).

(** A session of the worker that pruning has no reason to end, among
    sessions with tokens of their own. *)
Definition in_good_standing (s : Session) (w : World) : Prop :=
  NoDup (map token (sessions (mgr w))) /\ In s (sessions (mgr w)).

(** The session policy of the worker is numeric: [session_lifetime], when
    the configuration has it, and the refresh time, when it is set, are
    numbers.  These are the configurations on which [create_local_session]
    raises where the code does. *)
Definition numeric_policy (m : SessionManager) : Prop :=
  (forall v, dict_get "session_lifetime" (auth_config m) = Some v ->
             exists n, as_num v = Ok n)
  /\ (truthy (configured_refresh_time m) = true ->
      exists n, as_num (configured_refresh_time m) = Ok n).

(** What a reload has no business to change: the store, the count of
    logins, the connection, the refresh time the constructor read, and of
    every session all but its lifetime and refresh time. *)
Definition policy_only (w w' : World) : Prop :=
  db w' = db w
  /\ logins_since_prune (mgr w') = logins_since_prune (mgr w)
  /\ database_connection (mgr w') = database_connection (mgr w)
  /\ configured_refresh_time (mgr w') = configured_refresh_time (mgr w)
  /\ map session_identity (sessions (mgr w')) = map session_identity (sessions (mgr w))
  /\ map last_access (sessions (mgr w')) = map last_access (sessions (mgr w)).

(** A session carries the lifetime and the refresh time of a
    configuration. *)
Definition carries_policy (config : dict) (s : Session) : Prop :=
  rbind (dict_index "session_lifetime" config) as_num = Ok (session_lifetime s)
  /\ rbind (dict_index "refresh_time" config)
           (fun v => match v with
                     | JNull => Ok None
                     | _ => rbind (as_num v) (fun r => Ok (Some r))
                     end) = Ok (refresh_time s).

(** The refresh time [__create_local_session] gives a session, from the
    value the constructor read. *)
Definition granted_refresh_time (configured : json) : option Z :=
  if truthy configured then
    match as_num configured with
    | Ok r => if r =? 0 then None else Some r
    | Raise _ => None
    end
  else None.

(** The groups [__try_auth_dictionary] reads for a user. *)
Definition dictionary_groups (method_config : dict) (username : string)
    : result (list string) :=
  match dict_get "groups" method_config with
  | None => Ok []
  | Some all_groups =>
      rbind (as_dict all_groups) (fun by_user =>
      match dict_get username by_user with
      | None => Ok []
      | Some l => as_str_list l
      end)
  end.

(** The dictionary backend is configured, supported and enabled, and
    holds a list of entries. *)
Definition dictionary_ready (env : Env) (method_config : dict) (auths : list string)
    (w : World) : Prop :=
  dict_get "method_dictionary" (auth_config (mgr w)) = Some (JDict method_config)
  /\ in_strings "dictionary" (UNSUPPORTED_METHODS env) = false
  /\ truthy (match dict_get "enabled" method_config with
             | Some e => e
             | None => JNull
             end) = true
  /\ rbind (py_get (JDict method_config) "auths" JNull) iter_strings = Ok auths.

(** ** The constructor *)

(** [p in s] for two strings. *)
Fixpoint is_prefix (p s : string) : bool :=
  match p, s with
  | EmptyString, _ => true
  | String a p', String b s' => Ascii.eqb a b && is_prefix p' s'
  | String _ _, EmptyString => false
  end.

Fixpoint is_substring (p s : string) : bool :=
  is_prefix p s
  || match s with
     | EmptyString => false
     | String _ s' => is_substring p s'
     end.

(** [k in v] for a key and a configuration value. *)
Definition py_in (k : string) (v : json) : result bool :=
  match v with
  | JDict d => Ok (dict_mem k d)
  | JStr s => Ok (is_substring k s)
  | JList l => Ok (existsb (fun x => json_is_str x k) l)
  | _ => Raise TypeError
  end.

(** What the constructor raises when the authentication section is not a
    dictionary.  Forcing authentication assigns to an item of the value; the
    tests [in] work on a string or a list and raise on the other values; an
    item that is found is read by its key; at last the section is asked
    [.get('enabled')]. *)
Definition init_without_section (force_auth : bool) (authentication : json) : exn :=
  if force_auth then TypeError
  else
    match py_in "soft_expire" authentication,
          py_in "refresh_time" authentication,
          py_in "regex_groups" authentication with
    | Ok _, Ok false, Ok false => AttributeError
    | Raise e, _, _ => e
    | _, _, _ => TypeError
    end.

(** [[re.compile(r) for r in regex_list]]: the patterns of one group, a
    list of strings.  [re.compile] raises what [re_match] raises for the
    pattern. *)
Fixpoint compile_patterns (env : Env) (regex_list : list json) : result (list string) :=
  match regex_list with
  | [] => Ok []
  | JStr r :: rest =>
      rbind (re_match env r "") (fun _ =>
      rbind (compile_patterns env rest) (fun compiled => Ok (r :: compiled)))
  | _ :: _ => Raise TypeError
  end.

(** The loop over [regex_groups.items()]. *)
Fixpoint compile_groups (env : Env) (regex_groups : dict)
    : result (list (string * list string)) :=
  match regex_groups with
  | [] => Ok []
  | (group_name, regex_list) :: rest =>
      rbind (iter_list regex_list) (fun patterns =>
      rbind (compile_patterns env patterns) (fun compiled =>
      rbind (compile_groups env rest) (fun d => Ok ((group_name, compiled) :: d))))
  end.

(** The part of the constructor that reads ['regex_groups']: whether the
    patterns are in use, and the patterns of every group. *)
Definition init_regex_groups (env : Env) (auth_config : dict)
    : result (bool * list (string * list string)) :=
  match dict_get "regex_groups" auth_config with
  | None => Ok (false, [])
  | Some regex_groups_config =>
      rbind (py_get regex_groups_config "enabled" (JBool false)) (fun enabled =>
      rbind (py_get regex_groups_config "groups" (JList [])) (fun regex_groups =>
      rbind (as_dict regex_groups) (fun items =>
      rbind (compile_groups env items) (fun d => Ok (truthy enabled, d)))))
  end.

(** Whether ['method_dictionary'] is there and enabled. *)
Definition found_dictionary (auth_config : dict) : result bool :=
  match dict_get "method_dictionary" auth_config with
  | None => Ok false
  | Some method_config =>
      rbind (py_get method_config "enabled" JNull) (fun enabled => Ok (truthy enabled))
  end.

(** The test of the constructor for LDAP and for PAM: a backend that is
    enabled counts when its library is there, and is switched off in the
    configuration when it is not. *)
Definition found_backend (env : Env) (method : string) (auth_config : dict)
    : result (dict * bool) :=
  match dict_get ("method_" ++ method) auth_config with
  | None => Ok (auth_config, false)
  | Some method_config =>
      rbind (py_get method_config "enabled" JNull) (fun enabled =>
      if negb (truthy enabled) then Ok (auth_config, false)
      else if negb (in_strings method (UNSUPPORTED_METHODS env))
      then Ok (auth_config, true)
      else
        rbind (as_mapping method_config) (fun d =>
        Ok (dict_set ("method_" ++ method)
              (JDict (dict_set "enabled" (JBool false) d)) auth_config,
            false)))
  end.

(** The loop of the constructor over the providers: whether one of them is
    enabled; the providers after the first enabled one are not looked at. *)
Fixpoint some_provider_enabled (providers : dict) : result bool :=
  match providers with
  | [] => Ok false
  | (_, provider) :: rest =>
      rbind (py_get provider "enabled" JNull) (fun enabled =>
      if truthy enabled then Ok true else some_provider_enabled rest)
  end.

(** The test of the constructor for OAuth: the providers are prepared,
    and OAuth is switched off when none of them is enabled. *)
Definition found_oauth (env : Env) (auth_config : dict) : result (dict * bool) :=
  match dict_get "method_oauth" auth_config with
  | None => Ok (auth_config, false)
  | Some method_config =>
      rbind (py_get method_config "enabled" JNull) (fun enabled =>
      if negb (truthy enabled) then Ok (auth_config, false)
      else
        rbind (oauth_apply_templates env auth_config) (fun auth_config =>
        rbind (dict_index "method_oauth" auth_config) (fun method_oauth =>
        rbind (py_get method_oauth "providers" JNull) (fun providers_value =>
        rbind (as_dict providers_value) (fun providers =>
        rbind (some_provider_enabled providers) (fun found =>
        if found then Ok (auth_config, true)
        else
          rbind (as_mapping method_oauth) (fun oauth =>
          Ok (dict_set "method_oauth"
                (JDict (dict_set "enabled" (JBool false) oauth)) auth_config,
              false))))))))
  end.

(** The last part of the constructor: with authentication enabled, the
    backends are looked for, and authentication is switched off when none is
    found, unless it was forced. *)
Definition init_backends (env : Env) (force_auth : bool) (auth_config : dict)
    : result dict :=
  if negb (truthy_opt (dict_get "enabled" auth_config)) then Ok auth_config
  else
    rbind (found_dictionary auth_config) (fun dictionary =>
    rbind (found_backend env "ldap" auth_config) (fun '(auth_config, ldap) =>
    rbind (found_backend env "pam" auth_config) (fun '(auth_config, pam) =>
    rbind (found_oauth env auth_config) (fun '(auth_config, oauth) =>
    let found_auth_method := dictionary || ldap || pam || oauth in
    if negb found_auth_method then
      if force_auth then Ok auth_config
      else Ok (dict_set "enabled" (JBool false) auth_config)
    else Ok auth_config)))).

(** [SessionManager.__init__]: the manager built from the configuration
    file.  The worker processes and the keep-alive block are read, and
    belong to no operation of this development. *)
Definition init (env : Env) (cpu_count : Z) (source : option json) (force_auth : bool)
    : result SessionManager :=
  rbind (get_config_dict source) (fun scfg_dict =>
  rbind (get_worker_processes cpu_count scfg_dict) (fun _ =>
  rbind (py_get scfg_dict "max_run_count" JNull) (fun max_run_count =>
  rbind (py_get scfg_dict "store" (JDict [])) (fun store_config =>
  rbind (py_get scfg_dict "keepalive" (JDict [])) (fun _ =>
  rbind (rbind (as_dict scfg_dict) (dict_index "authentication")) (fun authentication =>
  match authentication with
  | JDict auth_config =>
      let auth_config :=
        if force_auth then dict_set "enabled" (JBool true) auth_config
        else auth_config in
      let refresh_time :=
        match dict_get "refresh_time" auth_config with
        | Some v => v
        | None => JNull
        end in
      rbind (init_regex_groups env auth_config) (fun '(enabled, compiled) =>
      rbind (init_backends env force_auth auth_config) (fun auth_config =>
      Ok {| database_connection := false;
            logins_since_prune := 0;
            sessions := [];
            auth_config := auth_config;
            max_run_count := max_run_count;
            store_config := store_config;
            configured_refresh_time := refresh_time;
            regex_groups_enabled := enabled;
            group_regexes_compiled := compiled |}))
  | _ => Raise (init_without_section force_auth authentication)
  end)))))).

(** [set_database_connection]. *)
Definition set_database_connection (connection : bool) (m : SessionManager)
    : SessionManager :=
  {| database_connection := connection;
     logins_since_prune := logins_since_prune m;
     sessions := sessions m;
     auth_config := auth_config m;
     max_run_count := max_run_count m;
     store_config := store_config m;
     configured_refresh_time := configured_refresh_time m;
     regex_groups_enabled := regex_groups_enabled m;
     group_regexes_compiled := group_regexes_compiled m |}.

(** A backend is there and enabled in a configuration. *)
Definition switched_on (method : string) (config : dict) : Prop :=
  exists method_config enabled,
    dict_get ("method_" ++ method) config = Some method_config
    /\ py_get method_config "enabled" JNull = Ok enabled
    /\ truthy enabled = true.

(** ** Sample states of the further properties *)

Module Cases.

(** A worker connected to a store that answers, with the dictionary
    backend and the entry [alice:secret]. *)
Definition store_world : World :=
  {| mgr := Samples.manager true (Samples.method_dictionary ["alice:secret"]);
     db := Samples.empty_database |}.

(** The session [create_session] issues to [alice] at instant 1000 under
    the token [f00d]. *)
Definition alice_session : Session :=
  {| token := "f00d"; user := "alice"; groups := [];
     session_lifetime := 300; refresh_time := Some 60;
     is_root := false; has_database := true; last_access := 1000 |}.

(** A worker whose authentication section is switched off. *)
Definition disabled_world : World :=
  {| mgr := set_auth_config [("enabled", JBool false)] Samples.pam_manager;
     db := Samples.empty_database |}.

(** A worker with the two providers of the test environment, as the file
    has them, connected to a store that answers. *)
Definition oauth_world : World :=
  {| mgr := Samples.manager true (Samples.oauth_section Samples.test_providers);
     db := Samples.empty_database |}.

(** A worker with the same providers whose sessions live 300 seconds and
    are due for refresh after 3600, once [dan] has logged in through [github]
    at instant 1000: the list of the worker has his session, the store its row
    and the OAuth tokens that came with the login. *)
Definition patient_manager : SessionManager :=
  {| database_connection := true;
     logins_since_prune := 0;
     sessions := [];
     auth_config :=
       [("enabled", JBool true);
        ("session_lifetime", JNum 300);
        ("refresh_time", JNum 3600);
        ("logins_until_cleanup", JNum 30)]
       ++ Samples.oauth_section Samples.test_providers;
     max_run_count := JNull;
     store_config := JDict [];
     configured_refresh_time := JNum 3600;
     regex_groups_enabled := false;
     group_regexes_compiled := [] |}.

Definition dan_world : World :=
  Eval vm_compute in
    snd (create_session_oauth Reference.env 1000 "f00d" "github" "dan" "at" 5000 "rt"
           (Some ["dev"])
           {| mgr := patient_manager; db := Samples.empty_database |}).

(** A configuration file with a new policy: sessions live 600 seconds and
    are due for refresh after 120. *)
Definition new_policy : json :=
  JDict [("max_run_count", JNum 5);
         ("authentication",
          JDict [("session_lifetime", JNum 600);
                 ("refresh_time", JNum 120);
                 ("logins_until_cleanup", JNum 30)])].

(** A dictionary with two entries for [alice]. *)
Definition two_entries : dict :=
  [("enabled", JBool true);
   ("auths", JList [JStr "alice:wrong"; JStr "alice:secret"])].

Definition two_entries_world : World :=
  {| mgr := Samples.manager false [("method_dictionary", JDict two_entries)];
     db := Samples.empty_database |}.

(** A store with a personal access token of [carol] that expires at
    instant 2000, and a session row of [ann]. *)
Definition carol_token : PersonalAccessToken :=
  {| pat_user_name := "carol"; pat_token := "c0ffee";
     pat_groups := Some "dev;ops"; pat_expiration := 2000 |}.

Definition token_world : World :=
  {| mgr := Samples.manager true [];
     db := {| session_records := [Samples.row_of 1 "t-ann" "ann" 900];
              personal_access_tokens := [carol_token];
              system_permissions := [];
              oauth_tokens := [];
              next_session_id := 2;
              faults := [] |} |}.

(** A configuration file that enables authentication with the dictionary
    backend, and one that enables it with no backend. *)
Definition server_config : json :=
  JDict [("authentication",
          JDict (Samples.config (Samples.method_dictionary ["alice:secret"])))].

Definition bare_config : json :=
  JDict [("authentication", JDict [("enabled", JBool false)])].

(** The managers the constructor builds from them, the second one with
    authentication forced. *)
Definition server_manager : SessionManager :=
  Eval vm_compute in
    match init Reference.env 4 (Some server_config) false with
    | Ok m => m
    | Raise _ => Samples.pam_manager
    end.

Definition forced_manager : SessionManager :=
  Eval vm_compute in
    match init Reference.env 4 (Some bare_config) true with
    | Ok m => m
    | Raise _ => Samples.pam_manager
    end.

End Cases.

(** * Properties *)

(** ** Checks of the embedding on concrete values *)

Example sha256_empty :
  Sha256.hexdigest "" = "e3b0c44298fc1c149afbf4c8996fb92427ae41e4649b934ca495991b7852b855".
Proof. vm_compute. reflexivity. Qed.

Example sha256_abc :
  Sha256.hexdigest "abc" = "ba7816bf8f01cfea414140de5dae2223b00361a396177a9cb410ff61f20015ad".
Proof. vm_compute. reflexivity. Qed.

Example sha256_two_blocks :
  Sha256.hexdigest "abcdbcdecdefdefgefghfghighijhijkijkljklmklmnlmnomnopnopq"
  = "248d6a61d20638b8e5c026930c3e6039a33ce45964ff2167f6ecedd419db06c1".
Proof. vm_compute. reflexivity. Qed.

Example sha256_password :
  Sha256.hexdigest "password" = "5e884898da28047151d0e56f8dc6292773603d0d6aabbdd62a11ef721d1542d8".
Proof. vm_compute. reflexivity. Qed.

Example split_once : split colon 1 "colon:my:password" = ["colon"; "my:password"].
Proof. reflexivity. Qed.

Example split_none : split colon 1 "alice" = ["alice"].
Proof. reflexivity. Qed.

Example split_thrice :
  split colon 3 "hashtest5:33a3:sha3_512:with:salt" = ["hashtest5"; "33a3"; "sha3_512"; "with:salt"].
Proof. reflexivity. Qed.

Example split_groups : split_all semicolon "a;b;;c" = ["a"; "b"; ""; "c"].
Proof. reflexivity. Qed.

Example format_callback :
  Reference.format "{host}/login/OAuthLogin/{provider}"
    [("host", JStr "http://localhost:8080"); ("provider", JStr "github")]
  = Ok "http://localhost:8080/login/OAuthLogin/github".
Proof. reflexivity. Qed.

Example format_missing :
  Reference.format "{oauth_host}/token" [("provider", JStr "github")]
  = Raise (KeyError "oauth_host").
Proof. reflexivity. Qed.

Example callback_accepted :
  check_callback_url_format Reference.env "github"
    "http://localhost:8080/login/OAuthLogin/github" = Ok (Some true).
Proof. reflexivity. Qed.

Example callback_rejected :
  check_callback_url_format Reference.env "always_off"
    "https://gjtujg//loginOAuthLogin/fakeprovider" = Ok (Some false).
Proof. reflexivity. Qed.

Example callback_at_sign :
  check_callback_url_format Reference.env "me@evil"
    "http://localhost:8080/login/OAuthLogin/me@evil" = Ok None.
Proof. reflexivity. Qed.

(** ** Dictionaries *)

Lemma dict_get_set_eq (k : string) (v : json) (d : dict) :
  dict_get k (dict_set k v d) = Some v.
Proof.
  induction d as [| [k' v'] rest IH]; simpl.
  - now rewrite String.eqb_refl.
  - destruct (String.eqb k k') eqn:E; simpl; rewrite E; [reflexivity | exact IH].
Qed.

Lemma dict_get_set_ne (k k' : string) (v : json) (d : dict) :
  k <> k' -> dict_get k' (dict_set k v d) = dict_get k' d.
Proof.
  intros Hne.
  induction d as [| [k0 v0] rest IH]; simpl.
  - destruct (String.eqb_spec k' k); [congruence | reflexivity].
  - destruct (String.eqb_spec k k0) as [-> | Hk]; simpl.
    + destruct (String.eqb_spec k' k0); [congruence | reflexivity].
    + destruct (String.eqb_spec k' k0); [reflexivity | exact IH].
Qed.

Lemma dict_keys_set_present (k : string) (v : json) (d : dict) :
  dict_mem k d = true -> dict_keys (dict_set k v d) = dict_keys d.
Proof.
  unfold dict_mem, dict_keys.
  induction d as [| [k0 v0] rest IH]; simpl; [discriminate |].
  destruct (String.eqb_spec k k0) as [-> | Hk]; simpl; intros H.
  - reflexivity.
  - now rewrite IH.
Qed.

(** ** Sessions: liveness *)

Lemma is_alive_spec (now : Z) (s : Session) :
  is_alive now s = true <-> now - last_access s <= session_lifetime s.
Proof. unfold is_alive. apply Z.leb_le. Qed.

Lemma revalidate_dead (now : Z) (s : Session) (d : Database) :
  is_alive now s = false -> revalidate now s d = (s, d).
Proof. intros H. unfold revalidate. now rewrite H. Qed.

Lemma dead_later (t0 t : Z) (s : Session) :
  is_alive t0 s = false -> t0 <= t -> is_alive t s = false.
Proof.
  unfold is_alive. rewrite !Z.leb_gt. lia.
Qed.

Lemma revalidate_many_dead (t0 : Z) (s : Session) (times : list Z) :
  is_alive t0 s = false ->
  Forall (Z.le t0) times ->
  forall d, revalidate_many times s d = (s, d).
Proof.
  intros Hdead Htimes.
  induction Htimes as [| t rest Ht _ IH]; intros d; simpl.
  - reflexivity.
  - rewrite (@revalidate_dead t s d (@dead_later t0 t s Hdead Ht)). apply IH.
Qed.

(** C2.  A session is alive exactly when the time since its last access
    does not exceed its lifetime.  Once a session is not alive, revalidating
    it any number of times, at whatever later instants, changes neither the
    session (its last access in particular) nor the store, and the session
    is not alive at any later instant. *)
Theorem dead_session_is_never_resurrected :
  (forall now s, is_alive now s = true <-> now - last_access s <= session_lifetime s)
  /\ (forall t0 s times d,
        is_alive t0 s = false ->
        Forall (Z.le t0) times ->
        revalidate_many times s d = (s, d)
        /\ last_access (fst (revalidate_many times s d)) = last_access s
        /\ forall t, t0 <= t -> is_alive t (fst (revalidate_many times s d)) = false).
Proof.
  split.
  - exact is_alive_spec.
  - intros t0 s times d Hdead Htimes.
    rewrite (@revalidate_many_dead t0 s times Hdead Htimes d). simpl.
    repeat split. intros t Ht. exact (@dead_later t0 t s Hdead Ht).
Qed.

Lemma dead_session_is_never_resurrected_witness :
  is_alive 1000 Samples.eve = false
  /\ Forall (Z.le 1000) [1000; 1001; 2000]
  /\ revalidate_many [1000; 1001; 2000] Samples.eve Samples.empty_database
     = (Samples.eve, Samples.empty_database)
  /\ is_alive 5000 (fst (revalidate_many [1000; 1001; 2000] Samples.eve
                                         Samples.empty_database)) = false.
Proof.
  assert (Hdead : is_alive 1000 Samples.eve = false) by reflexivity.
  assert (Htimes : Forall (Z.le 1000) [1000; 1001; 2000])
    by (repeat constructor; lia).
  destruct (proj2 dead_session_is_never_resurrected 1000 Samples.eve
              [1000; 1001; 2000] Samples.empty_database Hdead Htimes)
    as [Hsame [_ Hstay]].
  split; [exact Hdead |].
  split; [exact Htimes |].
  split; [exact Hsame | apply Hstay; lia].
Defined.

(** ** Fetching a session *)

(** C10.  When authentication is not enabled, [get_session] answers
    [None] at once: the sessions of the worker and the store are left as they
    were, no transaction is opened and no token is invalidated. *)
Theorem get_session_disabled (env : Env) (now : Z) (tok : string) (w : World) :
  is_enabled (mgr w) = false ->
  get_session env now tok w = (Ok None, w).
Proof.
  intros H. unfold get_session, bind, get_mgr. rewrite H. reflexivity.
Qed.

Lemma get_session_disabled_witness :
  is_enabled (set_auth_config [("enabled", JBool false)] Samples.pam_manager) = false
  /\ get_session Reference.env 1000 "t-ann"
       {| mgr := set_auth_config [("enabled", JBool false)] Samples.pam_manager;
          db := Samples.empty_database |}
     = (Ok None,
        {| mgr := set_auth_config [("enabled", JBool false)] Samples.pam_manager;
           db := Samples.empty_database |}).
Proof.
  split; [reflexivity |].
  apply (@get_session_disabled Reference.env 1000 "t-ann"
           {| mgr := set_auth_config [("enabled", JBool false)] Samples.pam_manager;
              db := Samples.empty_database |}).
  reflexivity.
Defined.

(** ** Reloading the configuration *)

(** C8.  When the configuration source yields no document (the file
    cannot be parsed) or the empty document, [reload_config] raises nothing,
    reports the error, and leaves the manager and the store exactly as they
    were: [max_run_count], the store block, the authentication section and
    every session of the worker. *)
Theorem reload_config_empty_aborts (source : option json) (w : World) :
  source = None \/ source = Some (JDict []) ->
  reload_config source w = (Ok ReloadError, w).
Proof.
  intros [-> | ->]; reflexivity.
Qed.

Lemma reload_config_empty_aborts_witness :
  reload_config None (Samples.prune_world 3) = (Ok ReloadError, Samples.prune_world 3)
  /\ reload_config (Some (JDict [])) (Samples.prune_world 3)
     = (Ok ReloadError, Samples.prune_world 3).
Proof.
  split.
  - apply (@reload_config_empty_aborts None (Samples.prune_world 3)). left. reflexivity.
  - apply (@reload_config_empty_aborts (Some (JDict [])) (Samples.prune_world 3)).
    right. reflexivity.
Defined.

Example reload_without_authentication_section :
  reload_config (Some (JDict [("max_run_count", JNum 5)])) (Samples.prune_world 3)
  = (Raise (KeyError "authentication"),
     {| mgr := set_max_run_count (JNum 5) (mgr (Samples.prune_world 3));
        db := db (Samples.prune_world 3) |}).
Proof. reflexivity. Qed.

(** ** Exceptions that reach the caller *)

Lemma invalidate_local_session_shrinks (tok : string) (w : World) :
  exists b w',
    invalidate_local_session tok w = (Ok b, w')
    /\ db w' = db w
    /\ (List.length (sessions (mgr w')) <= List.length (sessions (mgr w)))%nat.
Proof.
  unfold invalidate_local_session, bind, get_mgr, put_mgr, ret.
  destruct (existsb _ _).
  - eexists _, _. split; [reflexivity |]. split; [reflexivity |]. simpl.
    induction (sessions (mgr w)) as [| s rest IH]; simpl; [lia |].
    destruct (String.eqb (token s) tok); simpl; lia.
  - eexists _, _. split; [reflexivity |]. split; [reflexivity | lia].
Qed.

Lemma invalidate_shrinks (tok : string) (w : World) :
  exists b w',
    invalidate tok w = (Ok b, w')
    /\ (List.length (sessions (mgr w')) <= List.length (sessions (mgr w)))%nat.
Proof.
  destruct (invalidate_local_session_shrinks tok w) as (b & w1 & Hloc & _ & Hlen).
  unfold invalidate, try_except, bind. rewrite Hloc.
  unfold get_mgr, transaction, modify_db, ret.
  destruct (database_connection (mgr w1)).
  - destruct (begin_transaction (db w1)) as [[[] | e] d] eqn:Hb;
      eexists _, _; (split; [reflexivity | exact Hlen]).
  - eexists _, _. split; [reflexivity | exact Hlen].
Qed.

(** [invalidate] hands back [True] or [False], whatever the store does. *)
Lemma invalidate_never_raises (tok : string) (w : World) :
  raises (fst (invalidate tok w)) = false.
Proof.
  destruct (invalidate_shrinks tok w) as (b & w' & H & _). now rewrite H.
Qed.

Lemma get_local_session_from_db_never_raises (env : Env) (now : Z) (tok : string)
    (w : World) :
  raises (fst (get_local_session_from_db env now tok w)) = false.
Proof.
  unfold get_local_session_from_db, bind, get_mgr, try_except, ret.
  destruct (database_connection (mgr w)); simpl; [| reflexivity].
  match goal with |- context [match ?b with _ => _ end] => destruct b as [[? | ?] ?] end;
    reflexivity.
Qed.

(** Under a numeric session policy [get_session] hands back a session or
    [None], whatever the store does. *)
Lemma get_session_never_raises (env : Env) (now : Z) (tok : string) (w : World) :
  numeric_policy (mgr w) ->
  raises (fst (get_session env now tok w)) = false.
Proof.
  intros _. unfold get_session, bind, get_mgr, ret.
  destruct (is_enabled (mgr w)); simpl; [| reflexivity].
  destruct (find_live now tok [] (sessions (mgr w))) as [[[before sess] after] |].
  - destruct (is_refresh_time_expire now sess); [| reflexivity].
    unfold revalidate_session. destruct (revalidate now sess (db w)). reflexivity.
  - pose proof (get_local_session_from_db_never_raises env now tok w) as Hdb.
    destruct (get_local_session_from_db env now tok w) as [[[s |] | e] w1];
      simpl in Hdb; try discriminate.
    + destruct (is_alive now s).
      * destruct (is_refresh_time_expire now s).
        -- unfold revalidate_session. destruct (revalidate now s (db w1)). reflexivity.
        -- reflexivity.
      * pose proof (invalidate_never_raises tok w1) as Hinv.
        destruct (invalidate tok w1) as [[b | e] w2]; simpl in Hinv;
          [reflexivity | discriminate].
    + pose proof (invalidate_never_raises tok w1) as Hinv.
      destruct (invalidate tok w1) as [[b | e] w2]; simpl in Hinv;
        [reflexivity | discriminate].
Qed.

(** C1.  The claim that no exception escapes fails in [create_session].
    The worker is connected to a store; the bearer-token lookup finds
    nothing, and the query for a personal access token fails.  The handler of
    [__try_personal_access_token] logs the failure, after which the method
    reads its local variable, which the failed query never bound:
    [UnboundLocalError] reaches the caller of [create_session]. *)
Theorem create_session_lets_unbound_local_escape :
  fst (create_session Reference.env 1000 "f00d" "alice:secret"
         Samples.failing_store_world)
  = Raise UnboundLocalError.
Proof. vm_compute. reflexivity. Qed.

(** Without the failure of the store the same credential opens a
    session. *)
Example create_session_with_working_store :
  fst (create_session Reference.env 1000 "f00d" "alice:secret"
         {| mgr := mgr Samples.failing_store_world; db := Samples.empty_database |})
  = Ok (PVal (new_session 1000 "f00d" "alice" [] 300 (Some 60) false true None)).
Proof. vm_compute. reflexivity. Qed.

(** A credential without a colon cannot be unpacked into a name and a
    secret. *)
Example create_session_without_colon :
  fst (create_session Reference.env 1000 "f00d" "alice"
         {| mgr := mgr Samples.failing_store_world; db := Samples.empty_database |})
  = Raise ValueError.
Proof. vm_compute. reflexivity. Qed.

(** ** Pruning *)

Lemma cleanup_refresh_pass_step (now : Z) (fuel i : nat) (w : World) :
  cleanup_refresh_pass (S fuel) now i w
  = match nth_error (sessions (mgr w)) i with
    | None => (Ok tt, w)
    | Some s =>
        if is_refresh_time_expire now s then
          match invalidate_local_session (token s) w with
          | (Ok _, w') => cleanup_refresh_pass fuel now (S i) w'
          | (Raise e, w') => (Raise e, w')
          end
        else cleanup_refresh_pass fuel now (S i) w
    end.
Proof.
  simpl. unfold bind, get_mgr, ret.
  destruct (nth_error (sessions (mgr w)) i) as [s |]; [| reflexivity].
  destruct (is_refresh_time_expire now s); [| reflexivity].
  destruct (invalidate_local_session (token s) w) as [[b | e] w']; reflexivity.
Qed.

Lemma cleanup_refresh_pass_fuel (now : Z) (fuel : nat) :
  forall (i : nat) (w : World),
    (List.length (sessions (mgr w)) - i <= fuel)%nat ->
    cleanup_refresh_pass (S fuel) now i w = cleanup_refresh_pass fuel now i w.
Proof.
  induction fuel as [| fuel IH]; intros i w Hlen.
  - rewrite cleanup_refresh_pass_step.
    destruct (nth_error (sessions (mgr w)) i) eqn:Hnth; [| reflexivity].
    assert (i < List.length (sessions (mgr w)))%nat
      by (apply nth_error_Some; congruence).
    lia.
  - rewrite (cleanup_refresh_pass_step now (S fuel) i w).
    rewrite (cleanup_refresh_pass_step now fuel i w).
    destruct (nth_error (sessions (mgr w)) i) eqn:Hnth; [| reflexivity].
    destruct (is_refresh_time_expire now s).
    + destruct (invalidate_local_session_shrinks (token s) w) as (b & w' & H & _ & Hle).
      rewrite H. apply IH. lia.
    + apply IH. lia.
Qed.

Lemma cleanup_lifetime_pass_step (now : Z) (fuel i : nat) (w : World) :
  cleanup_lifetime_pass (S fuel) now i w
  = match nth_error (sessions (mgr w)) i with
    | None => (Ok tt, w)
    | Some s =>
        if negb (is_alive now s) then
          match invalidate (token s) w with
          | (Ok _, w') => cleanup_lifetime_pass fuel now (S i) w'
          | (Raise e, w') => (Raise e, w')
          end
        else cleanup_lifetime_pass fuel now (S i) w
    end.
Proof.
  simpl. unfold bind, get_mgr, ret.
  destruct (nth_error (sessions (mgr w)) i) as [s |]; [| reflexivity].
  destruct (negb (is_alive now s)); [| reflexivity].
  destruct (invalidate (token s) w) as [[b | e] w']; reflexivity.
Qed.

Lemma cleanup_lifetime_pass_fuel (now : Z) (fuel : nat) :
  forall (i : nat) (w : World),
    (List.length (sessions (mgr w)) - i <= fuel)%nat ->
    cleanup_lifetime_pass (S fuel) now i w = cleanup_lifetime_pass fuel now i w.
Proof.
  induction fuel as [| fuel IH]; intros i w Hlen.
  - rewrite cleanup_lifetime_pass_step.
    destruct (nth_error (sessions (mgr w)) i) eqn:Hnth; [| reflexivity].
    assert (i < List.length (sessions (mgr w)))%nat
      by (apply nth_error_Some; congruence).
    lia.
  - rewrite (cleanup_lifetime_pass_step now (S fuel) i w).
    rewrite (cleanup_lifetime_pass_step now fuel i w).
    destruct (nth_error (sessions (mgr w)) i) eqn:Hnth; [| reflexivity].
    destruct (negb (is_alive now s)).
    + destruct (invalidate_shrinks (token s) w) as (b & w' & H & Hle).
      rewrite H. apply IH. lia.
    + apply IH. lia.
Qed.

(** The sessions of [Samples.prune_world] at instant 1000. *)
Example sample_sessions_at_1000 :
  (is_refresh_time_expire 1000 Samples.ann = true /\ is_alive 1000 Samples.ann = true)
  /\ (is_refresh_time_expire 1000 Samples.ben = true /\ is_alive 1000 Samples.ben = true)
  /\ (is_refresh_time_expire 1000 Samples.eve = true /\ is_alive 1000 Samples.eve = false).
Proof. repeat split. Qed.

Example cleanup_of_three_sessions :
  let w := snd (cleanup_sessions 1000 (Samples.prune_world 30)) in
  sessions (mgr w) = [Samples.ben]
  /\ session_records (db w) = Samples.three_rows.
Proof. vm_compute. split; reflexivity. Qed.

(** C3.  Pruning does not do what the claim says.  The worker holds three
    sessions, each with its row in the store: [ann] and [ben] are past the
    refresh time and within their lifetime, [eve] is past her lifetime.  The
    thirtieth login triggers the pruning.  The first loop removes [ann], and
    with her gone the loop moves on to [eve], skipping [ben]; it removes [eve]
    from the list, so that the second loop never meets her.  Afterwards [ben]
    is still in the worker's list, and the row of [eve] is still in the
    store. *)
Theorem pruning_skips_a_session_and_keeps_an_expired_row :
  let w := snd (create_session Reference.env 1000 "f00d" "mallory:nope"
                  (Samples.prune_world 29)) in
  logins_since_prune (mgr w) = 0
  /\ (is_refresh_time_expire 1000 Samples.ben = true
      /\ is_alive 1000 Samples.ben = true
      /\ In Samples.ben (sessions (mgr w)))
  /\ (is_alive 1000 Samples.eve = false
      /\ ~ In Samples.eve (sessions (mgr w))
      /\ In (Samples.row_of 3 "t-eve" "eve" 100) (session_records (db w)))
  /\ sessions (mgr w) = [Samples.ben]
  /\ session_records (db w) = Samples.three_rows.
Proof.
  vm_compute.
  split; [reflexivity |].
  split; [split; [reflexivity | split; [reflexivity | left; reflexivity]] |].
  split; [split; [reflexivity | split] |].
  - intros [H | []]. discriminate H.
  - right. right. left. reflexivity.
  - split; reflexivity.
Qed.

(** ** Groups *)

(** C5.  The union of groups is not reached for an identity validated by
    PAM.  PAM accepts [bob], and its validation object has no groups; a
    pattern grants [bob] the group [builders]; [__handle_validation] then
    reads the groups of the validation object, and [KeyError] reaches the
    caller of [create_session] where the claim expects a session with the
    group [builders]. *)
Theorem pam_identity_with_regex_group_raises :
  fst (try_auth_pam Reference.env "bob:builder" Samples.pam_world)
  = Ok (PVal {| v_username := "bob"; v_groups := None |})
  /\ try_regex_groups Reference.env Samples.pam_manager "bob" = ["builders"]
  /\ fst (create_session Reference.env 1000 "f00d" "bob:builder" Samples.pam_world)
     = Raise (KeyError "groups").
Proof. vm_compute. repeat split. Qed.

(** When no pattern matches the name, PAM's identity gets a session
    without groups. *)
Example pam_identity_without_regex_group :
  fst (create_session Reference.env 1000 "f00d" "bob:builder"
         {| mgr := set_auth_config (auth_config Samples.pam_manager)
                     (Samples.manager false []);
            db := Samples.empty_database |})
  = Ok (PVal (new_session 1000 "f00d" "bob" [] 300 (Some 60) false false None)).
Proof. vm_compute. reflexivity. Qed.

(** Where the validation object has groups, the groups of the patterns
    are added to them and none is lost. *)
Lemma add_regex_groups_union (env : Env) (v v' : Validation) (w w' : World)
    (already : list string) :
  v_groups v = Some already ->
  add_regex_groups env v w = (Ok v', w') ->
  w' = w
  /\ v_username v' = v_username v
  /\ exists grps,
       v_groups v' = Some grps
       /\ forall g, In g grps <->
                    In g already \/ In g (try_regex_groups env (mgr w) (v_username v)).
Proof.
  intros Hg. unfold add_regex_groups, bind, get_mgr, ret, raise. rewrite Hg.
  destruct (try_regex_groups env (mgr w) (v_username v)) as [| x extra] eqn:He;
    intros H; injection H as <- <-.
  - repeat split. exists already. rewrite Hg. split; [reflexivity |].
    intros g. simpl. tauto.
  - repeat split. exists (set_union already (x :: extra)). split; [reflexivity |].
    intros g. unfold set_union. rewrite nodup_In, in_app_iff. reflexivity.
Qed.

(** ** The dictionary backend *)

Lemma split_zero (sep : ascii) (s : string) : split sep 0 s = [s].
Proof.
  induction s as [| c rest IH]; simpl; [reflexivity |].
  destruct (Ascii.eqb c sep); [reflexivity |]. now rewrite IH.
Qed.

Lemma check_password_sha256 (env : Env) (password : string) :
  check_password env (Samples.alice_entry Samples.password_digest)
    ("alice:" ++ password) ["alice"; password]
  = Ok (String.eqb (Samples.password_digest ++ ":sha256") password
        || String.eqb Samples.password_digest (Sha256.hexdigest password)).
Proof.
  unfold check_password.
  change (String.eqb (Samples.alice_entry Samples.password_digest) ("alice:" ++ password))
    with (String.eqb (Samples.password_digest ++ ":sha256") password).
  destruct (String.eqb (Samples.password_digest ++ ":sha256") password); [reflexivity |].
  change (split colon 3 (Samples.alice_entry Samples.password_digest))
    with ["alice"; Samples.password_digest; "sha256"].
  reflexivity.
Qed.

(** With the entry as the claim C9 prints it, whose digest has 63 digits
    where a SHA-256 digest has 64, the credential [alice:password] is
    rejected; and a credential with another password, the stored entry
    itself, is accepted. *)
Lemma printed_entry_rejects_password :
  String.length Samples.printed_digest = 63%nat
  /\ String.length (Sha256.hexdigest "password") = 64%nat
  /\ try_auth_dictionary Reference.env "alice:password"
       (Samples.dictionary_world Samples.printed_digest Samples.empty_database)
     = (Ok PFalse,
        Samples.dictionary_world Samples.printed_digest Samples.empty_database)
  /\ try_auth_dictionary Reference.env (Samples.alice_entry Samples.printed_digest)
       (Samples.dictionary_world Samples.printed_digest Samples.empty_database)
     = (Ok (PVal Samples.alice),
        Samples.dictionary_world Samples.printed_digest Samples.empty_database).
Proof. vm_compute. repeat split. Qed.

(** C9, amended.  The dictionary backend is enabled and holds exactly the
    entry of [alice] with the SHA-256 digest of [password], 64 digits, under
    the algorithm [sha256].  Then the credential [alice:password] is
    accepted, and a credential of [alice] with any password is accepted
    exactly when the digest of the password is the stored one, or the
    credential is the stored entry itself; it is rejected otherwise.  The
    state is left as it was. *)
Theorem dictionary_entry_with_sha256_digest (env : Env) (d : Database)
    (password : string) :
  in_strings "dictionary" (UNSUPPORTED_METHODS env) = false ->
  Sha256.hexdigest "password" = Samples.password_digest
  /\ try_auth_dictionary env "alice:password"
       (Samples.dictionary_world Samples.password_digest d)
     = (Ok (PVal Samples.alice), Samples.dictionary_world Samples.password_digest d)
  /\ try_auth_dictionary env ("alice:" ++ password)
       (Samples.dictionary_world Samples.password_digest d)
     = (Ok (if String.eqb (Samples.password_digest ++ ":sha256") password
               || String.eqb Samples.password_digest (Sha256.hexdigest password)
            then PVal Samples.alice
            else PFalse),
        Samples.dictionary_world Samples.password_digest d).
Proof.
  intros Hsup.
  assert (Hgeneral : forall p,
    try_auth_dictionary env ("alice:" ++ p)
      (Samples.dictionary_world Samples.password_digest d)
    = (Ok (if String.eqb (Samples.password_digest ++ ":sha256") p
              || String.eqb Samples.password_digest (Sha256.hexdigest p)
           then PVal Samples.alice
           else PFalse),
       Samples.dictionary_world Samples.password_digest d)).
  { intros p.
    assert (Hsplit : split colon 1 ("alice:" ++ p) = ["alice"; p])
      by (cbn; now rewrite split_zero).
    unfold try_auth_dictionary, is_method_enabled, update_personal_access_token_groups,
      bind, get_mgr, lift, ret.
    rewrite Hsplit.
    cbn -[check_password]. rewrite Hsup. cbn -[check_password].
    change (check_password env _ _ _)
      with (check_password env (Samples.alice_entry Samples.password_digest)
              ("alice:" ++ p) ["alice"; p]).
    rewrite check_password_sha256.
    destruct (_ || _); reflexivity. }
  split; [vm_compute; reflexivity |].
  split; [| apply Hgeneral].
  change "alice:password" with ("alice:" ++ "password")%string.
  rewrite Hgeneral.
  replace (String.eqb Samples.password_digest (Sha256.hexdigest "password")) with true
    by (vm_compute; reflexivity).
  now rewrite orb_true_r.
Qed.

Lemma dictionary_entry_with_sha256_digest_witness :
  in_strings "dictionary" (UNSUPPORTED_METHODS Reference.env) = false
  /\ try_auth_dictionary Reference.env ("alice:" ++ "letmein")
       (Samples.dictionary_world Samples.password_digest Samples.empty_database)
     = (Ok PFalse,
        Samples.dictionary_world Samples.password_digest Samples.empty_database).
Proof.
  split; [reflexivity |].
  destruct (@dictionary_entry_with_sha256_digest Reference.env Samples.empty_database
              "letmein" eq_refl) as (_ & _ & H).
  rewrite H. vm_compute. reflexivity.
Defined.

(** ** OAuth providers *)

Lemma dict_mem_keys (k : string) (d : dict) :
  dict_mem k d = true <-> In k (dict_keys d).
Proof.
  unfold dict_mem, dict_keys.
  induction d as [| [k0 v0] rest IH]; simpl.
  - split; [discriminate | tauto].
  - destruct (String.eqb_spec k k0) as [-> | Hne].
    + split; [now left | reflexivity].
    + rewrite IH. split; [now right | intros [H | H]; [congruence | exact H]].
Qed.

Lemma enabled_names_keys (d : dict) :
  forall names n, enabled_names d = Ok names -> In n names -> In n (dict_keys d).
Proof.
  induction d as [| [k c] rest IH]; simpl; intros names n H Hin.
  - injection H as <-. destruct Hin.
  - destruct (py_get c "enabled" (JBool false)) as [e |]; simpl in H; [| discriminate].
    destruct (enabled_names rest) as [names' |]; simpl in H; [| discriminate].
    injection H as <-.
    destruct (truthy e).
    + destruct Hin as [<- | Hin]; [now left | right; eapply IH; eauto].
    + right. eapply IH; eauto.
Qed.

Lemma enabled_names_set_disabled (name : string) (v : json) (d : dict) :
  dict_wf d = true ->
  (forall e, py_get v "enabled" (JBool false) = Ok e -> truthy e = false) ->
  forall names, enabled_names (dict_set name v d) = Ok names -> ~ In name names.
Proof.
  intros Hwf Hoff.
  induction d as [| [k c] rest IH]; simpl; intros names H.
  - destruct (py_get v "enabled" (JBool false)) as [e |] eqn:He; simpl in H; [| discriminate].
    injection H as <-. rewrite (Hoff e eq_refl). intros [].
  - simpl in Hwf. apply andb_true_iff in Hwf as [Hfresh Hwf].
    destruct (String.eqb_spec name k) as [-> | Hne]; simpl in H.
    + destruct (py_get v "enabled" (JBool false)) as [e |] eqn:He; simpl in H; [| discriminate].
      destruct (enabled_names rest) as [names' |] eqn:Hrest; simpl in H; [| discriminate].
      injection H as <-. rewrite (Hoff e eq_refl).
      intros Hin. apply (@enabled_names_keys rest names' k Hrest) in Hin.
      apply dict_mem_keys in Hin. rewrite Hin in Hfresh. discriminate.
    + destruct (py_get c "enabled" (JBool false)) as [e |]; simpl in H; [| discriminate].
      destruct (enabled_names (dict_set name v rest)) as [names' |] eqn:Hrest;
        simpl in H; [| discriminate].
      injection H as <-.
      specialize (IH Hwf names' eq_refl).
      destruct (truthy e); [intros [Hk | Hin]; [congruence | tauto] | exact IH].
Qed.

(** The claim C6 says that a provider left at the example values is never
    listed.  Before its configuration is read for the first time it is: the
    provider below has the example client id and secret, is enabled in its
    configuration, and [get_oauth_providers] lists it. *)
Lemma example_provider_is_listed :
  left_at_example_values Samples.example_provider = true
  /\ get_oauth_providers (mgr Samples.example_world) = Ok ["github"].
Proof. split; reflexivity. Qed.

(** C6, amended.  A provider whose client id or client secret is the
    example value (or is missing) may be listed as enabled until its
    configuration is read.  The first [get_oauth_config] for it switches it
    off, whatever its [enabled] flag says: the call raises nothing, the
    configuration it hands back has [enabled] set to [False], and from then
    on [get_oauth_providers] does not list the provider. *)
Theorem example_provider_disabled_at_first_read (name : string) (w : World) (providers : dict) (cfg : json) :
  oauth_providers_of (auth_config (mgr w)) = Ok providers ->
  dict_wf providers = true ->
  dict_get name providers = Some cfg ->
  left_at_example_values cfg = true ->
  exists v w',
    get_oauth_config name w = (Ok v, w')
    /\ py_get v "enabled" JNull = Ok (JBool false)
    /\ db w' = db w
    /\ forall names, get_oauth_providers (mgr w') = Ok names -> ~ In name names.
Proof.
  intros Hprov Hwf Hget Hex.
  unfold oauth_providers_of in Hprov. simpl in Hprov.
  destruct (dict_get "method_oauth" (auth_config (mgr w))) as [mo |] eqn:Hmo;
    [| simpl in Hprov; injection Hprov as <-; discriminate].
  destruct mo as [| | | | | oauth]; try discriminate.
  simpl in Hprov.
  destruct (dict_get "providers" oauth) as [pv |] eqn:Hpv;
    [| simpl in Hprov; injection Hprov as <-; discriminate].
  destruct pv as [| | | | | ps]; try discriminate.
  simpl in Hprov. injection Hprov as ->.
  destruct cfg as [| | | | | c]; try discriminate.
  unfold left_at_example_values in Hex. simpl in Hex.
  unfold get_oauth_config, bind, get_mgr, lift, put_mgr, ret.
  simpl. rewrite Hmo. simpl. rewrite Hpv. simpl. rewrite Hget. simpl.
  rewrite Hex.
  unfold dict_index. rewrite Hmo. simpl. rewrite Hpv. simpl. rewrite Hget. simpl.
  rewrite !dict_get_set_eq. simpl. rewrite !dict_get_set_eq. simpl. rewrite !dict_get_set_eq.
  eexists _, _. split; [reflexivity |].
  split; [simpl; now rewrite dict_get_set_eq |].
  split; [reflexivity |].
  intros names. unfold get_oauth_providers, oauth_providers_of. simpl.
  rewrite !dict_get_set_eq. simpl. rewrite !dict_get_set_eq. simpl.
  apply enabled_names_set_disabled; [exact Hwf |].
  intros e. simpl. rewrite dict_get_set_eq. intros [= <-]. reflexivity.
Qed.

Lemma example_provider_disabled_at_first_read_witness :
  exists v w',
    get_oauth_config "github" Samples.example_world = (Ok v, w')
    /\ py_get v "enabled" JNull = Ok (JBool false)
    /\ db w' = db Samples.example_world
    /\ forall names, get_oauth_providers (mgr w') = Ok names -> ~ In "github" names.
Proof.
  apply (@example_provider_disabled_at_first_read "github" Samples.example_world
           [("github", Samples.example_provider)] Samples.example_provider);
    reflexivity.
Defined.

(** ** OAuth providers: the callback URL *)

Section Templates.

Variable env : Env.
Variable provider_name : string.
Variable variables : dict.

Lemma not_skipped_not_enabled (param : string) :
  in_strings param skipped_params = false -> param <> "enabled".
Proof. intros H ->. discriminate H. Qed.

Lemma format_params_keeps_disabled (items : dict) :
  forall provider p',
    dict_get "enabled" provider = Some (JBool false) ->
    format_params env provider_name variables items provider = Ok p' ->
    dict_get "enabled" p' = Some (JBool false).
Proof.
  induction items as [| [param value] rest IH]; intros provider p' Hoff H;
    cbn [format_params] in H.
  - now injection H as <-.
  - destruct (in_strings param skipped_params) eqn:Hskip; [exact (IH _ _ Hoff H) |].
    apply not_skipped_not_enabled in Hskip.
    assert (Hoff1 : forall text,
      dict_get "enabled" (dict_set param (JStr text) provider) = Some (JBool false))
      by (intros; now rewrite dict_get_set_ne).
    destruct (rbind (as_str value) (fun t => str_format env t variables))
      as [text | []]; try discriminate;
      [| injection H as <-; apply dict_get_set_eq].
    destruct (String.eqb param "callback_url"); [| exact (IH _ _ (Hoff1 text) H)].
    destruct (check_callback_url_format env provider_name text) as [c | []];
      try discriminate; [| injection H as <-; apply dict_get_set_eq].
    destruct (check_passed c); [exact (IH _ _ (Hoff1 text) H) |].
    apply (IH _ _ (dict_get_set_eq _ _ _) H).
Qed.

Lemma format_params_checks_callback (template url : string) (items : dict) :
  str_format env template variables = Ok url ->
  (forall c, check_callback_url_format env provider_name url = Ok c ->
             check_passed c = false) ->
  forall provider p',
    dict_get "callback_url" items = Some (JStr template) ->
    format_params env provider_name variables items provider = Ok p' ->
    dict_get "enabled" p' = Some (JBool false).
Proof.
  intros Hformat Hcheck.
  induction items as [| [param value] rest IH]; intros provider p' Hcb H;
    cbn [format_params] in H; cbn [dict_get] in Hcb; [discriminate |].
  destruct (String.eqb_spec "callback_url" param) as [<- | Hne].
  - injection Hcb as ->.
    change (in_strings "callback_url" skipped_params) with false in H.
    cbn [as_str rbind] in H. rewrite Hformat in H. rewrite String.eqb_refl in H.
    destruct (check_callback_url_format env provider_name url) as [c | []] eqn:Hc;
      try discriminate; [| injection H as <-; apply dict_get_set_eq].
    rewrite (Hcheck c eq_refl) in H.
    eapply format_params_keeps_disabled; [| exact H]. apply dict_get_set_eq.
  - destruct (in_strings param skipped_params); [exact (IH _ _ Hcb H) |].
    destruct (rbind (as_str value) (fun t => str_format env t variables))
      as [text | []]; try discriminate;
      [| injection H as <-; apply dict_get_set_eq].
    destruct (String.eqb_spec param "callback_url") as [-> | _];
      [congruence | exact (IH _ _ Hcb H)].
Qed.

End Templates.

Lemma dict_mem_same_keys (k : string) (a b : dict) :
  dict_keys a = dict_keys b -> dict_mem k a = dict_mem k b.
Proof.
  intros H.
  destruct (dict_mem k a) eqn:Ha, (dict_mem k b) eqn:Hb; try reflexivity.
  - apply dict_mem_keys in Ha. rewrite H in Ha. apply dict_mem_keys in Ha. congruence.
  - apply dict_mem_keys in Hb. rewrite <- H in Hb. apply dict_mem_keys in Hb. congruence.
Qed.

Lemma dict_wf_same_keys (a : dict) :
  forall b, dict_keys a = dict_keys b -> dict_wf a = dict_wf b.
Proof.
  induction a as [| [k v] rest IH]; intros [| [k' v'] rest'] H; simpl in *;
    try discriminate; [reflexivity |].
  injection H as -> Hrest.
  now rewrite (IH _ Hrest), (@dict_mem_same_keys k' rest rest' Hrest).
Qed.

Lemma enabled_names_listed (d : dict) :
  dict_wf d = true ->
  forall names n,
    enabled_names d = Ok names -> In n names ->
    exists c e,
      dict_get n d = Some c
      /\ py_get c "enabled" (JBool false) = Ok e
      /\ truthy e = true.
Proof.
  induction d as [| [k c] rest IH]; simpl; intros Hwf names n H Hin.
  - injection H as <-. destruct Hin.
  - apply andb_true_iff in Hwf as [Hfresh Hwf].
    destruct (py_get c "enabled" (JBool false)) as [e |] eqn:He; simpl in H; [| discriminate].
    destruct (enabled_names rest) as [names' |] eqn:Hrest; simpl in H; [| discriminate].
    injection H as <-.
    assert (Hrec : In n names' ->
      exists c0 e0, (if String.eqb n k then Some c else dict_get n rest) = Some c0
                    /\ py_get c0 "enabled" (JBool false) = Ok e0 /\ truthy e0 = true).
    { intros Hn. destruct (IH Hwf names' n eq_refl Hn) as (c0 & e0 & Hg & Hp & Ht).
      exists c0, e0. split; [| now split].
      destruct (String.eqb_spec n k) as [-> | _]; [| exact Hg].
      assert (dict_mem k rest = true) by (unfold dict_mem; now rewrite Hg).
      rewrite H in Hfresh. discriminate. }
    destruct (truthy e) eqn:Ht; [| exact (Hrec Hin)].
    destruct Hin as [<- | Hin]; [| exact (Hrec Hin)].
    exists c, e. rewrite String.eqb_refl. now repeat split.
Qed.

Section Outer.

Variable env : Env.
Variable shared_variables : json.

Lemma apply_templates_keys (providers : dict) :
  forall providers',
    apply_templates env shared_variables providers = Ok providers' ->
    dict_keys providers' = dict_keys providers.
Proof.
  induction providers as [| [k pv] rest IH]; simpl; intros providers' H.
  - now injection H as <-.
  - destruct (apply_template env shared_variables k pv) as [p |]; simpl in H; [| discriminate].
    destruct (apply_templates env shared_variables rest) as [rest' |]; simpl in H;
      [| discriminate].
    injection H as <-. simpl. now rewrite (IH rest' eq_refl).
Qed.

Lemma apply_templates_lookup (providers : dict) :
  forall providers' name pv,
    apply_templates env shared_variables providers = Ok providers' ->
    dict_get name providers = Some pv ->
    exists pv',
      apply_template env shared_variables name pv = Ok pv'
      /\ dict_get name providers' = Some pv'.
Proof.
  induction providers as [| [k pv0] rest IH]; simpl; intros providers' name pv H Hget.
  - discriminate.
  - destruct (apply_template env shared_variables k pv0) as [p |] eqn:Hp; simpl in H;
      [| discriminate].
    destruct (apply_templates env shared_variables rest) as [rest' |]; simpl in H;
      [| discriminate].
    injection H as <-. simpl.
    destruct (String.eqb_spec name k) as [-> | Hne].
    + injection Hget as <-. now exists p.
    + exact (IH rest' name pv eq_refl Hget).
Qed.

Lemma apply_template_checks_callback (name : string) (pv pv' : json) (url : string) :
  substituted_callback_url env shared_variables name pv = Some url ->
  (forall c, check_callback_url_format env name url = Ok c -> check_passed c = false) ->
  apply_template env shared_variables name pv = Ok pv' ->
  exists p', pv' = JDict p' /\ dict_get "enabled" p' = Some (JBool false).
Proof.
  unfold substituted_callback_url, provider_with_defaults, apply_template.
  intros Hsub Hcheck H.
  destruct (py_get pv "enabled" JNull) as [enabled |]; [| discriminate].
  destruct pv as [| | | | | provider]; try discriminate.
  cbn [rbind as_dict] in H.
  destruct (truthy enabled); [| discriminate]. cbn [negb] in H.
  set (template_name := match dict_get "template" provider with
                        | Some t => t
                        | None => JStr "default"
                        end) in *.
  destruct (lookup_template env template_name) as [[[| | | | | defaults] |] |];
    try discriminate.
  cbn [rbind truthy_opt] in H.
  destruct (truthy (JDict defaults)); [| discriminate].
  destruct (json_is_str template_name "default"); [discriminate |].
  cbn [negb andb as_dict rbind] in H, Hsub.
  set (provider1 := fold_left (fun p kv => dict_setdefault (fst kv) (snd kv) p)
                              defaults provider) in *.
  destruct (provider_variables shared_variables name provider1) as [variables |];
    [| discriminate].
  cbn [rbind] in H.
  destruct (dict_get "callback_url" provider1) as [[| | | template | |] |] eqn:Hcb;
    try discriminate.
  destruct (str_format env template variables) as [url' |] eqn:Hformat; [| discriminate].
  injection Hsub as ->.
  destruct (format_params env name variables provider1 provider1) as [p' |] eqn:Hp;
    [| discriminate].
  injection H as <-. exists p'. split; [reflexivity |].
  eapply format_params_checks_callback; eauto.
Qed.

End Outer.

Lemma check_fails (env : Env) (name url : string) :
  contains_char "@"%char name = true
  \/ re_match env (callback_url_pattern name) url <> Ok true ->
  forall c, check_callback_url_format env name url = Ok c -> check_passed c = false.
Proof.
  unfold check_callback_url_format. intros Hor c H.
  destruct (contains_char "@"%char name).
  - now injection H as <-.
  - destruct Hor as [Hat | Hre]; [discriminate |].
    destruct (re_match env (callback_url_pattern name) url) as [[] |];
      try discriminate; injection H as <-; [congruence | reflexivity].
Qed.

(** The check of the code decides.  Take a provider of the configuration
    whose callback URL, after the defaults of its template and the
    substitution of the variables, [re] does not match against the pattern the
    code builds for its name, or whose name has an ['@'] in it.  When
    [__oauth_apply_templates] has run, this provider has [enabled] set to
    [False] and [get_oauth_providers] does not list it.  Every other provider
    is left with what the preparation of its own entry yields: the failure of
    one provider switches off no other. *)
Lemma callback_url_mismatch_disables_provider (env : Env) (config config' : dict) (providers : dict)
    (name : string) (pv : json) (url : string) :
  oauth_apply_templates env config = Ok config' ->
  oauth_providers_of config = Ok providers ->
  dict_wf providers = true ->
  dict_get name providers = Some pv ->
  substituted_callback_url env (shared_variables_of config) name pv = Some url ->
  contains_char "@"%char name = true
  \/ re_match env (callback_url_pattern name) url <> Ok true ->
  exists providers' p',
    oauth_providers_of config' = Ok providers'
    /\ dict_get name providers' = Some (JDict p')
    /\ dict_get "enabled" p' = Some (JBool false)
    /\ (forall m names,
          auth_config m = config' -> get_oauth_providers m = Ok names -> ~ In name names)
    /\ (forall other pv_o,
          other <> name -> dict_get other providers = Some pv_o ->
          exists r,
            apply_template env (shared_variables_of config) other pv_o = Ok r
            /\ dict_get other providers' = Some r).
Proof.
  intros Happly Hprov Hwf Hget Hsub Hfail.
  unfold oauth_providers_of in Hprov. simpl in Hprov.
  unfold oauth_apply_templates in Happly.
  unfold shared_variables_of in *.
  destruct (dict_get "method_oauth" config) as [mo |] eqn:Hmo;
    [| simpl in Hprov; injection Hprov as <-; discriminate].
  destruct mo as [| | | | | oauth]; try discriminate.
  simpl in Hprov, Happly.
  destruct (dict_get "providers" oauth) as [pvs |] eqn:Hpvs;
    [| simpl in Hprov; injection Hprov as <-; discriminate].
  destruct pvs as [| | | | | ps]; try discriminate.
  simpl in Hprov, Happly. injection Hprov as ->.
  set (shared := match dict_get "shared_variables" oauth with
                 | Some v => v
                 | None => JDict []
                 end) in *.
  destruct (apply_templates env shared providers) as [providers' |] eqn:Hall;
    simpl in Happly; [| discriminate].
  assert (Hconfig : config' = dict_set "method_oauth"
            (JDict (dict_set "providers" (JDict providers') oauth)) config).
  { destruct providers; [discriminate | now injection Happly]. }
  clear Happly.
  destruct (@apply_templates_lookup env shared providers providers' name pv Hall Hget)
    as (pv' & Hone & Hget').
  destruct (@apply_template_checks_callback env shared name pv pv' url Hsub
              (@check_fails env name url Hfail) Hone) as (p' & -> & Hoff).
  assert (Hprov' : oauth_providers_of config' = Ok providers').
  { subst config'. unfold oauth_providers_of. simpl.
    rewrite dict_get_set_eq. simpl. now rewrite dict_get_set_eq. }
  exists providers', p'.
  split; [exact Hprov' |]. split; [exact Hget' |]. split; [exact Hoff |].
  split.
  - intros m names Hm Hnames Hin.
    unfold get_oauth_providers in Hnames. rewrite Hm, Hprov' in Hnames. simpl in Hnames.
    assert (Hwf' : dict_wf providers' = true).
    { rewrite (@dict_wf_same_keys providers' providers
                 (@apply_templates_keys env shared providers providers' Hall)).
      exact Hwf. }
    destruct (@enabled_names_listed providers' Hwf' names name Hnames Hin)
      as (c & e & Hc & He & Ht).
    rewrite Hget' in Hc. injection Hc as <-.
    simpl in He. rewrite Hoff in He. injection He as <-. discriminate.
  - intros other pv_o _ Hother.
    exact (@apply_templates_lookup env shared providers providers' other pv_o Hall Hother).
Qed.

Lemma callback_url_mismatch_disables_provider_witness :
  exists providers' p',
    oauth_providers_of Samples.prepared_test_config = Ok providers'
    /\ dict_get "always_off" providers' = Some (JDict p')
    /\ dict_get "enabled" p' = Some (JBool false)
    /\ (forall m names,
          auth_config m = Samples.prepared_test_config ->
          get_oauth_providers m = Ok names -> ~ In "always_off" names)
    /\ (forall other pv_o,
          other <> "always_off" -> dict_get other Samples.test_providers = Some pv_o ->
          exists r,
            apply_template Reference.env (shared_variables_of Samples.test_config)
              other pv_o = Ok r
            /\ dict_get other providers' = Some r).
Proof.
  apply (@callback_url_mismatch_disables_provider Reference.env Samples.test_config
           Samples.prepared_test_config Samples.test_providers "always_off"
           Samples.always_off "https://gjtujg//loginOAuthLogin/fakeprovider");
    try reflexivity.
  right. vm_compute. intros H. discriminate H.
Defined.

(** The class [[a-zA-Z0-9.-_]] of the pattern of the code: [.-_] is the
    range from the dot to the underscore.  The slash, the colon and the at
    sign are in it, the hyphen is not. *)
Example website_class_is_a_range :
  Reference.website_char "/" = true /\ Reference.website_char ":" = true
  /\ Reference.website_char "@" = true /\ Reference.website_char "-" = false.
Proof. repeat split. Qed.

(** C7.  The check of the code is not the pattern of the design, and a
    callback URL that fails the pattern of the design does not disable its
    provider.  The provider [github] is configured with the callback URL
    [http://user:pw@host/x/y/login/OAuthLogin/github], which names
    credentials and a path of its own where the design has [host[:port]].
    The pattern of the code reads the part after the scheme with the class
    [[a-zA-Z0-9.-_]], a range with the slash, the colon and the at sign in it:
    [check_callback_url_format] accepts the URL, [__oauth_apply_templates]
    leaves the provider enabled, and [get_oauth_providers] lists it. *)
Theorem callback_url_outside_the_pattern_is_accepted :
  required_callback_url "github" Samples.detour_url = false
  /\ substituted_callback_url Reference.env
       (shared_variables_of (Samples.config_at Samples.detour_url)) "github"
       (Samples.github_at Samples.detour_url)
     = Some Samples.detour_url
  /\ check_callback_url_format Reference.env "github" Samples.detour_url
     = Ok (Some true)
  /\ exists config' providers' p',
       oauth_apply_templates Reference.env (Samples.config_at Samples.detour_url)
       = Ok config'
       /\ oauth_providers_of config' = Ok providers'
       /\ dict_get "github" providers' = Some (JDict p')
       /\ dict_get "enabled" p' = Some (JBool true)
       /\ get_oauth_providers (set_auth_config config' (Samples.manager false []))
          = Ok ["github"].
Proof.
  split; [reflexivity |]. split; [reflexivity |]. split; [reflexivity |].
  destruct (oauth_apply_templates Reference.env (Samples.config_at Samples.detour_url))
    as [config' | e] eqn:Hrun; vm_compute in Hrun; [| discriminate Hrun].
  injection Hrun as <-.
  eexists _, _, _. split; [reflexivity |].
  split; [reflexivity |]. split; [reflexivity |]. split; reflexivity.
Qed.

(** The other way round: a host with a hyphen in it fits the pattern of
    the design, and the code refuses it and disables the provider. *)
Example hyphenated_host_is_refused :
  required_callback_url "github" Samples.hyphen_url = true
  /\ check_callback_url_format Reference.env "github" Samples.hyphen_url
     = Ok (Some false)
  /\ exists config',
       oauth_apply_templates Reference.env (Samples.config_at Samples.hyphen_url)
       = Ok config'
       /\ get_oauth_providers (set_auth_config config' (Samples.manager false []))
          = Ok [].
Proof.
  split; [reflexivity |]. split; [reflexivity |].
  destruct (oauth_apply_templates Reference.env (Samples.config_at Samples.hyphen_url))
    as [config' | e] eqn:Hrun; vm_compute in Hrun; [| discriminate Hrun].
  injection Hrun as <-.
  eexists. split; reflexivity.
Qed.

(** On the callback URL the template yields for the host of the samples,
    the design and the code agree. *)
Example template_callback_fits_both :
  required_callback_url "github" "http://localhost:8080/login/OAuthLogin/github" = true
  /\ check_callback_url_format Reference.env "github"
       "http://localhost:8080/login/OAuthLogin/github" = Ok (Some true).
Proof. split; reflexivity. Qed.

Example prepared_test_config_lists_github :
  get_oauth_providers (set_auth_config Samples.prepared_test_config
                         (Samples.manager false []))
  = Ok ["github"].
Proof. reflexivity. Qed.

(** ** The validator chain *)

Lemma bind_assoc (A B C : Type) (m : M A) (k : A -> M B) (h : B -> M C) (w : World) :
  bind (bind m k) h w = bind m (fun a => bind (k a) h) w.
Proof. unfold bind. destruct (m w) as [[a | e] w']; reflexivity. Qed.

Lemma bind_ext (A B : Type) (m : M A) (k k' : A -> M B) (w : World) :
  (forall a w', k a w' = k' a w') -> bind m k w = bind m k' w.
Proof. intros H. unfold bind. destruct (m w) as [[a | e] w']; [apply H | reflexivity]. Qed.

Section ChainProof.

Variable env : Env.
Variable now : Z.
Variable fresh auth_string : string.

Lemma handle_validation_tail (validation : pyval Validation) (w : World) :
  bind (match validation with
        | PVal v =>
            m <- get_mgr ;;
            let extra_groups := try_regex_groups env m (v_username v) in
            match extra_groups with
            | [] => ret (PVal v)
            | _ :: _ =>
                match v_groups v with
                | None => raise (KeyError "groups")
                | Some already_groups =>
                    ret (PVal {| v_username := v_username v;
                                 v_groups := Some (set_union already_groups extra_groups) |})
                end
            end
        | _ => ret PFalse
        end) (after_validation env now fresh) w
  = (regex_then_issue env now fresh) validation w.
Proof.
  destruct validation as [| | v]; try reflexivity.
  unfold regex_then_issue, add_regex_groups, bind, get_mgr, ret, raise.
  destruct (try_regex_groups env (mgr w) (v_username v)); [reflexivity |].
  destruct (v_groups v); reflexivity.
Qed.

Lemma py_or_step (C : Type) (t rest : M (pyval Validation))
    (K : pyval Validation -> M C) (w : World) :
  bind (py_or t rest) K w
  = match t w with
    | (Ok (PVal v), w1) => K (PVal v) w1
    | (Ok _, w1) => bind rest K w1
    | (Raise e, w1) => (Raise e, w1)
    end.
Proof.
  unfold py_or, bind, ret. destruct (t w) as [[[| | v] | e] w1]; reflexivity.
Qed.

Lemma chain_step (x : validator) (rest : list validator) (t : M (pyval Validation))
    (w : World) :
  run_validator env now x auth_string = (r <- t ;; ret (accepted_by Identity r)) ->
  bind (first_accepting env now (x :: rest) auth_string) (after_chain env now fresh) w
  = match t w with
    | (Ok (PVal v), w1) => (regex_then_issue env now fresh) (PVal v) w1
    | (Ok _, w1) => bind (first_accepting env now rest auth_string) (after_chain env now fresh) w1
    | (Raise e, w1) => (Raise e, w1)
    end.
Proof.
  intros Hrun. cbn [first_accepting]. rewrite Hrun.
  unfold bind, ret. destruct (t w) as [[[| | v] | e] w1]; reflexivity.
Qed.

Lemma last_step (t : M (pyval Validation)) (w : World) :
  bind t (regex_then_issue env now fresh) w
  = match t w with
    | (Ok (PVal v), w1) => (regex_then_issue env now fresh) (PVal v) w1
    | (Ok _, w1) => bind (first_accepting env now [] auth_string) (after_chain env now fresh) w1
    | (Raise e, w1) => (Raise e, w1)
    end.
Proof.
  unfold bind. destruct (t w) as [[[| | v] | e] w1]; reflexivity.
Qed.

Lemma last_validators (w : World) :
  bind (handle_validation env now auth_string) (after_validation env now fresh) w
  = bind (first_accepting env now [PersonalToken; Dictionary; Pam; Ldap] auth_string)
         (after_chain env now fresh) w.
Proof.
  unfold handle_validation. rewrite bind_assoc.
  rewrite (@bind_ext _ _ _ _ (regex_then_issue env now fresh) w handle_validation_tail).
  rewrite py_or_step, (@chain_step PersonalToken _ _ w eq_refl).
  destruct (try_personal_access_token now auth_string w) as [[[| | v] | e] w1];
    try reflexivity;
    rewrite py_or_step, (@chain_step Dictionary _ _ w1 eq_refl);
    (destruct (try_auth_dictionary env auth_string w1) as [[[| | v] | e] w2];
     try reflexivity;
     rewrite py_or_step, (@chain_step Pam _ _ w2 eq_refl);
     (destruct (try_auth_pam env auth_string w2) as [[[| | v] | e] w3];
      try reflexivity;
      rewrite last_step, (@chain_step Ldap _ _ w3 eq_refl);
      reflexivity)).
Qed.

Lemma bearer_step (rest : list validator) (w : World) :
  bind (first_accepting env now (BearerToken :: rest) auth_string) (after_chain env now fresh) w
  = match try_auth_token auth_string w with
    | (Ok (PVal tok), w1) => rehydrate env now tok w1
    | (Ok _, w1) => bind (first_accepting env now rest auth_string) (after_chain env now fresh) w1
    | (Raise e, w1) => (Raise e, w1)
    end.
Proof.
  cbn [first_accepting run_validator].
  unfold bind, ret. destruct (try_auth_token auth_string w) as [[[| | tok] | e] w1];
    reflexivity.
Qed.

Lemma after_count (w : World) :
  bind (try_auth_token auth_string)
       (fun auth_token =>
          match auth_token with
          | PVal tok => rehydrate env now tok
          | _ => bind (handle_validation env now auth_string) (after_validation env now fresh)
          end) w
  = bind (first_accepting env now [BearerToken; PersonalToken; Dictionary; Pam; Ldap]
          auth_string)
         (after_chain env now fresh) w.
Proof.
  rewrite bearer_step. unfold bind at 1.
  destruct (try_auth_token auth_string w) as [[[| | tok] | e] w1];
    try reflexivity; apply last_validators.
Qed.

(** C4.  [create_session] is the walk over the validators in the order
    bearer session token, personal access token, dictionary, PAM, LDAP: the
    first validator that accepts ends the walk, the ones after it are not
    run; a bearer token that is found has its stored session rehydrated, and
    any other accepted identity gets a new session.  The two computations
    agree on every state, in their result, in the state they leave, and in
    the exceptions they raise. *)
Theorem create_session_walks_the_chain_in_order (w : World) :
  create_session env now fresh auth_string w
  = create_session_by_chain env
      [BearerToken; PersonalToken; Dictionary; Pam; Ldap]
      now fresh auth_string w.
Proof.
  unfold create_session, create_session_by_chain.
  apply bind_ext; intros m w1.
  apply bind_ext; intros enabled w2.
  destruct (negb (truthy enabled)); [reflexivity |].
  unfold count_login. rewrite !bind_assoc.
  apply bind_ext; intros _ w3.
  rewrite !bind_assoc.
  apply bind_ext; intros m' w4.
  rewrite !bind_assoc.
  apply bind_ext; intros limit_value w5.
  rewrite !bind_assoc.
  apply bind_ext; intros limit w6.
  apply bind_ext; intros _ w7.
  rewrite <- after_count.
  apply bind_ext; intros [| | tok] w8; reflexivity.
Qed.

End ChainProof.

(** The order of the chain is not immaterial: with PAM placed before the
    dictionary, [bob] would lose the group the dictionary gives him. *)
Example order_of_validators_matters :
  fst (create_session Reference.env 1000 "f00d" "bob:builder" Samples.two_backends_world)
  = Ok (PVal (new_session 1000 "f00d" "bob" ["staff"] 300 (Some 60) false false None))
  /\ fst (create_session_by_chain Reference.env
             [BearerToken; PersonalToken; Pam; Dictionary; Ldap]
             1000 "f00d" "bob:builder" Samples.two_backends_world)
     = Ok (PVal (new_session 1000 "f00d" "bob" [] 300 (Some 60) false false None)).
Proof. vm_compute. split; reflexivity. Qed.

(** * Further properties *)

(** ** Revalidation *)

Lemma revalidate_cases (now : Z) (s : Session) (d : Database) :
  revalidate now s d = (s, d)
  \/ (is_alive now s = true /\ has_database s = true
      /\ is_refresh_time_expire now s = true
      /\ fst (revalidate now s d) = set_last_access now s).
Proof.
  unfold revalidate.
  destruct (is_alive now s); [| now left].
  destruct (has_database s); [| now left].
  destruct (is_refresh_time_expire now s); [| now left].
  right. simpl.
  destruct (begin_transaction d) as [[[] | e] d']; now repeat split.
Qed.

Lemma touch_keeps_identity (mine : SessionRecord -> bool) (t : Z)
    (rs : list SessionRecord) :
  map row_identity
    ((fix touch (rs : list SessionRecord) : list SessionRecord :=
        match rs with
        | [] => []
        | r :: rest =>
            if mine r then
              {| rec_id := rec_id r; rec_token := rec_token r;
                 rec_user_name := rec_user_name r; rec_groups := rec_groups r;
                 rec_last_access := t |} :: rest
            else r :: touch rest
        end) rs)
  = map row_identity rs.
Proof.
  induction rs as [| r rest IH]; [reflexivity |].
  destruct (mine r); simpl; [reflexivity | now rewrite IH].
Qed.

Lemma revalidate_keeps_the_session (now : Z) (s : Session) (d : Database) :
  session_identity (fst (revalidate now s d)) = session_identity s
  /\ session_lifetime (fst (revalidate now s d)) = session_lifetime s
  /\ refresh_time (fst (revalidate now s d)) = refresh_time s.
Proof.
  destruct (revalidate_cases now s d) as [-> | (_ & _ & _ & ->)]; now repeat split.
Qed.

Lemma revalidate_session_part (now : Z) (s : Session) (d : Database) :
  fst (revalidate now s d)
  = if is_alive now s && (has_database s && is_refresh_time_expire now s)
    then set_last_access now s
    else s.
Proof.
  unfold revalidate.
  destruct (is_alive now s); [| reflexivity].
  destruct (has_database s && is_refresh_time_expire now s); [| reflexivity].
  simpl. destruct (begin_transaction d) as [[[] | e] d']; reflexivity.
Qed.

Lemma revalidate_again (now : Z) (s : Session) (d d' : Database) :
  fst (revalidate now (fst (revalidate now s d)) d') = fst (revalidate now s d).
Proof.
  rewrite (revalidate_session_part now s d).
  destruct (is_alive now s && (has_database s && is_refresh_time_expire now s)) eqn:E.
  - rewrite revalidate_session_part.
    destruct (is_alive now (set_last_access now s)
              && (has_database (set_last_access now s)
                  && is_refresh_time_expire now (set_last_access now s)));
      reflexivity.
  - rewrite revalidate_session_part, E. reflexivity.
Qed.

(** X1.  [revalidate] writes nothing but a last access: the session keeps
    its token, user, groups, root status and policy, its last access stays
    or becomes the present instant, and the store keeps its rows (identifier,
    token, user and groups of each, in order) and its other tables. *)
Theorem revalidate_writes_last_access_only (now : Z) (s : Session) (d : Database) :
  session_identity (fst (revalidate now s d)) = session_identity s
  /\ session_lifetime (fst (revalidate now s d)) = session_lifetime s
  /\ refresh_time (fst (revalidate now s d)) = refresh_time s
  /\ (last_access (fst (revalidate now s d)) = last_access s
      \/ last_access (fst (revalidate now s d)) = now)
  /\ map row_identity (session_records (snd (revalidate now s d)))
     = map row_identity (session_records d)
  /\ personal_access_tokens (snd (revalidate now s d)) = personal_access_tokens d
  /\ system_permissions (snd (revalidate now s d)) = system_permissions d
  /\ oauth_tokens (snd (revalidate now s d)) = oauth_tokens d.
Proof.
  unfold revalidate.
  destruct (is_alive now s); [| simpl; tauto].
  destruct (has_database s && is_refresh_time_expire now s); [| simpl; tauto].
  unfold begin_transaction.
  destruct (faults d) as [| [] fs]; simpl;
    repeat split; auto; apply touch_keeps_identity.
Qed.

(** X2.  With a positive refresh time, [revalidate] is idempotent within
    the refresh window: revalidating again at the same instant changes
    nothing, and after a revalidation that moved the last access to [t], any
    further one up to [t + refresh_time] changes neither the session nor the
    store. *)
Theorem revalidate_idempotent_in_window (t : Z) (s : Session) (d : Database) (r : Z) :
  refresh_time s = Some r ->
  0 < r ->
  revalidate t (fst (revalidate t s d)) (snd (revalidate t s d)) = revalidate t s d
  /\ (last_access (fst (revalidate t s d)) = t ->
      forall t', t <= t' <= t + r ->
        revalidate t' (fst (revalidate t s d)) (snd (revalidate t s d))
        = revalidate t s d).
Proof.
  intros Hr Hpos.
  assert (Hwindow : forall s1 d1 t',
            refresh_time s1 = Some r -> t' - last_access s1 <= r ->
            revalidate t' s1 d1 = (s1, d1)).
  { intros s1 d1 t' Hr1 Hle. unfold revalidate, is_refresh_time_expire.
    rewrite Hr1. replace (r =? 0) with false by (symmetry; apply Z.eqb_neq; lia).
    replace (t' - last_access s1 >? r) with false
      by (symmetry; rewrite Z.gtb_ltb; apply Z.ltb_ge; lia).
    rewrite andb_false_r. now destruct (negb (is_alive t' s1)). }
  pose proof (revalidate_keeps_the_session t s d) as (_ & _ & Hrt).
  split.
  - destruct (revalidate_cases t s d) as [Hsame | (Ha & Hd & He & Hs1)].
    + now rewrite !Hsame.
    + destruct (revalidate t s d) as [s1 d1]. simpl in *. subst s1.
      apply Hwindow; simpl; [exact Hr | lia].
  - intros Hla t' Ht'.
    destruct (revalidate t s d) as [s1 d1]. simpl in *.
    apply Hwindow; [congruence | lia].
Qed.

Lemma revalidate_idempotent_in_window_witness :
  refresh_time Samples.ann = Some 60
  /\ revalidate 1000
       (fst (revalidate 1000 Samples.ann (db (Samples.prune_world 0))))
       (snd (revalidate 1000 Samples.ann (db (Samples.prune_world 0))))
     = revalidate 1000 Samples.ann (db (Samples.prune_world 0)).
Proof.
  split; [reflexivity |].
  destruct (@revalidate_idempotent_in_window 1000 Samples.ann
              (db (Samples.prune_world 0)) 60) as [H _];
    [reflexivity | lia | exact H].
Defined.

(** ** Invalidation and lookup *)

Lemma remove_first_count (tok tok' : string) (l : list Session) :
  count_token tok' (remove_first_with_token tok l)
  = if String.eqb tok' tok then Nat.pred (count_token tok' l) else count_token tok' l.
Proof.
  unfold count_token.
  induction l as [| s rest IH]; simpl.
  - now destruct (String.eqb tok' tok).
  - destruct (String.eqb_spec (token s) tok) as [Hs | Hs].
    + destruct (String.eqb_spec tok' tok) as [-> | Hne].
      * rewrite Hs, String.eqb_refl. reflexivity.
      * destruct (String.eqb_spec (token s) tok'); [congruence | reflexivity].
    + simpl. destruct (String.eqb (token s) tok') eqn:E; simpl; rewrite IH.
      * destruct (String.eqb_spec tok' tok) as [-> | Hne]; [| reflexivity].
        apply String.eqb_eq in E. congruence.
      * reflexivity.
Qed.

Lemma existsb_count_token (tok : string) (l : list Session) :
  existsb (fun s => String.eqb (token s) tok) l = false -> count_token tok l = 0%nat.
Proof.
  unfold count_token. induction l as [| s rest IH]; simpl; [reflexivity |].
  destruct (String.eqb (token s) tok); simpl; [discriminate | exact IH].
Qed.

Lemma invalidate_local_session_effect (tok : string) (w : World) :
  exists b,
    invalidate_local_session tok w
    = (Ok b, {| mgr := set_sessions (remove_first_with_token tok (sessions (mgr w))) (mgr w);
                db := db w |}).
Proof.
  unfold invalidate_local_session, bind, get_mgr, put_mgr, ret.
  destruct (existsb _ _) eqn:E.
  - now exists true.
  - exists false. f_equal. destruct w as [m d]. simpl in *. f_equal.
    assert (H : remove_first_with_token tok (sessions m) = sessions m).
    { induction (sessions m) as [| s rest IH]; simpl in *; [reflexivity |].
      destruct (String.eqb (token s) tok); simpl in E; [discriminate |].
      now rewrite IH. }
    rewrite H. now destruct m.
Qed.

Lemma invalidate_effect (tok : string) (w : World) :
  invalidate tok w
  = let m1 := set_sessions (remove_first_with_token tok (sessions (mgr w))) (mgr w) in
    if database_connection (mgr w) then
      match begin_transaction (db w) with
      | (Ok _, d) =>
          (Ok true, {| mgr := m1; db := delete_session_rows tok d |})
      | (Raise _, d) => (Ok false, {| mgr := m1; db := d |})
      end
    else (Ok true, {| mgr := m1; db := db w |}).
Proof.
  destruct (invalidate_local_session_effect tok w) as (b0 & Hloc).
  unfold invalidate, try_except, bind. rewrite Hloc.
  unfold get_mgr, transaction, modify_db, ret. simpl.
  destruct (database_connection (mgr w)); [| reflexivity].
  simpl. destruct (begin_transaction (db w)) as [[[] | e] d]; reflexivity.
Qed.

(** X3.  [invalidate] takes exactly one session bearing the token out of
    the worker's list, the first one; sessions bearing the token beyond the
    first stay, and sessions with other tokens are not touched.  It never
    raises. *)
Theorem invalidate_removes_one_session (tok : string) (w : World) :
  exists b,
    fst (invalidate tok w) = Ok b
    /\ sessions (mgr (snd (invalidate tok w)))
       = remove_first_with_token tok (sessions (mgr w))
    /\ forall tok',
         count_token tok' (sessions (mgr (snd (invalidate tok w))))
         = if String.eqb tok' tok
           then Nat.pred (count_token tok' (sessions (mgr w)))
           else count_token tok' (sessions (mgr w)).
Proof.
  rewrite invalidate_effect. cbv zeta.
  destruct (database_connection (mgr w)).
  - destruct (begin_transaction (db w)) as [[[] | e] d]; cbn;
      eexists; (split; [reflexivity |]); (split; [reflexivity |]);
      intros tok'; apply remove_first_count.
  - cbn. eexists. split; [reflexivity |]. split; [reflexivity |].
    intros tok'; apply remove_first_count.
Qed.

Lemma find_live_none (now : Z) (tok : string) (l : list Session) :
  forall before,
    count_token tok l = 0%nat -> find_live now tok before l = None.
Proof.
  unfold count_token.
  induction l as [| s rest IH]; intros before H; simpl in *; [reflexivity |].
  destruct (String.eqb (token s) tok); simpl in H; [discriminate |].
  rewrite andb_false_r. now apply IH.
Qed.

Lemma find_filtered_out (tok : string) (rs : list SessionRecord) :
  find (fun r => String.eqb (rec_token r) tok)
       (filter (fun r => negb (String.eqb (rec_token r) tok)) rs) = None.
Proof.
  induction rs as [| r rest IH]; simpl; [reflexivity |].
  destruct (String.eqb (rec_token r) tok) eqn:E; simpl; [exact IH |].
  now rewrite E.
Qed.

Lemma get_session_absent (env : Env) (now : Z) (tok : string) (w : World) :
  count_token tok (sessions (mgr w)) = 0%nat ->
  (database_connection (mgr w) = true ->
   faults (db w) = []
   /\ find (fun r => String.eqb (rec_token r) tok) (session_records (db w)) = None) ->
  fst (get_session env now tok w) = Ok None.
Proof.
  intros Hcount Hdb.
  unfold get_session, bind, get_mgr, ret.
  destruct (is_enabled (mgr w)); [| reflexivity]. cbv beta iota. cbn [negb].
  rewrite (@find_live_none now tok (sessions (mgr w)) [] Hcount).
  assert (Hlocal : exists w1, get_local_session_from_db env now tok w = (Ok None, w1)).
  { unfold get_local_session_from_db, bind, get_mgr, try_except, transaction,
      get_db, begin_transaction, ret.
    destruct (database_connection (mgr w)) eqn:Hconn; [| now exists w].
    destruct (Hdb eq_refl) as (Hfaults & Hfind).
    cbn [negb]. cbv beta iota. rewrite Hfaults. cbn [mgr db]. rewrite Hfind.
    eexists. reflexivity. }
  destruct Hlocal as (w1 & ->).
  pose proof (invalidate_never_raises tok w1) as Hn.
  destruct (invalidate tok w1) as [[b | e] w2]; [reflexivity | discriminate].
Qed.

(** X4.  Logging out closes the session on this worker: when the store
    answers and the worker's list holds at most one session bearing the
    token, [invalidate] returns [True] and a [get_session] that follows it,
    at any instant, finds no session for the token. *)
Theorem get_session_after_invalidate (env : Env) (now : Z) (tok : string) (w : World) :
  faults (db w) = [] ->
  (count_token tok (sessions (mgr w)) <= 1)%nat ->
  fst (invalidate tok w) = Ok true
  /\ fst (get_session env now tok (snd (invalidate tok w))) = Ok None.
Proof.
  intros Hfaults Hcount.
  assert (Hgone : count_token tok (remove_first_with_token tok (sessions (mgr w))) = 0%nat).
  { rewrite remove_first_count, String.eqb_refl. lia. }
  rewrite invalidate_effect. cbv zeta. unfold begin_transaction. rewrite Hfaults.
  destruct (database_connection (mgr w)) eqn:Hconn; cbn [fst snd];
    (split; [reflexivity |]); apply get_session_absent; try exact Hgone.
  - intros _. split; [exact Hfaults | apply find_filtered_out].
  - cbn [mgr db]. change (database_connection (set_sessions _ (mgr w)))
      with (database_connection (mgr w)). congruence.
Qed.

Lemma get_session_after_invalidate_witness :
  faults (db (Samples.prune_world 0)) = []
  /\ fst (invalidate "t-ann" (Samples.prune_world 0)) = Ok true
  /\ fst (get_session Reference.env 1000 "t-ann"
            (snd (invalidate "t-ann" (Samples.prune_world 0)))) = Ok None.
Proof.
  split; [reflexivity |].
  apply (@get_session_after_invalidate Reference.env 1000 "t-ann"
           (Samples.prune_world 0)); [reflexivity | vm_compute; lia].
Defined.

(** ** Inversion of computations *)

Lemma bind_ok (A B : Type) (c : M A) (k : A -> M B) (w w' : World) (b : B) :
  bind c k w = (Ok b, w') ->
  exists a w1, c w = (Ok a, w1) /\ k a w1 = (Ok b, w').
Proof.
  unfold bind. destruct (c w) as [[a | e] w1]; intros H; [| discriminate].
  now exists a, w1.
Qed.

Lemma lift_ok (A : Type) (r : result A) (w w' : World) (a : A) :
  lift r w = (Ok a, w') -> r = Ok a /\ w' = w.
Proof. unfold lift. intros H. injection H as -> ->. now split. Qed.

Lemma bind_get_mgr (A : Type) (k : SessionManager -> M A) (w : World) :
  bind get_mgr k w = k (mgr w) w.
Proof. reflexivity. Qed.

Lemma bind_lift_ok (A B : Type) (r : result A) (a : A) (k : A -> M B) (w : World) :
  r = Ok a -> bind (lift r) k w = k a w.
Proof. intros ->. reflexivity. Qed.

Lemma bind_lift_raise (A B : Type) (r : result A) (e : exn) (k : A -> M B) (w : World) :
  r = Raise e -> bind (lift r) k w = (Raise e, w).
Proof. intros ->. reflexivity. Qed.

Lemma bind_modify_mgr (A : Type) (f : SessionManager -> SessionManager)
    (k : unit -> M A) (w : World) :
  bind (modify_mgr f) k w = k tt {| mgr := f (mgr w); db := db w |}.
Proof. reflexivity. Qed.

Lemma dict_index_get (k : string) (d : dict) (v : json) :
  dict_get k d = Some v -> dict_index k d = Ok v.
Proof. unfold dict_index. now intros ->. Qed.

Lemma snd_bind (A B : Type) (P : World -> Prop) (c : M A) (k : A -> M B) (w : World) :
  P (snd (c w)) -> (forall a, preserves P (k a)) -> P (snd (bind c k w)).
Proof.
  intros Hc Hk. unfold bind.
  destruct (c w) as [[a | e] w1]; simpl in *; [now apply Hk | exact Hc].
Qed.

Lemma create_local_session_token (env : Env) (now : Z) (tok user_name : string)
    (grps : list string) (root : bool) (accessed : option Z) (w w' : World)
    (s : Session) :
  create_local_session env now tok user_name grps root accessed w = (Ok s, w') ->
  token s = tok /\ user s = user_name /\ groups s = grps.
Proof.
  unfold create_local_session. intros H.
  apply bind_ok in H as (root' & w1 & _ & H).
  apply bind_ok in H as (m & w2 & _ & H).
  apply bind_ok in H as (lv & w3 & _ & H).
  apply bind_ok in H as (lifetime & w4 & _ & H).
  apply bind_ok in H as (refresh & w5 & _ & H).
  unfold ret in H. injection H as <- _. now repeat split.
Qed.

Lemma get_local_session_from_db_token (env : Env) (now : Z) (tok : string)
    (w w' : World) (s : Session) :
  get_local_session_from_db env now tok w = (Ok (Some s), w') -> token s = tok.
Proof.
  unfold get_local_session_from_db. intros H.
  apply bind_ok in H as (m & w1 & _ & H).
  destruct (negb (database_connection m)); [discriminate H |].
  unfold try_except in H.
  match type of H with
  | match ?body with _ => _ end = _ => destruct body as [[o | e] w2] eqn:Hbody
  end; [| discriminate H].
  injection H as -> ->.
  apply bind_ok in Hbody as ([] & w3 & _ & Hbody).
  apply bind_ok in Hbody as (d & w4 & _ & Hbody).
  destruct (find _ _) as [db_record |]; [| discriminate Hbody].
  apply bind_ok in Hbody as (root & w5 & _ & Hbody).
  apply bind_ok in Hbody as (s0 & w6 & Hs0 & Hbody).
  unfold ret in Hbody. injection Hbody as <- _.
  now apply create_local_session_token in Hs0.
Qed.

Lemma find_live_some (now : Z) (tok : string) (l : list Session) :
  forall before b s a,
    find_live now tok before l = Some (b, s, a) ->
    before ++ l = b ++ s :: a /\ token s = tok /\ is_alive now s = true.
Proof.
  induction l as [| x rest IH]; intros before b s a H; simpl in H; [discriminate |].
  destruct (is_alive now x && String.eqb (token x) tok) eqn:E.
  - injection H as <- <- <-. apply andb_true_iff in E as [Ha Ht].
    apply String.eqb_eq in Ht. now repeat split.
  - apply IH in H as (H & Ht & Ha). rewrite <- app_assoc in H. now repeat split.
Qed.

Lemma revalidate_alive (now : Z) (s : Session) (d : Database) :
  is_alive now s = true ->
  0 <= session_lifetime s ->
  is_alive now (fst (revalidate now s d)) = true.
Proof.
  intros Ha Hl.
  destruct (revalidate_cases now s d) as [-> | (_ & _ & _ & ->)]; [exact Ha |].
  unfold is_alive. simpl. apply Z.leb_le. lia.
Qed.

Lemma find_live_some_first (now : Z) (tok : string) (l : list Session) :
  forall acc b s a,
    find_live now tok acc l = Some (b, s, a) ->
    exists before,
      b = acc ++ before /\ l = before ++ s :: a
      /\ Forall (fun y => is_alive now y && String.eqb (token y) tok = false) before.
Proof.
  induction l as [| x rest IH]; intros acc b s a H; simpl in H; [discriminate |].
  destruct (is_alive now x && String.eqb (token x) tok) eqn:E.
  - injection H as <- <- <-. exists []. rewrite app_nil_r.
    split; [reflexivity | split; [reflexivity | constructor]].
  - apply IH in H as (before & -> & -> & Hall).
    exists (x :: before). rewrite <- app_assoc.
    split; [reflexivity | split; [reflexivity | now constructor]].
Qed.

Lemma find_live_none_all (now : Z) (tok : string) (l : list Session) :
  forall acc,
    find_live now tok acc l = None ->
    Forall (fun y => is_alive now y && String.eqb (token y) tok = false) l.
Proof.
  induction l as [| x rest IH]; intros acc H; simpl in H; [constructor |].
  destruct (is_alive now x && String.eqb (token x) tok) eqn:E; [discriminate |].
  constructor; [exact E | exact (IH _ H)].
Qed.

Lemma find_live_at (now : Z) (tok : string) (before after : list Session) (s : Session) :
  Forall (fun y => is_alive now y && String.eqb (token y) tok = false) before ->
  is_alive now s && String.eqb (token s) tok = true ->
  forall acc,
    find_live now tok acc (before ++ s :: after) = Some (acc ++ before, s, after).
Proof.
  intros Hall Hs. induction Hall as [| x rest Hx _ IH]; intros acc; simpl.
  - now rewrite Hs, app_nil_r.
  - rewrite Hx, IH, <- app_assoc. reflexivity.
Qed.

(** ** Splitting and joining *)

Lemma split_without_separator (sep : ascii) (a : string) :
  contains_char sep a = false -> forall n, split sep n a = [a].
Proof.
  induction a as [| c rest IH]; intros H n; simpl in *; [reflexivity |].
  apply orb_false_iff in H as [Hc Hrest].
  rewrite Ascii.eqb_sym, Hc. now rewrite IH.
Qed.

Lemma split_at_first_separator (sep : ascii) (a rest : string) (n : nat) :
  contains_char sep a = false ->
  split sep (S n) (a ++ String sep rest) = a :: split sep n rest.
Proof.
  induction a as [| c a' IH]; intros H; simpl in *.
  - now rewrite Ascii.eqb_refl.
  - apply orb_false_iff in H as [Hc Hrest].
    rewrite Ascii.eqb_sym, Hc. now rewrite IH.
Qed.

Lemma split_enough (sep : ascii) (s : string) :
  forall n m,
    (String.length s <= n)%nat -> (String.length s <= m)%nat ->
    split sep n s = split sep m s.
Proof.
  induction s as [| c rest IH]; intros n m Hn Hm; simpl in *; [reflexivity |].
  destruct (Ascii.eqb c sep).
  - destruct n as [| n]; [lia |]. destruct m as [| m]; [lia |].
    f_equal. apply IH; lia.
  - rewrite (IH n m); [reflexivity | lia | lia].
Qed.

Lemma length_append (a b : string) :
  String.length (a ++ b) = (String.length a + String.length b)%nat.
Proof. induction a as [| c a IH]; simpl; [reflexivity | now rewrite IH]. Qed.

(** Joining and splitting are inverse on lists of names: a non-empty list
    of strings none of which holds the separator is recovered by [split]
    from what [join] makes of it. *)
Lemma split_join (sep : ascii) (parts : list string) :
  parts <> [] ->
  Forall (fun p => contains_char sep p = false) parts ->
  split_all sep (join (String sep EmptyString) parts) = parts.
Proof.
  unfold split_all, join.
  induction parts as [| p rest IH]; intros Hne Hall; [congruence |].
  inversion Hall as [| ? ? Hp Hrest]; subst.
  destruct rest as [| q rest'].
  - simpl. now apply split_without_separator.
  - change (String.concat (String sep "") (p :: q :: rest'))
      with (p ++ String sep (String.concat (String sep "") (q :: rest')))%string.
    set (tail := String.concat (String sep "") (q :: rest')) in *.
    rewrite length_append. simpl String.length.
    replace (String.length p + S (String.length tail))%nat
      with (S (String.length p + String.length tail))%nat by lia.
    rewrite split_at_first_separator by exact Hp.
    f_equal.
    rewrite (@split_enough sep tail _ (String.length tail)); [| lia | lia].
    apply IH; [discriminate | exact Hrest].
Qed.

Lemma split_head (sep : ascii) (s : string) :
  forall n m, nth 0 (split sep (S n) s) EmptyString = nth 0 (split sep (S m) s) EmptyString.
Proof.
  induction s as [| c rest IH]; intros n m; simpl; [reflexivity |].
  destruct (Ascii.eqb c sep); [reflexivity |].
  assert (Hcons : forall k, exists hd tl, split sep k rest = hd :: tl).
  { intros k. destruct rest; simpl.
    - now eexists _, _.
    - destruct (Ascii.eqb a sep).
      + destruct k; now eexists _, _.
      + destruct (split sep k rest); now eexists _, _. }
  specialize (IH n m).
  destruct (Hcons (S n)) as (h1 & t1 & E1), (Hcons (S m)) as (h2 & t2 & E2).
  rewrite E1, E2 in *. simpl in *. now rewrite IH.
Qed.

(** X7.  [get_user_name] names, for every credential that is not empty,
    the user under whom the validators look the credential up: the text
    before the first colon.  For the empty credential both are the empty
    name. *)
Theorem get_user_name_is_validated_name (auth_string : string) :
  get_user_name auth_string = nth 0 (split colon 1 auth_string) EmptyString
  /\ get_user_name auth_string = first_part auth_string.
Proof.
  assert (H : get_user_name auth_string = nth 0 (split colon 1 auth_string) EmptyString).
  { unfold get_user_name, split_all.
    destruct auth_string as [| c rest]; [reflexivity |].
    simpl String.length. apply split_head. }
  split; [exact H |].
  rewrite H. unfold first_part.
  destruct (split colon 1 auth_string); reflexivity.
Qed.

(** ** What the operations keep *)

Lemma preserves_ret (A : Type) (P : World -> Prop) (a : A) : preserves P (ret a).
Proof. intros w H. exact H. Qed.

Lemma preserves_raise (A : Type) (P : World -> Prop) (e : exn) :
  preserves P (@raise A e).
Proof. intros w H. exact H. Qed.

Lemma preserves_lift (A : Type) (P : World -> Prop) (r : result A) :
  preserves P (lift r).
Proof. intros w H. exact H. Qed.

Lemma preserves_get_mgr (P : World -> Prop) : preserves P get_mgr.
Proof. intros w H. exact H. Qed.

Lemma preserves_get_db (P : World -> Prop) : preserves P get_db.
Proof. intros w H. exact H. Qed.

Lemma preserves_bind (A B : Type) (P : World -> Prop) (c : M A) (k : A -> M B) :
  preserves P c -> (forall a, preserves P (k a)) -> preserves P (bind c k).
Proof.
  intros Hc Hk w H. unfold bind. specialize (Hc w H).
  destruct (c w) as [[a | e] w1]; simpl in *; [now apply Hk | exact Hc].
Qed.

Lemma preserves_try_except (A : Type) (P : World -> Prop) (body : M A)
    (handler : exn -> M A) :
  preserves P body -> (forall e, preserves P (handler e)) ->
  preserves P (try_except body handler).
Proof.
  intros Hb Hh w H. unfold try_except. specialize (Hb w H).
  destruct (body w) as [[a | e] w1]; simpl in *; [exact Hb | now apply Hh].
Qed.

Ltac preserved_using leaf :=
  repeat first
    [ assumption
    | leaf
    | apply preserves_ret
    | apply preserves_raise
    | apply preserves_lift
    | apply preserves_get_mgr
    | apply preserves_get_db
    | apply preserves_bind; [| intros ]
    | apply preserves_try_except; [| intros ]
    | match goal with
      | |- preserves _ (if ?b then _ else _) => destruct b
      | |- preserves _ (match ?x with _ => _ end) => destruct x
      end ].

Ltac preserved := preserved_using fail.

Section ValidatorsPreserve.

Variable env : Env.
Variable P : World -> Prop.

Hypothesis transaction_kept : preserves P transaction.
Hypothesis token_groups_kept :
  forall f : PersonalAccessToken -> PersonalAccessToken,
    (forall p, pat_user_name (f p) = pat_user_name p /\ pat_token (f p) = pat_token p
               /\ pat_expiration (f p) = pat_expiration p) ->
    preserves P (modify_db (fun d =>
      set_personal_access_tokens (map f (personal_access_tokens d)) d)).
Hypothesis record_groups_kept :
  forall f : SessionRecord -> SessionRecord,
    (forall r, rec_id (f r) = rec_id r /\ rec_token (f r) = rec_token r
               /\ rec_user_name (f r) = rec_user_name r
               /\ rec_last_access (f r) = rec_last_access r) ->
    preserves P (modify_db (fun d =>
      set_session_records (map f (session_records d)) d)).

Lemma is_method_enabled_preserves (method : string) :
  preserves P (is_method_enabled env method).
Proof. unfold is_method_enabled. preserved. Qed.

Lemma try_auth_token_preserves (auth_string : string) :
  preserves P (try_auth_token auth_string).
Proof. unfold try_auth_token. preserved. Qed.

Lemma try_personal_access_token_preserves (now : Z) (auth_string : string) :
  preserves P (try_personal_access_token now auth_string).
Proof. unfold try_personal_access_token. preserved. Qed.

Lemma update_personal_access_token_groups_preserves (user_name : string)
    (grps : list string) :
  preserves P (update_personal_access_token_groups user_name grps).
Proof.
  unfold update_personal_access_token_groups. preserved.
  apply token_groups_kept.
  intros p. destruct (String.eqb (pat_user_name p) user_name); now repeat split.
Qed.

Lemma update_groups_preserves (user_name : string) (grps : list string) :
  preserves P (update_groups user_name grps).
Proof.
  unfold update_groups. preserved.
  apply record_groups_kept.
  intros r. destruct (String.eqb (rec_user_name r) user_name); now repeat split.
Qed.

Lemma try_auth_dictionary_preserves (auth_string : string) :
  preserves P (try_auth_dictionary env auth_string).
Proof.
  unfold try_auth_dictionary.
  preserved_using ltac:(first [ apply is_method_enabled_preserves
                              | apply update_personal_access_token_groups_preserves ]).
Qed.

Lemma try_auth_pam_preserves (auth_string : string) :
  preserves P (try_auth_pam env auth_string).
Proof.
  unfold try_auth_pam. preserved_using ltac:(apply is_method_enabled_preserves).
Qed.

Lemma try_ldap_authorities_preserves (authorities : list json) (username password : string) :
  preserves P (try_ldap_authorities env authorities username password).
Proof.
  induction authorities as [| a rest IH]; simpl;
    preserved_using ltac:(first [ apply update_personal_access_token_groups_preserves
                                | apply update_groups_preserves ]).
Qed.

Lemma try_auth_ldap_preserves (auth_string : string) :
  preserves P (try_auth_ldap env auth_string).
Proof.
  unfold try_auth_ldap.
  preserved_using ltac:(first [ apply is_method_enabled_preserves
                              | apply try_ldap_authorities_preserves ]).
Qed.

Lemma handle_validation_preserves (now : Z) (auth_string : string) :
  preserves P (handle_validation env now auth_string).
Proof.
  unfold handle_validation, py_or.
  preserved_using ltac:(first [ apply try_personal_access_token_preserves
                              | apply try_auth_dictionary_preserves
                              | apply try_auth_pam_preserves
                              | apply try_auth_ldap_preserves ]).
Qed.

Lemma is_root_user_preserves (user_name : string) :
  preserves P (is_root_user env user_name).
Proof. unfold is_root_user. preserved. Qed.

End ValidatorsPreserve.

Section SessionsPreserve.

Variable P : World -> Prop.

Hypothesis invalidate_kept : forall tok, preserves P (invalidate tok).
Hypothesis invalidate_local_kept : forall tok, preserves P (invalidate_local_session tok).
Hypothesis counter_kept :
  forall n w, P w -> P {| mgr := set_logins_since_prune n (mgr w); db := db w |}.

Lemma cleanup_refresh_pass_preserves (now : Z) (fuel : nat) :
  forall i, preserves P (cleanup_refresh_pass fuel now i).
Proof.
  induction fuel as [| fuel IH]; intros i; simpl;
    preserved_using ltac:(first [ apply invalidate_local_kept | apply IH ]).
Qed.

Lemma cleanup_lifetime_pass_preserves (now : Z) (fuel : nat) :
  forall i, preserves P (cleanup_lifetime_pass fuel now i).
Proof.
  induction fuel as [| fuel IH]; intros i; simpl;
    preserved_using ltac:(first [ apply invalidate_kept | apply IH ]).
Qed.

Lemma cleanup_sessions_preserves (now : Z) : preserves P (cleanup_sessions now).
Proof.
  unfold cleanup_sessions.
  apply preserves_bind; [intros w H; apply counter_kept; exact H | intros _].
  preserved_using ltac:(first [ apply cleanup_refresh_pass_preserves
                              | apply cleanup_lifetime_pass_preserves ]).
Qed.

End SessionsPreserve.

(** ** A store that answers *)

Section Reliable.

Variable env : Env.
Variable fresh : string.
Variable config : dict.
Variable refresh : json.
Variable perms : list SystemPermission.

Local Abbreviation R := (reliable_store fresh config refresh perms).

Lemma reliable_transaction : preserves R transaction.
Proof.
  intros w (Hc & Ha & Hr & Hf & Hp & Ht).
  unfold transaction, begin_transaction. rewrite Hf. simpl.
  now repeat split.
Qed.

Lemma reliable_answers (w : World) : R w -> answering_store config refresh perms w.
Proof. intros (Hc & Ha & Hr & Hf & Hp & Ht). now repeat split. Qed.

Lemma answering_transaction_ok (w : World) :
  answering_store config refresh perms w -> transaction w = (Ok tt, w).
Proof.
  intros (Hc & Ha & Hr & Hf & Hp).
  unfold transaction, begin_transaction. rewrite Hf. now destruct w.
Qed.

Lemma reliable_token_groups (f : PersonalAccessToken -> PersonalAccessToken) :
  preserves R (modify_db (fun d =>
    set_personal_access_tokens (map f (personal_access_tokens d)) d)).
Proof. intros w H. exact H. Qed.

Lemma reliable_record_groups (f : SessionRecord -> SessionRecord) :
  (forall r, rec_id (f r) = rec_id r /\ rec_token (f r) = rec_token r
             /\ rec_user_name (f r) = rec_user_name r
             /\ rec_last_access (f r) = rec_last_access r) ->
  preserves R (modify_db (fun d => set_session_records (map f (session_records d)) d)).
Proof.
  intros Hf w (Hc & Ha & Hr & Hfl & Hp & Ht).
  repeat split; try assumption. simpl.
  apply Forall_map. eapply Forall_impl; [| exact Ht].
  intros r Hr'. simpl. destruct (Hf r) as (_ & -> & _). exact Hr'.
Qed.

Lemma reliable_invalidate_local (tok : string) :
  preserves R (invalidate_local_session tok).
Proof.
  intros w H. destruct (invalidate_local_session_effect tok w) as (b & ->). exact H.
Qed.

Lemma reliable_invalidate (tok : string) : preserves R (invalidate tok).
Proof.
  intros w (Hc & Ha & Hr & Hf & Hp & Ht).
  rewrite invalidate_effect. cbv zeta. unfold begin_transaction. rewrite Hf, Hc.
  simpl. repeat split; try assumption. simpl.
  apply Forall_forall. intros r Hin. apply filter_In in Hin as [Hin _].
  rewrite Forall_forall in Ht. now apply Ht.
Qed.

Lemma reliable_counter (n : Z) (w : World) :
  R w -> R {| mgr := set_logins_since_prune n (mgr w); db := db w |}.
Proof. intros H. exact H. Qed.

Lemma is_root_user_answered (user_name : string) (w : World) :
  answering_store config refresh perms w ->
  is_root_user env user_name w = (Ok (root_status env config perms user_name), w).
Proof.
  intros H. pose proof (answering_transaction_ok H) as Htx.
  destruct H as (Hc & Ha & Hr & Hf & Hp).
  unfold is_root_user, root_status, bind, get_mgr, try_except, get_db, ret.
  rewrite Ha.
  destruct (match dict_get "super_user" config with
            | Some v => json_is_str v user_name
            | None => false
            end); [reflexivity |].
  rewrite Hc. cbn [negb]. rewrite Htx. cbn. now rewrite Hp.
Qed.

End Reliable.

Section RoundTrip.

Variable env : Env.
Variable fresh : string.
Variable config : dict.
Variable refresh : json.
Variable perms : list SystemPermission.

Local Abbreviation R := (reliable_store fresh config refresh perms).

Lemma create_local_session_answered (now : Z) (tok user_name : string)
    (grps : list string) (root : bool) (accessed : option Z) (w : World) :
  answering_store config refresh perms w ->
  create_local_session env now tok user_name grps root accessed w
  = (rbind (rbind (dict_index "session_lifetime" config) as_num) (fun lifetime =>
     rbind (if truthy refresh
            then rbind (as_num refresh) (fun r => Ok (Some r))
            else Ok None) (fun rf =>
     Ok (new_session now tok user_name grps lifetime rf
           (if root then true else root_status env config perms user_name)
           true accessed))),
     w).
Proof.
  intros H. pose proof (@is_root_user_answered env config refresh perms user_name w H)
    as Hroot.
  destruct H as (Hc & Ha & Hr & Hf & Hp).
  unfold create_local_session, bind, get_mgr, lift, ret.
  destruct root; cbn [negb]; [| rewrite Hroot]; rewrite Ha, Hr, Hc;
    (destruct (dict_index "session_lifetime" config) as [lv |]; [| reflexivity]);
    cbn [rbind];
    (destruct (as_num lv) as [lifetime |]; [| reflexivity]);
    cbn [rbind];
    (destruct (truthy refresh); [| reflexivity]);
    (destruct (as_num refresh); reflexivity).
Qed.

Lemma find_fresh_row (r : SessionRecord) (rs : list SessionRecord) :
  Forall (fun x => rec_token x <> fresh) rs ->
  rec_token r = fresh ->
  find (fun x => String.eqb (rec_token x) fresh) (rs ++ [r]) = Some r.
Proof.
  intros Hall Hr. induction Hall as [| x rest Hx _ IH]; simpl.
  - now rewrite Hr, String.eqb_refl.
  - destruct (String.eqb_spec (rec_token x) fresh); [contradiction | exact IH].
Qed.

Lemma groups_column_round_trip (grps : list string) :
  grps <> [EmptyString] ->
  Forall (fun g => contains_char semicolon g = false) grps ->
  (if is_empty_string (join ";" grps) then [] else split_all semicolon (join ";" grps))
  = grps.
Proof.
  intros Hne Hall.
  destruct grps as [| g rest]; [reflexivity |].
  assert (Hjoin : is_empty_string (join ";" (g :: rest)) = false).
  { unfold join. destruct rest as [| g' rest'].
    - simpl. destruct g; [congruence | reflexivity].
    - simpl. destruct g; reflexivity. }
  rewrite Hjoin. apply (@split_join semicolon (g :: rest)); [discriminate | exact Hall].
Qed.

Lemma try_auth_token_finds_a_row (auth_string tok : string) (w w' : World) :
  R w ->
  try_auth_token auth_string w = (Ok (PVal tok), w') ->
  tok <> fresh.
Proof.
  intros HR H.
  pose proof (@answering_transaction_ok config refresh perms w
                (@reliable_answers fresh config refresh perms w HR)) as Htx.
  destruct HR as (Hc & Ha & Hr & Hf & Hp & Ht).
  unfold try_auth_token in H.
  apply bind_ok in H as (m & w1 & Hm & H). unfold get_mgr in Hm. injection Hm as <- <-.
  rewrite Hc in H. cbn [negb] in H.
  apply bind_ok in H as ([user_name t] & w2 & Hu & H). apply lift_ok in Hu as (_ & ->).
  unfold try_except, bind, get_db, ret in H. rewrite Htx in H.
  destruct (find _ (session_records (db w))) as [r |] eqn:Hfind; [| discriminate H].
  injection H as <- _. apply find_some in Hfind as (Hin & _).
  rewrite Forall_forall in Ht. now apply Ht.
Qed.

Lemma reliable_step (A : Type) (c : M A) (w w' : World) (r : result A) :
  preserves R c -> R w -> c w = (r, w') -> R w'.
Proof. intros Hc HR H. specialize (Hc w HR). now rewrite H in Hc. Qed.

Lemma create_session_issues (now : Z) (auth_string : string) (w w' : World)
    (s : Session) :
  R w ->
  create_session env now fresh auth_string w = (Ok (PVal s), w') ->
  token s = fresh ->
  truthy_opt (dict_get "enabled" config) = true
  /\ exists w2 v, R w2 /\ issue env now fresh v w2 = (Ok (PVal s), w').
Proof.
  intros HR H Htok.
  assert (Hcfg : auth_config (mgr w) = config) by (destruct HR as (_ & Ha & _); exact Ha).
  unfold create_session in H.
  apply bind_ok in H as (m & w1 & Hm & H). unfold get_mgr in Hm. injection Hm as <- <-.
  apply bind_ok in H as (enabled & w1 & He & H). apply lift_ok in He as (He & ->).
  rewrite Hcfg in He. unfold dict_index in He.
  destruct (dict_get "enabled" config) as [e |] eqn:Hen; [| discriminate He].
  injection He as ->.
  destruct (truthy enabled) eqn:Htruthy; [| discriminate H]. cbn [negb] in H.
  split; [exact Htruthy |].
  apply bind_ok in H as ([] & w2 & Hcount & H).
  assert (HR2 : R w2).
  { unfold modify_mgr in Hcount. injection Hcount as <-. exact HR. }
  apply bind_ok in H as (m2 & w3 & Hm & H). unfold get_mgr in Hm. injection Hm as <- <-.
  apply bind_ok in H as (lv & w3 & Hl & H). apply lift_ok in Hl as (_ & ->).
  apply bind_ok in H as (limit & w3 & Hl & H). apply lift_ok in Hl as (_ & ->).
  apply bind_ok in H as ([] & w3 & Hclean & H).
  assert (HR3 : R w3).
  { destruct (logins_since_prune (mgr w2) >=? limit).
    - eapply reliable_step; [| exact HR2 | exact Hclean].
      apply cleanup_sessions_preserves.
      + apply reliable_invalidate.
      + apply reliable_invalidate_local.
      + intros n w0 H0. exact H0.
    - unfold ret in Hclean. injection Hclean as <-. exact HR2. }
  apply bind_ok in H as (auth_token & w4 & Htoken & H).
  assert (HR4 : R w4).
  { eapply reliable_step; [| exact HR3 | exact Htoken].
    apply try_auth_token_preserves. apply reliable_transaction. }
  assert (Hvalidated : forall v w5,
            R w5 -> issue env now fresh v w5 = (Ok (PVal s), w') ->
            exists w2 v, R w2 /\ issue env now fresh v w2 = (Ok (PVal s), w'))
    by (intros v w5 H5 Hi; now exists w5, v).
  assert (Hrest : bind (handle_validation env now auth_string)
                    (fun validation =>
                       match validation with
                       | PVal v => issue env now fresh v
                       | _ => ret PFalse
                       end) w4 = (Ok (PVal s), w') ->
                  exists w2 v, R w2 /\ issue env now fresh v w2 = (Ok (PVal s), w')).
  { intros Hh. apply bind_ok in Hh as (validation & w5 & Hv & Hh).
    assert (HR5 : R w5).
    { eapply reliable_step; [| exact HR4 | exact Hv].
      apply handle_validation_preserves.
      - apply reliable_transaction.
      - intros f _. apply reliable_token_groups.
      - intros f Hf. now apply reliable_record_groups. }
    destruct validation as [| | v]; try discriminate Hh.
    now exists w5, v. }
  destruct auth_token as [| | tok]; [exact (Hrest H) | exact (Hrest H) |].
  exfalso.
  apply (@try_auth_token_finds_a_row auth_string tok w3 w4 HR3) in Htoken.
  apply bind_ok in H as (local_session & w5 & Hdb & H).
  destruct local_session as [s0 |]; [| discriminate H].
  apply get_local_session_from_db_token in Hdb.
  apply bind_ok in H as (s1 & w6 & Hrev & H).
  unfold revalidate_session in Hrev.
  pose proof (revalidate_keeps_the_session now s0 (db w5)) as (Hid & _).
  destruct (revalidate now s0 (db w5)) as [s2 d2]. injection Hrev as <- <-.
  apply bind_ok in H as ([] & w7 & _ & H). unfold ret in H. injection H as <- _.
  unfold session_identity in Hid. simpl in Hid. congruence.
Qed.

Lemma issue_reliable (now : Z) (v : Validation) (w w' : World) (s : Session) :
  R w ->
  issue env now fresh v w = (Ok (PVal s), w') ->
  let grps := match v_groups v with Some g => g | None => [] end in
  (exists lifetime rf,
     rbind (dict_index "session_lifetime" config) as_num = Ok lifetime
     /\ (if truthy refresh then rbind (as_num refresh) (fun r => Ok (Some r))
         else Ok None) = Ok rf
     /\ s = new_session now fresh (v_username v) grps lifetime rf
              (root_status env config perms (v_username v)) true None)
  /\ db w' = add_session_record now fresh (v_username v) (join ";" grps) (db w).
Proof.
  intros HR H grps.
  unfold issue in H. fold grps in H.
  apply bind_ok in H as (s0 & w1 & Hs0 & H).
  rewrite (@create_local_session_answered now fresh (v_username v) grps false None w
             (@reliable_answers fresh config refresh perms w HR)) in Hs0.
  injection Hs0 as Hs0 <-.
  destruct (rbind (dict_index "session_lifetime" config) as_num) as [lifetime |];
    [| discriminate Hs0].
  cbn [rbind] in Hs0.
  destruct (if truthy refresh then _ else _) as [rf |]; [| discriminate Hs0].
  cbn [rbind] in Hs0. injection Hs0 as <-.
  apply bind_ok in H as ([] & w2 & Happ & H).
  unfold append_session, modify_mgr in Happ. injection Happ as <-.
  apply bind_ok in H as (m & w3 & Hm & H). unfold get_mgr in Hm. injection Hm as <- <-.
  destruct HR as (Hc & Ha & Hr & Hf & Hp & Ht).
  cbn [mgr] in H.
  change (database_connection (set_sessions _ (mgr w))) with (database_connection (mgr w))
    in H.
  rewrite Hc in H.
  unfold bind, try_except, transaction, begin_transaction, modify_db, ret in H.
  cbn [db mgr] in H. rewrite Hf in H. cbn in H. injection H as <- <-.
  split; [| reflexivity]. now exists lifetime, rf.
Qed.

Lemma get_local_session_answered (now : Z) (tok : string) (w : World)
    (row : SessionRecord) :
  answering_store config refresh perms w ->
  find (fun r => String.eqb (rec_token r) tok) (session_records (db w)) = Some row ->
  get_local_session_from_db env now tok w
  = (match
       rbind (rbind (dict_index "session_lifetime" config) as_num) (fun lifetime =>
       rbind (if truthy refresh
              then rbind (as_num refresh) (fun r => Ok (Some r))
              else Ok None) (fun rf =>
       Ok (new_session now tok (rec_user_name row)
             match rec_groups row with
             | Some g => if is_empty_string g then [] else split_all semicolon g
             | None => []
             end
             lifetime rf
             (root_status env config perms (rec_user_name row))
             true (Some (rec_last_access row)))))
     with
     | Ok s => Ok (Some s)
     | Raise _ => Ok None
     end, w).
Proof.
  intros HA Hfind.
  pose proof (@answering_transaction_ok config refresh perms w HA) as Htx.
  pose proof (fun u => @is_root_user_answered env config refresh perms u w HA) as Hroot.
  pose proof (fun g root =>
                @create_local_session_answered now tok (rec_user_name row) g root
                  (Some (rec_last_access row)) w HA) as Hcreate.
  unfold get_local_session_from_db, bind, get_mgr, try_except, get_db, ret.
  destruct HA as (Hc & _). rewrite Hc. cbn [negb]. rewrite Htx. cbn [db].
  rewrite Hfind, Hroot, Hcreate.
  destruct (root_status env config perms (rec_user_name row));
    destruct (rbind (dict_index "session_lifetime" config) as_num) as [lifetime |];
    cbn [rbind]; try reflexivity;
    destruct (if truthy refresh then _ else _) as [rf |]; reflexivity.
Qed.

(** X8.  A session issued on one worker is found again on another.  The
    first worker is connected to a store that answers and holds no row with
    the new token; [create_session] issues a session with that token.  A
    second worker with the same configuration, connected to the same store
    and holding no session with the token, is asked for the token within the
    lifetime of the session: [get_session] returns a session with the same
    token, user, groups and root status.  The groups are recovered from the
    column of the row provided no name holds a semicolon and the list is not
    the single empty name. *)
Theorem session_round_trip_across_workers (now now' : Z) (auth_string : string)
    (w w' : World) (s : Session) (other : SessionManager) :
  reliable_store fresh config refresh perms w ->
  create_session env now fresh auth_string w = (Ok (PVal s), w') ->
  token s = fresh ->
  database_connection other = true ->
  auth_config other = config ->
  configured_refresh_time other = refresh ->
  count_token fresh (sessions other) = 0%nat ->
  groups s <> [EmptyString] ->
  Forall (fun g => contains_char semicolon g = false) (groups s) ->
  now' - now <= session_lifetime s ->
  exists s' w'',
    get_session env now' fresh {| mgr := other; db := db w' |} = (Ok (Some s'), w'')
    /\ token s' = token s
    /\ user s' = user s
    /\ groups s' = groups s
    /\ is_root s' = is_root s.
Proof.
  intros HR Hcreate Htok Hconn Hcfg Hrefresh Hcount Hne Hsemi Htime.
  destruct (@create_session_issues now auth_string w w' s HR Hcreate Htok)
    as (Henabled & w2 & v & HR2 & Hissue).
  destruct (@issue_reliable now v w2 w' s HR2 Hissue)
    as ((lifetime & rf & Hlifetime & Hrf & Hs) & Hdb).
  destruct HR2 as (_ & _ & _ & Hf2 & Hp2 & Ht2).
  set (grps := match v_groups v with Some g => g | None => [] end) in *.
  set (wB := {| mgr := other; db := db w' |}).
  assert (HA : answering_store config refresh perms wB).
  { unfold wB. rewrite Hdb. now repeat split. }
  set (row := {| rec_id := next_session_id (db w2); rec_token := fresh;
                 rec_user_name := v_username v; rec_groups := Some (join ";" grps);
                 rec_last_access := now |}).
  assert (Hfind : find (fun r => String.eqb (rec_token r) fresh)
                       (session_records (db wB)) = Some row).
  { unfold wB. rewrite Hdb. cbn [db session_records add_session_record].
    now apply find_fresh_row. }
  pose proof (@get_local_session_answered now' fresh wB row HA Hfind) as Hlocal.
  rewrite Hlifetime, Hrf in Hlocal. cbn [rbind rec_user_name rec_groups rec_last_access row]
    in Hlocal.
  assert (Hgroups : groups s = grps) by (rewrite Hs; reflexivity).
  rewrite Hgroups in Hne, Hsemi.
  rewrite (groups_column_round_trip Hne Hsemi) in Hlocal.
  set (sB := new_session now' fresh (v_username v) grps lifetime rf
               (root_status env config perms (v_username v)) true (Some now)) in *.
  assert (Halive : is_alive now' sB = true).
  { unfold is_alive, sB. simpl. apply Z.leb_le. rewrite Hs in Htime. exact Htime. }
  assert (Hsame : session_identity sB = session_identity s) by (rewrite Hs; reflexivity).
  unfold get_session, bind, get_mgr, ret.
  replace (is_enabled (mgr wB)) with true
    by (unfold is_enabled, wB; cbn [mgr]; now rewrite Hcfg).
  cbn [negb]. cbn [mgr wB].
  rewrite (@find_live_none now' fresh (sessions other) [] Hcount).
  fold wB. rewrite Hlocal, Halive.
  destruct (is_refresh_time_expire now' sB).
  - unfold revalidate_session.
    pose proof (revalidate_keeps_the_session now' sB (db wB)) as (Hid & _).
    destruct (revalidate now' sB (db wB)) as [s1 d1].
    unfold append_session, modify_mgr. cbn [fst] in Hid.
    eexists _, _. split; [reflexivity |].
    unfold session_identity in *.
    repeat split; congruence.
  - unfold append_session, modify_mgr.
    eexists _, _. split; [reflexivity |].
    unfold session_identity in *.
    repeat split; congruence.
Qed.

End RoundTrip.

Lemma session_round_trip_across_workers_witness :
  create_session Reference.env 1000 "f00d" "alice:secret" Cases.store_world
  = (Ok (PVal Cases.alice_session),
     snd (create_session Reference.env 1000 "f00d" "alice:secret" Cases.store_world))
  /\ exists s' w'',
       get_session Reference.env 1100 "f00d"
         {| mgr := mgr Cases.store_world;
            db := db (snd (create_session Reference.env 1000 "f00d" "alice:secret"
                             Cases.store_world)) |}
       = (Ok (Some s'), w'')
       /\ token s' = token Cases.alice_session
       /\ user s' = user Cases.alice_session
       /\ groups s' = groups Cases.alice_session
       /\ is_root s' = is_root Cases.alice_session.
Proof.
  split; [vm_compute; reflexivity |].
  apply (@session_round_trip_across_workers Reference.env "f00d"
           (auth_config (mgr Cases.store_world)) (JNum 60) []
           1000 1100 "alice:secret" Cases.store_world
           (snd (create_session Reference.env 1000 "f00d" "alice:secret"
                   Cases.store_world))
           Cases.alice_session (mgr Cases.store_world)).
  - unfold reliable_store.
    split; [reflexivity |]. split; [reflexivity |]. split; [reflexivity |].
    split; [reflexivity |]. split; [reflexivity | constructor].
  - vm_compute. reflexivity.
  - reflexivity.
  - reflexivity.
  - reflexivity.
  - reflexivity.
  - reflexivity.
  - discriminate.
  - constructor.
  - vm_compute. discriminate.
Defined.

(** ** What a look-up of credentials leaves alone *)

Lemma same_tables_refl (w : World) : same_tables w w.
Proof. now split. Qed.

Lemma same_tables_trans (w1 w2 w3 : World) :
  same_tables w1 w2 -> same_tables w2 w3 -> same_tables w1 w3.
Proof. intros [H1 H2] [H3 H4]. split; congruence. Qed.

Lemma same_tables_transaction (w0 : World) :
  preserves (same_tables w0) transaction.
Proof.
  intros w [Ht Hm]. unfold transaction, begin_transaction, same_tables, tables in *.
  destruct (faults (db w)) as [| [] fs]; simpl; split; assumption.
Qed.

Lemma worker_kept_by_store_update (m0 : SessionManager) (f : Database -> Database) :
  preserves (fun w => mgr w = m0) (modify_db f).
Proof. intros w H. exact H. Qed.

Lemma worker_kept_by_transaction (m0 : SessionManager) :
  preserves (fun w => mgr w = m0) transaction.
Proof.
  intros w H. unfold transaction. destruct (begin_transaction (db w)). exact H.
Qed.

(** X9.  Checking a credential never changes the worker: whatever the
    validators answer or raise, the sessions, the configuration and the
    count of logins of the manager are what they were. *)
Theorem validators_leave_the_worker_alone (env : Env) (now : Z) (auth_string : string)
    (w : World) :
  mgr (snd (try_auth_token auth_string w)) = mgr w
  /\ mgr (snd (handle_validation env now auth_string w)) = mgr w.
Proof.
  split.
  - eapply (@try_auth_token_preserves (fun w' => mgr w' = mgr w));
      [apply worker_kept_by_transaction | reflexivity].
  - eapply (@handle_validation_preserves env (fun w' => mgr w' = mgr w));
      [ apply worker_kept_by_transaction
      | intros; apply worker_kept_by_store_update
      | intros; apply worker_kept_by_store_update
      | reflexivity ].
Qed.

Lemma quiet_frame (c : M (pyval Validation)) :
  (forall w0, preserves (same_tables w0) c) -> quiet_or_accepting c.
Proof. intros H w. left. apply (H w w). apply same_tables_refl. Qed.

Lemma quiet_bind (A : Type) (c : M A) (k : A -> M (pyval Validation)) :
  (forall w0, preserves (same_tables w0) c) ->
  (forall a, quiet_or_accepting (k a)) ->
  quiet_or_accepting (bind c k).
Proof.
  intros Hc Hk w. unfold bind.
  pose proof (Hc w w (same_tables_refl w)) as H1.
  destruct (c w) as [[a | e] w1]; simpl in *; [| now left].
  destruct (Hk a w1) as [H2 | H2]; [left | now right].
  eapply same_tables_trans; eassumption.
Qed.

Lemma quiet_py_or (a b : M (pyval Validation)) :
  quiet_or_accepting a -> quiet_or_accepting b -> quiet_or_accepting (py_or a b).
Proof.
  intros Ha Hb w. unfold py_or, bind, ret.
  specialize (Ha w).
  destruct (a w) as [[[| | v] | e] w1]; simpl in *.
  - destruct Ha as [Ha | (v & g & Hv & _)]; [| discriminate Hv].
    destruct (Hb w1) as [H2 | H2]; [left | now right].
    eapply same_tables_trans; eassumption.
  - destruct Ha as [Ha | (v & g & Hv & _)]; [| discriminate Hv].
    destruct (Hb w1) as [H2 | H2]; [left | now right].
    eapply same_tables_trans; eassumption.
  - exact Ha.
  - exact Ha.
Qed.

Lemma update_personal_access_token_groups_returns (user_name : string)
    (grps : list string) (w : World) :
  fst (update_personal_access_token_groups user_name grps w) = Ok tt.
Proof.
  unfold update_personal_access_token_groups, bind, get_mgr, try_except, ret.
  destruct (negb (database_connection (mgr w))); [reflexivity |].
  destruct (transaction w) as [[[] | e] w1]; reflexivity.
Qed.

Lemma update_groups_returns (user_name : string) (grps : list string) (w : World) :
  fst (update_groups user_name grps w) = Ok tt.
Proof.
  unfold update_groups, bind, get_mgr, try_except, ret.
  destruct (negb (database_connection (mgr w))); [reflexivity |].
  destruct (transaction w) as [[[] | e] w1]; reflexivity.
Qed.

Section Quiet.

Variable env : Env.

Ltac framed :=
  intros ?w0;
  preserved_using
    ltac:(first [ apply same_tables_transaction
                | apply is_method_enabled_preserves ]).

Lemma try_personal_access_token_quiet (now : Z) (auth_string : string) :
  quiet_or_accepting (try_personal_access_token now auth_string).
Proof.
  apply quiet_frame. intros w0.
  apply try_personal_access_token_preserves. apply same_tables_transaction.
Qed.

Lemma try_auth_pam_quiet (auth_string : string) :
  quiet_or_accepting (try_auth_pam env auth_string).
Proof.
  apply quiet_frame. intros w0. apply try_auth_pam_preserves.
Qed.

Lemma accepting_after_update (user_name : string) (grps g : list string) (v : Validation) :
  v_groups v = Some g ->
  quiet_or_accepting (update_personal_access_token_groups user_name grps ;; ret (PVal v)).
Proof.
  intros Hg w. right. exists v, g. split; [| exact Hg].
  unfold bind, ret.
  pose proof (update_personal_access_token_groups_returns user_name grps w) as H.
  destruct (update_personal_access_token_groups user_name grps w) as [[[] | e] w1];
    [reflexivity | discriminate H].
Qed.

Lemma try_auth_dictionary_quiet (auth_string : string) :
  quiet_or_accepting (try_auth_dictionary env auth_string).
Proof.
  unfold try_auth_dictionary.
  repeat first
    [ eapply accepting_after_update; reflexivity
    | apply quiet_bind; [solve [framed] | intros ]
    | apply quiet_frame; solve [framed]
    | match goal with
      | |- quiet_or_accepting (if ?b then _ else _) => destruct b
      | |- quiet_or_accepting (match ?x with _ => _ end) => destruct x
      end ].
Qed.

Lemma try_ldap_authorities_quiet (authorities : list json) (username password : string) :
  quiet_or_accepting (try_ldap_authorities env authorities username password).
Proof.
  induction authorities as [| a rest IH]; simpl.
  - apply quiet_frame. framed.
  - destruct (ldap_auth_user env a username password); [| exact IH].
    intros w. right. eexists _, _. split.
    + unfold bind, ret.
      pose proof (update_groups_returns username
                    (ldap_get_groups env a username password) w) as H1.
      destruct (update_groups _ _ w) as [[[] | e] w1]; [| discriminate H1].
      pose proof (update_personal_access_token_groups_returns username
                    (ldap_get_groups env a username password) w1) as H2.
      destruct (update_personal_access_token_groups _ _ w1) as [[[] | e] w2];
        [reflexivity | discriminate H2].
    + reflexivity.
Qed.

Lemma try_auth_ldap_quiet (auth_string : string) :
  quiet_or_accepting (try_auth_ldap env auth_string).
Proof.
  unfold try_auth_ldap.
  repeat first
    [ apply try_ldap_authorities_quiet
    | apply quiet_bind; [solve [framed] | intros ]
    | apply quiet_frame; solve [framed]
    | match goal with
      | |- quiet_or_accepting (if ?b then _ else _) => destruct b
      | |- quiet_or_accepting (match ?x with _ => _ end) => destruct x
      end ].
Qed.

(** X10.  A credential that is not accepted leaves no trace: unless
    [__handle_validation] hands back a validation object, the tables of the
    store and the manager are what they were before the call. *)
Theorem rejected_credential_leaves_no_trace (now : Z) (auth_string : string) (w : World) :
  (exists v, fst (handle_validation env now auth_string w) = Ok (PVal v))
  \/ (tables (db (snd (handle_validation env now auth_string w))) = tables (db w)
      /\ mgr (snd (handle_validation env now auth_string w)) = mgr w).
Proof.
  assert (Hchain : quiet_or_accepting
            (py_or (try_personal_access_token now auth_string)
               (py_or (try_auth_dictionary env auth_string)
                  (py_or (try_auth_pam env auth_string)
                         (try_auth_ldap env auth_string))))).
  { repeat apply quiet_py_or.
    - apply try_personal_access_token_quiet.
    - apply try_auth_dictionary_quiet.
    - apply try_auth_pam_quiet.
    - apply try_auth_ldap_quiet. }
  unfold handle_validation, bind. specialize (Hchain w).
  destruct (py_or _ _ w) as [[[| | v] | e] w1]; simpl in *.
  - destruct Hchain as [H | (v & g & Hv & _)]; [right; exact H | discriminate Hv].
  - destruct Hchain as [H | (v & g & Hv & _)]; [right; exact H | discriminate Hv].
  - unfold get_mgr, ret, raise.
    destruct (try_regex_groups env (mgr w1) (v_username v)) as [| x extra];
      [left; now eexists |].
    destruct (v_groups v) as [g0 |] eqn:Hg; [left; now eexists |].
    destruct Hchain as [H | (v' & g & Hv & Hg')]; [right; exact H |].
    injection Hv as <-. congruence.
  - destruct Hchain as [H | (v & g & Hv & _)]; [right; exact H | discriminate Hv].
Qed.

End Quiet.

(** ** Pruning only removes *)

Lemma remove_first_incl (tok : string) (l : list Session) :
  incl (remove_first_with_token tok l) l.
Proof.
  induction l as [| s rest IH]; simpl; [apply incl_refl |].
  destruct (String.eqb (token s) tok).
  - apply incl_tl, incl_refl.
  - intros x [<- | Hx]; [now left | right; now apply IH].
Qed.

Lemma remove_first_other (tok : string) (s : Session) (l : list Session) :
  token s <> tok -> In s l -> In s (remove_first_with_token tok l).
Proof.
  intros Hne. induction l as [| t rest IH]; simpl; [tauto |].
  intros [-> | Hin].
  - destruct (String.eqb_spec (token s) tok); [contradiction | now left].
  - destruct (String.eqb (token t) tok); [exact Hin | right; now apply IH].
Qed.

Lemma remove_first_unique (tok : string) (l : list Session) :
  NoDup (map token l) -> NoDup (map token (remove_first_with_token tok l)).
Proof.
  induction l as [| t rest IH]; simpl; intros H; [exact H |].
  inversion H as [| x xs Hnot Hrest]; subst.
  destruct (String.eqb (token t) tok); [exact Hrest |].
  simpl. constructor; [| now apply IH].
  intros Hin. apply Hnot.
  apply in_map_iff in Hin as (y & Hy & Hin).
  apply in_map_iff. exists y. split; [exact Hy |].
  now apply (@remove_first_incl tok rest).
Qed.

Lemma unique_token (s t : Session) (l : list Session) :
  NoDup (map token l) -> In s l -> In t l -> token s = token t -> s = t.
Proof.
  induction l as [| x rest IH]; simpl; intros H Hs Ht Heq; [destruct Hs |].
  inversion H as [| y ys Hnot Hrest]; subst.
  destruct Hs as [-> | Hs], Ht as [-> | Ht].
  - reflexivity.
  - exfalso. apply Hnot. rewrite Heq. now apply in_map.
  - exfalso. apply Hnot. rewrite <- Heq. now apply in_map.
  - now apply IH.
Qed.

Section Pruning.

Variable now : Z.

Lemma within_invalidate_local (l0 : list Session) (r0 : list SessionRecord)
    (m0 : SessionManager) (d0 : Database) (tok : string) :
  preserves (within l0 r0 m0 d0) (invalidate_local_session tok).
Proof.
  intros w (Hs & Hrest).
  destruct (invalidate_local_session_effect tok w) as (b & ->).
  split; [| exact Hrest].
  simpl. eapply incl_tran; [apply remove_first_incl | exact Hs].
Qed.

Lemma within_invalidate (l0 : list Session) (r0 : list SessionRecord)
    (m0 : SessionManager) (d0 : Database) (tok : string) :
  preserves (within l0 r0 m0 d0) (invalidate tok).
Proof.
  intros w (Hs & Hr & Ht & Ha & Hf & Hc & Hp & Hy).
  assert (Hs' : incl (remove_first_with_token tok (sessions (mgr w))) l0)
    by (eapply incl_tran; [apply remove_first_incl | exact Hs]).
  assert (Hr' : incl (filter (fun r => negb (String.eqb (rec_token r) tok))
                             (session_records (db w))) r0)
    by (eapply incl_tran; [apply incl_filter | exact Hr]).
  assert (Ht' : forall f, incl (filter f (oauth_tokens (db w))) (oauth_tokens d0))
    by (intros f; eapply incl_tran; [apply incl_filter | exact Ht]).
  rewrite invalidate_effect. cbv zeta. unfold within.
  destruct (database_connection (mgr w)) eqn:Hconn.
  - unfold begin_transaction.
    destruct (faults (db w)) as [| [] fs]; cbn;
      (split; [exact Hs' |]); (split; [first [exact Hr' | exact Hr] |]);
      (split; [first [apply Ht' | exact Ht] |]);
      rewrite ?Hconn; repeat split; assumption.
  - cbn. split; [exact Hs' |]. split; [exact Hr |]. split; [exact Ht |].
    rewrite ?Hconn. repeat split; assumption.
Qed.

Lemma delete_session_rows_attached (tok : string) (d : Database) :
  attached d -> attached (delete_session_rows tok d).
Proof.
  unfold attached, delete_session_rows. cbn [session_records oauth_tokens].
  intros H. apply Forall_forall. intros t Hin.
  apply filter_In in Hin as [Hin Hkept].
  rewrite Forall_forall in H. specialize (H t Hin).
  apply existsb_exists in H as (r & Hr & Hid).
  apply existsb_exists. exists r. split; [| exact Hid].
  apply filter_In. split; [exact Hr |].
  destruct (String.eqb (rec_token r) tok) eqn:Htok; [| reflexivity].
  exfalso. apply negb_true_iff in Hkept.
  assert (Hdel : existsb (Z.eqb (auth_session_id t))
                   (map rec_id (filter (fun r0 => String.eqb (rec_token r0) tok)
                                       (session_records d))) = true).
  { apply existsb_exists. exists (rec_id r). split.
    - apply in_map. apply filter_In. now split.
    - now rewrite Z.eqb_sym. }
  congruence.
Qed.

Lemma attached_invalidate_local (tok : string) :
  preserves (fun w => attached (db w)) (invalidate_local_session tok).
Proof.
  intros w H. destruct (invalidate_local_session_effect tok w) as (b & ->). exact H.
Qed.

Lemma attached_invalidate (tok : string) :
  preserves (fun w => attached (db w)) (invalidate tok).
Proof.
  intros w H. rewrite invalidate_effect. cbv zeta.
  destruct (database_connection (mgr w)); [| exact H].
  unfold begin_transaction.
  destruct (faults (db w)) as [| [] fs]; cbn [snd db];
    first [ exact H | apply delete_session_rows_attached; exact H ].
Qed.

Lemma counter_invalidate_local (n : Z) (tok : string) :
  preserves (fun w => logins_since_prune (mgr w) = n) (invalidate_local_session tok).
Proof.
  intros w H. destruct (invalidate_local_session_effect tok w) as (b & ->). exact H.
Qed.

Lemma counter_invalidate (n : Z) (tok : string) :
  preserves (fun w => logins_since_prune (mgr w) = n) (invalidate tok).
Proof.
  intros w H. rewrite invalidate_effect. cbv zeta.
  destruct (database_connection (mgr w)); [| exact H].
  destruct (begin_transaction (db w)) as [[u | e] d]; exact H.
Qed.

Lemma cleanup_refresh_pass_returns (fuel : nat) :
  forall i w, fst (cleanup_refresh_pass fuel now i w) = Ok tt.
Proof.
  induction fuel as [| fuel IH]; intros i w; [reflexivity |].
  rewrite cleanup_refresh_pass_step.
  destruct (nth_error (sessions (mgr w)) i) as [s |]; [| reflexivity].
  destruct (is_refresh_time_expire now s); [| apply IH].
  destruct (invalidate_local_session_effect (token s) w) as (b & ->). apply IH.
Qed.

Lemma cleanup_lifetime_pass_returns (fuel : nat) :
  forall i w, fst (cleanup_lifetime_pass fuel now i w) = Ok tt.
Proof.
  induction fuel as [| fuel IH]; intros i w; [reflexivity |].
  rewrite cleanup_lifetime_pass_step.
  destruct (nth_error (sessions (mgr w)) i) as [s |]; [| reflexivity].
  destruct (negb (is_alive now s)); [| apply IH].
  pose proof (invalidate_never_raises (token s) w) as Hb.
  destruct (invalidate (token s) w) as [[b' | e] w']; [apply IH | discriminate Hb].
Qed.

Lemma cleanup_sessions_returns (w : World) : fst (cleanup_sessions now w) = Ok tt.
Proof.
  unfold cleanup_sessions, bind, modify_mgr, get_mgr. cbv beta iota.
  match goal with
  | |- context [cleanup_refresh_pass ?f now 0 ?w0] =>
      pose proof (cleanup_refresh_pass_returns f 0 w0) as H;
      destruct (cleanup_refresh_pass f now 0 w0) as [[[] | e] w1];
      [| discriminate H]
  end.
  apply cleanup_lifetime_pass_returns.
Qed.

Lemma cleanup_sessions_resets_the_count (w : World) :
  logins_since_prune (mgr (snd (cleanup_sessions now w))) = 0.
Proof.
  unfold cleanup_sessions.
  assert (H : preserves (fun w => logins_since_prune (mgr w) = 0)
                (m <- get_mgr ;;
                 cleanup_refresh_pass (List.length (sessions m)) now 0 ;;
                 m <- get_mgr ;;
                 cleanup_lifetime_pass (List.length (sessions m)) now 0)).
  { preserved_using
      ltac:(first [ eapply cleanup_refresh_pass_preserves; intros;
                    apply counter_invalidate_local
                  | eapply cleanup_lifetime_pass_preserves; intros;
                    apply counter_invalidate ]). }
  rewrite bind_modify_mgr. apply H. reflexivity.
Qed.

(** X11.  Pruning only removes.  [__cleanup_sessions] never raises; it
    sets the count of logins to zero; every session, every row of the table
    of sessions and every OAuth token left after it was there before it; the
    configuration of the worker, the personal access tokens and the
    permissions are what they were.  An OAuth token goes with its row: when
    every token of the store had its row before the pruning, so it has after
    it. *)
Theorem pruning_only_removes (w : World) :
  fst (cleanup_sessions now w) = Ok tt
  /\ logins_since_prune (mgr (snd (cleanup_sessions now w))) = 0
  /\ within (sessions (mgr w)) (session_records (db w)) (mgr w) (db w)
            (snd (cleanup_sessions now w))
  /\ (attached (db w) -> attached (db (snd (cleanup_sessions now w)))).
Proof.
  split; [apply cleanup_sessions_returns |]. split; [| split].
  - apply cleanup_sessions_resets_the_count.
  - apply (@cleanup_sessions_preserves
             (within (sessions (mgr w)) (session_records (db w)) (mgr w) (db w))).
    + intros tok. apply within_invalidate.
    + intros tok. apply within_invalidate_local.
    + intros n w0 H. exact H.
    + unfold within. repeat split; try reflexivity; apply incl_refl.
  - apply (@cleanup_sessions_preserves (fun w0 => attached (db w0))).
    + intros tok. apply attached_invalidate.
    + intros tok. apply attached_invalidate_local.
    + intros n w0 H. exact H.
Qed.

Lemma good_standing_refresh_pass (s : Session) (fuel : nat) :
  is_refresh_time_expire now s = false ->
  forall i, preserves (in_good_standing s) (cleanup_refresh_pass fuel now i).
Proof.
  intros Hfresh.
  induction fuel as [| fuel IH]; intros i w H; [exact H |].
  rewrite cleanup_refresh_pass_step.
  destruct (nth_error (sessions (mgr w)) i) as [t |] eqn:Ht; [| exact H].
  destruct (is_refresh_time_expire now t) eqn:Hexp; [| now apply IH].
  destruct (invalidate_local_session_effect (token t) w) as (b & ->).
  apply IH. destruct H as [Hu Hin]. split; simpl.
  - now apply remove_first_unique.
  - apply remove_first_other; [| exact Hin].
    intros Heq. apply nth_error_In in Ht.
    rewrite (@unique_token s t _ Hu Hin Ht Heq) in Hfresh. congruence.
Qed.

Lemma good_standing_invalidate (s : Session) (tok : string) (w : World) :
  token s <> tok -> in_good_standing s w -> in_good_standing s (snd (invalidate tok w)).
Proof.
  intros Hne [Hu Hin].
  assert (H : in_good_standing s
                {| mgr := set_sessions (remove_first_with_token tok (sessions (mgr w)))
                                       (mgr w);
                   db := db w |}).
  { split; simpl; [now apply remove_first_unique | now apply remove_first_other]. }
  rewrite invalidate_effect. cbv zeta.
  destruct (database_connection (mgr w)); [| exact H].
  destruct (begin_transaction (db w)) as [[u | e] d]; exact H.
Qed.

Lemma good_standing_lifetime_pass (s : Session) (fuel : nat) :
  is_alive now s = true ->
  forall i, preserves (in_good_standing s) (cleanup_lifetime_pass fuel now i).
Proof.
  intros Halive.
  induction fuel as [| fuel IH]; intros i w H; [exact H |].
  rewrite cleanup_lifetime_pass_step.
  destruct (nth_error (sessions (mgr w)) i) as [t |] eqn:Ht; [| exact H].
  destruct (is_alive now t) eqn:Hexp; cbn [negb]; [now apply IH |].
  assert (Hne : token s <> token t).
  { intros Heq. apply nth_error_In in Ht. destruct H as [Hu Hin].
    rewrite (@unique_token s t _ Hu Hin Ht Heq) in Halive. congruence. }
  pose proof (good_standing_invalidate Hne H) as H'.
  pose proof (invalidate_never_raises (token t) w) as Hb.
  destruct (invalidate (token t) w) as [[b' | e] w']; [| discriminate Hb].
  now apply IH.
Qed.

(** X12.  Pruning spares the sessions in good standing: when the sessions
    of the worker bear tokens of their own, a session that is alive and whose
    refresh time has not run out is still a session of the worker after
    [__cleanup_sessions]. *)
Theorem pruning_spares_sessions_in_good_standing (s : Session) (w : World) :
  NoDup (map token (sessions (mgr w))) ->
  In s (sessions (mgr w)) ->
  is_alive now s = true ->
  is_refresh_time_expire now s = false ->
  In s (sessions (mgr (snd (cleanup_sessions now w)))).
Proof.
  intros Hu Hin Halive Hfresh.
  assert (H : preserves (in_good_standing s) (cleanup_sessions now)).
  { unfold cleanup_sessions.
    apply preserves_bind; [intros w0 H0; exact H0 | intros _].
    preserved_using
      ltac:(first [ apply (good_standing_refresh_pass _ Hfresh)
                  | apply (good_standing_lifetime_pass _ Halive) ]). }
  apply (H w). now split.
Qed.

End Pruning.

Lemma pruning_only_removes_witness :
  attached (db Cases.dan_world)
  /\ attached (db (snd (cleanup_sessions 2000 Cases.dan_world))).
Proof.
  assert (H : attached (db Cases.dan_world)) by (repeat constructor).
  split; [exact H |].
  destruct (pruning_only_removes 2000 Cases.dan_world) as (_ & _ & _ & Hkept).
  exact (Hkept H).
Defined.

(** At instant 2000 the session of [dan] has outlived its 300 seconds and
    is not yet due for refresh: the second loop of the pruning ends it through
    [invalidate], and its row leaves the store with its OAuth tokens. *)
Example pruning_takes_the_oauth_tokens_along :
  List.length (session_records (db Cases.dan_world)) = 1%nat
  /\ List.length (oauth_tokens (db Cases.dan_world)) = 1%nat
  /\ session_records (db (snd (cleanup_sessions 2000 Cases.dan_world))) = []
  /\ oauth_tokens (db (snd (cleanup_sessions 2000 Cases.dan_world))) = [].
Proof. repeat split. Qed.

(** [invalidate] on the token of [dan] does the same. *)
Example invalidate_takes_the_oauth_tokens_along :
  fst (invalidate "f00d" Cases.dan_world) = Ok true
  /\ sessions (mgr (snd (invalidate "f00d" Cases.dan_world))) = []
  /\ session_records (db (snd (invalidate "f00d" Cases.dan_world))) = []
  /\ oauth_tokens (db (snd (invalidate "f00d" Cases.dan_world))) = [].
Proof. repeat split. Qed.

Lemma pruning_spares_sessions_in_good_standing_witness :
  is_alive 950 Samples.ann = true
  /\ is_refresh_time_expire 950 Samples.ann = false
  /\ In Samples.ann (sessions (mgr (snd (cleanup_sessions 950 (Samples.prune_world 0))))).
Proof.
  split; [reflexivity |]. split; [reflexivity |].
  apply (@pruning_spares_sessions_in_good_standing 950 Samples.ann
           (Samples.prune_world 0)).
  - simpl. repeat constructor; simpl; intuition discriminate.
  - simpl. now left.
  - reflexivity.
  - reflexivity.
Defined.

(** ** The count of logins *)

Section Frame.

Variable env : Env.
Variable P : World -> Prop.

Hypothesis transaction_kept : preserves P transaction.

Lemma create_local_session_preserves (now : Z) (tok user_name : string)
    (grps : list string) (root : bool) (accessed : option Z) :
  preserves P (create_local_session env now tok user_name grps root accessed).
Proof.
  unfold create_local_session.
  preserved_using ltac:(apply is_root_user_preserves).
Qed.

Lemma get_local_session_from_db_preserves (now : Z) (tok : string) :
  preserves P (get_local_session_from_db env now tok).
Proof.
  unfold get_local_session_from_db.
  preserved_using ltac:(first [ apply is_root_user_preserves
                              | apply create_local_session_preserves ]).
Qed.

End Frame.

Section Counter.

Variable env : Env.
Variable n : Z.

Local Abbreviation counted := (fun w : World => logins_since_prune (mgr w) = n).

Lemma counted_transaction : preserves counted transaction.
Proof.
  intros w H. unfold transaction. destruct (begin_transaction (db w)). exact H.
Qed.

Lemma counted_modify_db (f : Database -> Database) : preserves counted (modify_db f).
Proof. intros w H. exact H. Qed.

Lemma counted_revalidate_session (now : Z) (s : Session) :
  preserves counted (revalidate_session now s).
Proof.
  intros w H. unfold revalidate_session. destruct (revalidate now s (db w)). exact H.
Qed.

Lemma counted_append_session (s : Session) : preserves counted (append_session s).
Proof. intros w H. exact H. Qed.

Lemma counted_login (now : Z) (fresh auth_string : string) :
  preserves counted
    (auth_token <- try_auth_token auth_string ;;
     match auth_token with
     | PVal tok => rehydrate env now tok
     | _ => bind (handle_validation env now auth_string) (after_validation env now fresh)
     end).
Proof.
  unfold rehydrate, after_validation, issue.
  preserved_using
    ltac:(first [ apply counted_transaction
                | apply counted_modify_db
                | apply counted_revalidate_session
                | apply counted_append_session
                | apply try_auth_token_preserves
                | apply get_local_session_from_db_preserves
                | apply create_local_session_preserves
                | eapply handle_validation_preserves; intros ]).
Qed.

End Counter.

(** ** Finding a session *)

Lemma get_local_session_from_db_keeps_the_worker (env : Env) (now : Z) (tok : string)
    (w : World) :
  mgr (snd (get_local_session_from_db env now tok w)) = mgr w.
Proof.
  eapply (@get_local_session_from_db_preserves env (fun w' => mgr w' = mgr w));
    [apply worker_kept_by_transaction | reflexivity].
Qed.

(** What [get_session] leaves behind when it finds a session: the session
    stands in the worker's list behind sessions that do not answer to the
    token, and revalidating it again at the same instant changes nothing in
    it. *)
Lemma get_session_found (env : Env) (now : Z) (tok : string) (w w' : World)
    (s : Session) :
  get_session env now tok w = (Ok (Some s), w') ->
  is_enabled (mgr w') = true
  /\ token s = tok
  /\ (0 <= session_lifetime s -> is_alive now s = true)
  /\ (forall d, fst (revalidate now s d) = s)
  /\ exists before after,
       sessions (mgr w') = before ++ s :: after
       /\ Forall (fun y => is_alive now y && String.eqb (token y) tok = false) before.
Proof.
  unfold get_session. intros H.
  rewrite bind_get_mgr in H.
  destruct (is_enabled (mgr w)) eqn:Hen; [| discriminate H]. cbn [negb] in H.
  destruct (find_live now tok [] (sessions (mgr w))) as [[[before sess] after] |] eqn:Hfind.
  - pose proof (find_live_some _ _ _ _ Hfind) as (_ & Ht & Ha).
    apply find_live_some_first in Hfind as (before' & Hb & Hl & Hall).
    simpl in Hb. subst before'.
    destruct (is_refresh_time_expire now sess) eqn:Hexp.
    + apply bind_ok in H as (sess' & w2 & Hr & H).
      unfold revalidate_session in Hr.
      pose proof (revalidate_keeps_the_session now sess (db w)) as (Hid & Hlt & _).
      pose proof (@revalidate_alive now sess (db w) Ha) as Halive.
      pose proof (revalidate_again now sess (db w)) as Hagain.
      destruct (revalidate now sess (db w)) as [s1 d1]. injection Hr as <- <-.
      rewrite bind_modify_mgr in H. injection H as <- <-. simpl in *.
      split; [exact Hen |].
      split; [unfold session_identity in Hid; congruence |].
      split; [intros Hnn; apply Halive; congruence |].
      split; [exact Hagain |].
      now exists before, after.
    + injection H as <- <-.
      split; [exact Hen |]. split; [exact Ht |]. split; [intros _; exact Ha |].
      split.
      * intros d. rewrite revalidate_session_part, Hexp, andb_false_r, andb_false_r.
        reflexivity.
      * now exists before, after.
  - apply find_live_none_all in Hfind.
    apply bind_ok in H as (local_session & w2 & Hdb & H).
    pose proof (get_local_session_from_db_keeps_the_worker env now tok w) as Hkept.
    rewrite Hdb in Hkept. simpl in Hkept.
    destruct local_session as [s0 |].
    + apply get_local_session_from_db_token in Hdb.
      destruct (is_alive now s0) eqn:Ha.
      * destruct (is_refresh_time_expire now s0) eqn:Hexp.
        -- apply bind_ok in H as (s' & w3 & Hr & H).
           unfold revalidate_session in Hr.
           pose proof (revalidate_keeps_the_session now s0 (db w2)) as (Hid & Hlt & _).
           pose proof (@revalidate_alive now s0 (db w2) Ha) as Halive.
           pose proof (revalidate_again now s0 (db w2)) as Hagain.
           destruct (revalidate now s0 (db w2)) as [s1 d1]. injection Hr as <- <-.
           unfold append_session in H. rewrite bind_modify_mgr in H.
           injection H as <- <-. simpl in *. rewrite Hkept.
           split; [exact Hen |].
           split; [unfold session_identity in Hid; congruence |].
           split; [intros Hnn; apply Halive; congruence |].
           split; [exact Hagain |].
           now exists (sessions (mgr w)), [].
        -- unfold append_session in H. rewrite bind_modify_mgr in H.
           injection H as <- <-. simpl. rewrite Hkept.
           split; [exact Hen |]. split; [exact Hdb |]. split; [intros _; exact Ha |].
           split.
           ++ intros d. rewrite revalidate_session_part, Hexp, andb_false_r, andb_false_r.
              reflexivity.
           ++ now exists (sessions (mgr w)), [].
      * apply bind_ok in H as (b & w3 & _ & H). discriminate H.
    + apply bind_ok in H as (b & w3 & _ & H). discriminate H.
Qed.

(** X5.  A session that [get_session] returns bears the token that was
    asked for and is in the worker's list when the call returns; when its
    lifetime is not negative, it is alive at that instant. *)
Theorem get_session_returns_the_requested_session (env : Env) (now : Z) (tok : string)
    (w w' : World) (s : Session) :
  get_session env now tok w = (Ok (Some s), w') ->
  token s = tok
  /\ In s (sessions (mgr w'))
  /\ (0 <= session_lifetime s -> is_alive now s = true).
Proof.
  intros H.
  apply get_session_found in H as (_ & Ht & Ha & _ & before & after & Hl & _).
  split; [exact Ht |]. split; [| exact Ha].
  rewrite Hl. apply in_or_app. right. now left.
Qed.

(** X6.  Asking again gives the same session.  When [get_session] has
    returned a session whose lifetime is not negative, a second call for the
    same token at the same instant returns that very session, found in the
    worker's list. *)
Theorem get_session_again_gives_the_same_session (env : Env) (now : Z) (tok : string)
    (w w' : World) (s : Session) :
  get_session env now tok w = (Ok (Some s), w') ->
  0 <= session_lifetime s ->
  fst (get_session env now tok w') = Ok (Some s).
Proof.
  intros H Hlife.
  apply get_session_found in H
    as (Hen & Ht & Ha & Hfix & before & after & Hl & Hall).
  unfold get_session. rewrite bind_get_mgr, Hen. cbn [negb].
  rewrite Hl, (@find_live_at now tok before after s Hall).
  - cbn [app].
    destruct (is_refresh_time_expire now s); [| reflexivity].
    unfold bind, revalidate_session.
    pose proof (Hfix (db w')) as Hs.
    destruct (revalidate now s (db w')) as [s1 d1]. simpl in Hs. subst s1.
    reflexivity.
  - rewrite (Ha Hlife), Ht. apply String.eqb_refl.
Qed.

Lemma get_session_returns_the_requested_session_witness :
  get_session Reference.env 1000 "t-ann" (Samples.prune_world 0)
  = (Ok (Some (set_last_access 1000 Samples.ann)),
     snd (get_session Reference.env 1000 "t-ann" (Samples.prune_world 0)))
  /\ token (set_last_access 1000 Samples.ann) = "t-ann".
Proof.
  split; [vm_compute; reflexivity |].
  destruct (@get_session_returns_the_requested_session Reference.env 1000 "t-ann"
              (Samples.prune_world 0)
              (snd (get_session Reference.env 1000 "t-ann" (Samples.prune_world 0)))
              (set_last_access 1000 Samples.ann)) as [H _];
    [vm_compute; reflexivity | exact H].
Defined.

Lemma get_session_again_gives_the_same_session_witness :
  fst (get_session Reference.env 1000 "t-ann"
         (snd (get_session Reference.env 1000 "t-ann" (Samples.prune_world 0))))
  = Ok (Some (set_last_access 1000 Samples.ann)).
Proof.
  apply (@get_session_again_gives_the_same_session Reference.env 1000 "t-ann"
           (Samples.prune_world 0)
           (snd (get_session Reference.env 1000 "t-ann" (Samples.prune_world 0)))
           (set_last_access 1000 Samples.ann)).
  - vm_compute. reflexivity.
  - vm_compute. discriminate.
Defined.

(** X13.  The count of logins counts attempts.  With authentication
    enabled, [create_session] adds one to the count before it looks at the
    credential; when the count reaches the configured limit the sessions are
    pruned and the count starts again at zero.  Whether the credential is
    accepted, rejected, or an exception is raised on the way makes no
    difference to the count. *)
Theorem create_session_counts_every_attempt (env : Env) (now limit : Z)
    (fresh auth_string : string) (enabled : json) (w : World) :
  dict_get "enabled" (auth_config (mgr w)) = Some enabled ->
  truthy enabled = true ->
  dict_get "logins_until_cleanup" (auth_config (mgr w)) = Some (JNum limit) ->
  logins_since_prune (mgr (snd (create_session env now fresh auth_string w)))
  = if logins_since_prune (mgr w) + 1 >=? limit then 0
    else logins_since_prune (mgr w) + 1.
Proof.
  intros Henabled Htruthy Hlimit.
  unfold create_session.
  rewrite bind_get_mgr, (bind_lift_ok _ _ (dict_index_get _ _ Henabled)), Htruthy.
  cbn [negb]. rewrite bind_modify_mgr, bind_get_mgr. cbn [mgr].
  assert (Hcfg : forall v m, auth_config (set_logins_since_prune v m) = auth_config m)
    by reflexivity.
  rewrite Hcfg, (bind_lift_ok _ _ (dict_index_get _ _ Hlimit)).
  rewrite (@bind_lift_ok _ _ (as_num (JNum limit)) limit _ _ eq_refl).
  assert (Hcount : forall v m, logins_since_prune (set_logins_since_prune v m) = v)
    by reflexivity.
  rewrite Hcount.
  apply (@snd_bind _ _
           (fun w' => logins_since_prune (mgr w')
                      = if logins_since_prune (mgr w) + 1 >=? limit then 0
                        else logins_since_prune (mgr w) + 1)).
  - destruct (logins_since_prune (mgr w) + 1 >=? limit).
    + apply cleanup_sessions_resets_the_count.
    + reflexivity.
  - intros _. apply counted_login.
Qed.

Lemma create_session_counts_every_attempt_witness :
  logins_since_prune
    (mgr (snd (create_session Reference.env 1000 "f00d" "bob:wrong" Samples.pam_world)))
  = 1.
Proof.
  apply (@create_session_counts_every_attempt Reference.env 1000 30 "f00d" "bob:wrong"
           (JBool true) Samples.pam_world); reflexivity.
Defined.

(** X14.  Without authentication [create_session] changes nothing, not
    even the count of logins.  A configuration that switches authentication
    off gives [None]; one with no ['enabled'] key, which [get_session] takes
    for switched off, makes [create_session] raise [KeyError]. *)
Theorem create_session_without_authentication (env : Env) (now : Z)
    (fresh auth_string tok : string) (w : World) :
  truthy_opt (dict_get "enabled" (auth_config (mgr w))) = false ->
  create_session env now fresh auth_string w
  = (match dict_get "enabled" (auth_config (mgr w)) with
     | Some _ => Ok PNone
     | None => Raise (KeyError "enabled")
     end, w)
  /\ get_session env now tok w = (Ok None, w).
Proof.
  intros H. split.
  - unfold create_session. rewrite bind_get_mgr.
    destruct (dict_get "enabled" (auth_config (mgr w))) as [e |] eqn:He.
    + rewrite (bind_lift_ok _ _ (dict_index_get _ _ He)).
      simpl in H. now rewrite H.
    + apply bind_lift_raise. unfold dict_index. now rewrite He.
  - unfold get_session. rewrite bind_get_mgr. unfold is_enabled. now rewrite H.
Qed.

(** ** Who is root *)

(** X15.  [__is_root_user] never raises and changes neither the worker
    nor the tables.  It answers [True] only for the configured super user or
    for a holder of the super-user permission; it answers exactly that when
    the worker is connected and the query goes through.  A store that fails
    or is missing can withhold the status of root, never grant it. *)
Theorem root_is_never_granted_by_mistake (env : Env) (user_name : string) (w : World) :
  exists b,
    fst (is_root_user env user_name w) = Ok b
    /\ (b = true ->
        root_status env (auth_config (mgr w)) (system_permissions (db w)) user_name = true)
    /\ (database_connection (mgr w) = true ->
        fst (begin_transaction (db w)) = Ok tt ->
        b = root_status env (auth_config (mgr w)) (system_permissions (db w)) user_name)
    /\ same_tables w (snd (is_root_user env user_name w)).
Proof.
  unfold is_root_user, root_status, same_tables, tables.
  rewrite bind_get_mgr.
  destruct (match dict_get "super_user" (auth_config (mgr w)) with
            | Some v => json_is_str v user_name
            | None => false
            end) eqn:Hsuper.
  - exists true. simpl. repeat split; reflexivity.
  - unfold try_except, bind, transaction, get_db, raise, ret.
    destruct (database_connection (mgr w)); cbn [negb].
    + unfold begin_transaction.
      destruct (faults (db w)) as [| [] fs]; cbn [fst snd mgr db];
        eexists; (split; [reflexivity |]); cbn [orb];
        (split; [| split; [| split; reflexivity]]);
        first [ discriminate | intros; discriminate | intros; reflexivity
              | intros H; exact H | idtac ].
    + exists false. simpl. repeat split; discriminate.
Qed.

Lemma create_session_without_authentication_witness :
  create_session Reference.env 1000 "f00d" "bob:builder" Cases.disabled_world
  = (Ok PNone, Cases.disabled_world)
  /\ get_session Reference.env 1000 "t-ann" Cases.disabled_world
     = (Ok None, Cases.disabled_world).
Proof.
  apply (@create_session_without_authentication Reference.env 1000 "f00d" "bob:builder"
           "t-ann" Cases.disabled_world).
  reflexivity.
Defined.

(** ** Switching a provider off *)

Lemma filter_absent (p : string) (names : list string) :
  ~ In p names -> filter (fun q => negb (String.eqb q p)) names = names.
Proof.
  induction names as [| n rest IH]; simpl; intros H; [reflexivity |].
  destruct (String.eqb_spec n p) as [-> | Hne]; simpl.
  - exfalso. apply H. now left.
  - rewrite IH; [reflexivity | intros Hin; apply H; now right].
Qed.

Lemma enabled_names_after_switch_off (p : string) (v : json) (d : dict) :
  dict_wf d = true ->
  dict_mem p d = true ->
  (exists e, py_get v "enabled" (JBool false) = Ok e /\ truthy e = false) ->
  forall names,
    enabled_names d = Ok names ->
    enabled_names (dict_set p v d)
    = Ok (filter (fun q => negb (String.eqb q p)) names).
Proof.
  intros Hwf Hmem (e & He & Hoff).
  induction d as [| [k c] rest IH]; simpl in *; intros names H; [discriminate |].
  apply andb_true_iff in Hwf as [Hfresh Hwf].
  destruct (py_get c "enabled" (JBool false)) as [e0 |] eqn:He0; simpl in H;
    [| discriminate].
  destruct (enabled_names rest) as [names0 |] eqn:Hrest; simpl in H; [| discriminate].
  injection H as <-.
  unfold dict_mem in Hmem. simpl in Hmem.
  destruct (String.eqb_spec p k) as [-> | Hne]; simpl.
  - rewrite He, Hrest. simpl. rewrite Hoff.
    assert (Hout : ~ In k names0).
    { intros Hin. apply (@enabled_names_keys rest names0 k Hrest) in Hin.
      apply dict_mem_keys in Hin. rewrite Hin in Hfresh. discriminate Hfresh. }
    destruct (truthy e0); simpl; rewrite ?String.eqb_refl; simpl;
      now rewrite (@filter_absent _ _ Hout).
  - rewrite He0, (IH Hwf Hmem names0 eq_refl). simpl.
    destruct (truthy e0); [| reflexivity].
    simpl. destruct (String.eqb_spec k p); [congruence | reflexivity].
Qed.

Lemma turn_off_oauth_provider_cases (p : string) (w : World) :
  (exists oauth providers cfg,
     dict_get "method_oauth" (auth_config (mgr w)) = Some (JDict oauth)
     /\ match dict_get "providers" oauth with
        | Some x => x
        | None => JDict []
        end = JDict providers
     /\ dict_get p providers = Some (JDict cfg)
     /\ turn_off_oauth_provider p w
        = (Ok tt,
           {| mgr := set_auth_config
                       (dict_set "method_oauth"
                          (JDict (dict_set "providers"
                                    (JDict (dict_set p
                                              (JDict (dict_set "enabled" (JBool false) cfg))
                                              providers))
                                    oauth))
                          (auth_config (mgr w)))
                       (mgr w);
              db := db w |}))
  \/ exists e, turn_off_oauth_provider p w = (Raise e, w).
Proof.
  unfold turn_off_oauth_provider. rewrite bind_get_mgr.
  destruct (dict_get "method_oauth" (auth_config (mgr w))) as [method_oauth |] eqn:Hm.
  2: { right. eexists. apply bind_lift_raise. unfold dict_index. now rewrite Hm. }
  rewrite (bind_lift_ok _ _ (dict_index_get _ _ Hm)).
  destruct method_oauth as [| | | | | oauth];
    try (right; eexists; apply bind_lift_raise; reflexivity).
  rewrite (@bind_lift_ok _ _ (py_get (JDict oauth) "providers" (JDict [])) _ _ _ eq_refl).
  remember (match dict_get "providers" oauth with
            | Some x => x
            | None => JDict []
            end) as providers_value eqn:Hp.
  destruct providers_value as [| | | | | providers];
    try (right; eexists; apply bind_lift_raise; reflexivity).
  rewrite (@bind_lift_ok _ _ (as_mapping (JDict providers)) _ _ _ eq_refl).
  destruct (dict_get p providers) as [cfg_value |] eqn:Hc.
  2: { right. eexists. apply bind_lift_raise. unfold dict_index. now rewrite Hc. }
  rewrite (bind_lift_ok _ _ (dict_index_get _ _ Hc)).
  destruct cfg_value as [| | | | | cfg];
    try (right; eexists; apply bind_lift_raise; reflexivity).
  left. exists oauth, providers, cfg.
  split; [reflexivity | split; [now symmetry | split; [exact Hc | reflexivity]]].
Qed.

Lemma providers_written (config oauth providers : dict) :
  oauth_providers_of
    (dict_set "method_oauth" (JDict (dict_set "providers" (JDict providers) oauth)) config)
  = Ok providers.
Proof.
  unfold oauth_providers_of, py_get. rewrite dict_get_set_eq. simpl.
  now rewrite dict_get_set_eq.
Qed.

Lemma providers_read (config oauth providers : dict) :
  dict_get "method_oauth" config = Some (JDict oauth) ->
  match dict_get "providers" oauth with
  | Some x => x
  | None => JDict []
  end = JDict providers ->
  oauth_providers_of config = Ok providers.
Proof.
  intros Hm Hp. unfold oauth_providers_of, py_get. rewrite Hm. simpl. now rewrite Hp.
Qed.

(** X16.  Switching a provider off takes it off the list and nothing
    else: after [turn_off_oauth_provider] has returned, [get_oauth_providers]
    lists the providers it listed before, in the same order, without the one
    switched off; the sessions of the worker and the store are untouched. *)
Theorem switched_off_provider_leaves_the_list (p : string) (w w' : World)
    (providers : dict) (names : list string) :
  oauth_providers_of (auth_config (mgr w)) = Ok providers ->
  dict_wf providers = true ->
  get_oauth_providers (mgr w) = Ok names ->
  turn_off_oauth_provider p w = (Ok tt, w') ->
  get_oauth_providers (mgr w') = Ok (filter (fun q => negb (String.eqb q p)) names)
  /\ sessions (mgr w') = sessions (mgr w)
  /\ db w' = db w.
Proof.
  intros Hproviders Hwf Hnames Hoff.
  destruct (turn_off_oauth_provider_cases p w)
    as [(oauth & providers0 & cfg & Hm & Hp & Hc & Heq) | (e & Heq)];
    rewrite Heq in Hoff; [| discriminate Hoff].
  injection Hoff as <-.
  rewrite (providers_read _ Hm Hp) in Hproviders.
  injection Hproviders as ->.
  unfold get_oauth_providers in *. cbn [mgr db].
  assert (Hcfg : forall c m, auth_config (set_auth_config c m) = c) by reflexivity.
  rewrite Hcfg, providers_written.
  rewrite (providers_read _ Hm Hp) in Hnames. simpl in Hnames. simpl.
  split; [| split; reflexivity].
  apply enabled_names_after_switch_off; try assumption.
  - unfold dict_mem. now rewrite Hc.
  - exists (JBool false). split; [| reflexivity].
    unfold py_get. now rewrite dict_get_set_eq.
Qed.

(** X17.  A provider that has been switched off cannot log anybody in:
    after [turn_off_oauth_provider] has returned, [create_session_oauth] for
    that provider answers [False] and creates nothing. *)
Theorem switched_off_provider_logs_nobody_in (env : Env) (now : Z)
    (fresh p username access : string) (expires : Z) (refresh : string)
    (grps : option (list string)) (w w' : World) :
  turn_off_oauth_provider p w = (Ok tt, w') ->
  create_session_oauth env now fresh p username access expires refresh grps w'
  = (Ok PFalse, w').
Proof.
  intros Hoff.
  destruct (turn_off_oauth_provider_cases p w)
    as [(oauth & providers0 & cfg & Hm & Hp & Hc & Heq) | (e & Heq)];
    rewrite Heq in Hoff; [| discriminate Hoff].
  injection Hoff as <-.
  unfold create_session_oauth, is_method_enabled.
  rewrite bind_assoc, bind_get_mgr. cbn [mgr].
  assert (Hcfg : forall c m, auth_config (set_auth_config c m) = c) by reflexivity.
  rewrite Hcfg.
  destruct (in_strings "oauth" (UNSUPPORTED_METHODS env)); [reflexivity |].
  change ("method_" ++ "oauth")%string with "method_oauth".
  rewrite dict_get_set_eq.
  unfold bind at 1. unfold bind at 1. unfold lift at 1, py_get at 1. cbv beta iota.
  unfold ret at 1. cbv beta iota.
  match goal with
  | |- (if negb ?b then _ else _) _ = _ => destruct b; cbn [negb]; [| reflexivity]
  end.
  rewrite bind_get_mgr. cbn [mgr]. rewrite Hcfg.
  unfold py_get at 1. rewrite dict_get_set_eq.
  rewrite (@bind_lift_ok _ _ _ _ _ _ eq_refl).
  unfold py_get at 1. rewrite dict_get_set_eq.
  rewrite (@bind_lift_ok _ _ _ _ _ _ eq_refl).
  rewrite (@bind_lift_ok _ _ (as_dict (JDict _)) _ _ _ eq_refl).
  rewrite dict_get_set_eq.
  unfold py_get at 1. rewrite dict_get_set_eq.
  rewrite (@bind_lift_ok _ _ _ _ _ _ eq_refl).
  reflexivity.
Qed.

Lemma switched_off_provider_leaves_the_list_witness :
  get_oauth_providers (mgr Cases.oauth_world) = Ok ["github"; "always_off"]
  /\ get_oauth_providers
       (mgr (snd (turn_off_oauth_provider "github" Cases.oauth_world)))
     = Ok ["always_off"].
Proof.
  split; [vm_compute; reflexivity |].
  apply (@switched_off_provider_leaves_the_list "github" Cases.oauth_world
           (snd (turn_off_oauth_provider "github" Cases.oauth_world))
           Samples.test_providers ["github"; "always_off"]);
    vm_compute; reflexivity.
Defined.

Lemma switched_off_provider_logs_nobody_in_witness :
  fst (create_session_oauth Reference.env 1000 "f00d" "always_off" "dan" "at" 5000 "rt"
         None Cases.oauth_world)
  = Ok (PVal (new_session 1000 "f00d" "dan" [] 300 (Some 60) false true None))
  /\ create_session_oauth Reference.env 1000 "f00d" "always_off" "dan" "at" 5000 "rt"
       None (snd (turn_off_oauth_provider "always_off" Cases.oauth_world))
     = (Ok PFalse, snd (turn_off_oauth_provider "always_off" Cases.oauth_world)).
Proof.
  split; [vm_compute; reflexivity |].
  apply (@switched_off_provider_logs_nobody_in Reference.env 1000 "f00d" "always_off"
           "dan" "at" 5000 "rt" None Cases.oauth_world
           (snd (turn_off_oauth_provider "always_off" Cases.oauth_world))).
  vm_compute. reflexivity.
Defined.

(** X18.  A provider that is not configured is an error, not an empty
    configuration: for a name that the table of providers does not hold,
    [get_oauth_config] and [turn_off_oauth_provider] raise [KeyError] and
    leave the worker and the store as they are. *)
Theorem unknown_provider_raises_key_error (p : string) (providers : dict) (w : World) :
  oauth_providers_of (auth_config (mgr w)) = Ok providers ->
  dict_get p providers = None ->
  (exists k, get_oauth_config p w = (Raise (KeyError k), w))
  /\ (exists k, turn_off_oauth_provider p w = (Raise (KeyError k), w)).
Proof.
  unfold oauth_providers_of. intros Hproviders Hnone.
  unfold py_get at 1 in Hproviders. cbn [rbind] in Hproviders.
  split.
  - unfold get_oauth_config. rewrite bind_get_mgr.
    unfold py_get at 1.
    destruct (dict_get "method_oauth" (auth_config (mgr w))) as [method_oauth |] eqn:Hm.
    + destruct method_oauth as [| | | | | oauth]; try discriminate Hproviders.
      cbn [rbind]. unfold py_get at 1 in Hproviders. unfold py_get at 1.
      destruct (dict_get "providers" oauth) as [providers_value |] eqn:Hp.
      * destruct providers_value as [| | | | | providers0]; try discriminate Hproviders.
        injection Hproviders as ->. cbn [rbind]. unfold py_get at 1. rewrite Hnone.
        rewrite (@bind_lift_ok _ _ _ _ _ _ eq_refl).
        rewrite (@bind_lift_ok _ _ (py_get (JDict []) "client_secret" _) _ _ _ eq_refl).
        rewrite (@bind_lift_ok _ _ (py_get (JDict []) "client_id" _) _ _ _ eq_refl).
        cbn [dict_get]. 
        change (py_eqb (JStr "ExampleClientSecret") (JStr "ExampleClientSecret"))
          with true.
        cbn [orb].
        rewrite bind_assoc, (bind_lift_ok _ _ (dict_index_get _ _ Hm)).
        rewrite bind_assoc, (@bind_lift_ok _ _ (as_mapping (JDict oauth)) _ _ _ eq_refl).
        rewrite bind_assoc, (bind_lift_ok _ _ (dict_index_get _ _ Hp)).
        rewrite bind_assoc,
          (@bind_lift_ok _ _ (as_mapping (JDict providers)) _ _ _ eq_refl).
        rewrite bind_assoc. exists p. apply bind_lift_raise.
        unfold dict_index. now rewrite Hnone.
      * injection Hproviders as <-. cbn [rbind py_get dict_get].
        rewrite (@bind_lift_ok _ _ _ _ _ _ eq_refl).
        rewrite (@bind_lift_ok _ _ (py_get (JDict []) "client_secret" _) _ _ _ eq_refl).
        rewrite (@bind_lift_ok _ _ (py_get (JDict []) "client_id" _) _ _ _ eq_refl).
        cbn [dict_get].
        change (py_eqb (JStr "ExampleClientSecret") (JStr "ExampleClientSecret"))
          with true.
        cbn [orb].
        rewrite bind_assoc, (bind_lift_ok _ _ (dict_index_get _ _ Hm)).
        rewrite bind_assoc, (@bind_lift_ok _ _ (as_mapping (JDict oauth)) _ _ _ eq_refl).
        rewrite bind_assoc. exists "providers". apply bind_lift_raise.
        unfold dict_index. now rewrite Hp.
    + cbn [rbind py_get dict_get] in *.
      rewrite (@bind_lift_ok _ _ _ _ _ _ eq_refl).
      rewrite (@bind_lift_ok _ _ (py_get (JDict []) "client_secret" _) _ _ _ eq_refl).
      rewrite (@bind_lift_ok _ _ (py_get (JDict []) "client_id" _) _ _ _ eq_refl).
      cbn [dict_get].
      change (py_eqb (JStr "ExampleClientSecret") (JStr "ExampleClientSecret"))
        with true.
      cbn [orb].
      rewrite bind_assoc. exists "method_oauth". apply bind_lift_raise.
      unfold dict_index. now rewrite Hm.
  - destruct (turn_off_oauth_provider_cases p w)
      as [(oauth & providers0 & cfg & Hm & Hp & Hc & Heq) | (e & Heq)].
    + exfalso. rewrite Hm in Hproviders. cbn [rbind] in Hproviders.
      unfold py_get in Hproviders. rewrite Hp in Hproviders.
      injection Hproviders as ->. congruence.
    + unfold turn_off_oauth_provider in *. rewrite bind_get_mgr in *.
      destruct (dict_get "method_oauth" (auth_config (mgr w))) as [method_oauth |] eqn:Hm.
      * rewrite (bind_lift_ok _ _ (dict_index_get _ _ Hm)) in *.
        destruct method_oauth as [| | | | | oauth]; try discriminate Hproviders.
        cbn [rbind] in Hproviders.
        destruct (py_get (JDict oauth) "providers" (JDict [])) as [pv |] eqn:Hpv;
          [| discriminate Hproviders].
        rewrite (@bind_lift_ok _ _ (Ok pv) _ _ _ eq_refl).
        destruct pv as [| | | | | providers0]; try discriminate Hproviders.
        injection Hproviders as ->.
        rewrite (@bind_lift_ok _ _ (as_mapping (JDict providers)) _ _ _ eq_refl).
        exists p. apply bind_lift_raise. unfold dict_index. now rewrite Hnone.
      * exists "method_oauth". apply bind_lift_raise. unfold dict_index. now rewrite Hm.
Qed.

Lemma unknown_provider_raises_key_error_witness :
  (exists k, get_oauth_config "gitlab" Cases.oauth_world
             = (Raise (KeyError k), Cases.oauth_world))
  /\ (exists k, turn_off_oauth_provider "gitlab" Cases.oauth_world
                = (Raise (KeyError k), Cases.oauth_world)).
Proof.
  apply (@unknown_provider_raises_key_error "gitlab" Samples.test_providers
           Cases.oauth_world); reflexivity.
Defined.

(** ** Reloading the configuration *)

Lemma adopt_policy_identity (config : dict) (l : list Session) :
  map session_identity (fst (adopt_policy config l)) = map session_identity l
  /\ map last_access (fst (adopt_policy config l)) = map last_access l.
Proof.
  induction l as [| s rest [IH1 IH2]]; simpl; [now split |].
  destruct (rbind (dict_index "session_lifetime" config) as_num) as [lifetime | e];
    [| now split].
  destruct (rbind (dict_index "refresh_time" config) _) as [refresh | e];
    [| now split].
  destruct (adopt_policy config rest) as [rest' r]. simpl in *.
  now rewrite IH1, IH2.
Qed.

Lemma bind_put_mgr (A : Type) (m : SessionManager) (k : unit -> M A) (w : World) :
  bind (put_mgr m) k w = k tt {| mgr := m; db := db w |}.
Proof. reflexivity. Qed.

Lemma reload_body_policy_only (source : option json) (w : World) :
  policy_only w (snd (reload_body source w)).
Proof.
  assert (Hrefl : policy_only w w) by (unfold policy_only; now repeat split).
  unfold reload_body.
  destruct (get_config_dict source) as [cfg_dict | e] eqn:Hcfg;
    [| exact Hrefl].
  rewrite (@bind_lift_ok _ _ (Ok _) _ _ _ eq_refl), bind_get_mgr.
  destruct (py_get cfg_dict "max_run_count" JNull) as [new_max | e] eqn:Hmax;
    [| exact Hrefl].
  rewrite (@bind_lift_ok _ _ (Ok _) _ _ _ eq_refl).
  apply (@snd_bind _ _ (policy_only w)).
  { destruct (negb (py_eqb (max_run_count (mgr w)) new_max)); exact Hrefl. }
  intros _.
  apply preserves_bind; [apply preserves_lift | intros new_store].
  apply preserves_bind.
  { intros w1 H1. destruct (negb (json_dumps_eqb (store_config (mgr w)) new_store));
      exact H1. }
  intros _ w1 H1. rewrite bind_get_mgr.
  destruct (update_auth_fields cfg_dict auth_fields_to_update (auth_config (mgr w1)) false)
    as [[config update_sessions] | e] eqn:Hfields;
    [| exact H1].
  rewrite (@bind_lift_ok _ _ (Ok _) _ _ _ eq_refl). cbv beta iota.
  rewrite bind_put_mgr.
  destruct update_sessions; [| exact H1].
  rewrite bind_get_mgr. cbn [mgr].
  pose proof (adopt_policy_identity config (sessions (mgr w1))) as [Hi Ha].
  assert (Hc : forall c m, auth_config (set_auth_config c m) = c) by reflexivity.
  assert (Hs : forall c m, sessions (set_auth_config c m) = sessions m) by reflexivity.
  rewrite Hc, Hs.
  destruct (adopt_policy config (sessions (mgr w1))) as [l r].
  rewrite bind_put_mgr. unfold lift. cbn [snd fst] in *.
  destruct H1 as (H1 & H2 & H3 & H4 & H5 & H6).
  unfold policy_only. cbn [mgr db].
  split; [exact H1 |]. split; [exact H2 |]. split; [exact H3 |]. split; [exact H4 |].
  split; [now rewrite <- H5 | now rewrite <- H6].
Qed.

(** X19.  Reloading the configuration changes the policy and nothing
    else.  Whatever the file holds, and whether [reload_config] finishes or
    raises, the store, the count of logins, the connection and the refresh
    time read by the constructor are what they were; every session keeps
    its token, user, groups, root status and last access. *)
Theorem reload_config_changes_the_policy_only (source : option json) (w : World) :
  policy_only w (snd (reload_config source w)).
Proof.
  pose proof (reload_body_policy_only source w) as H.
  unfold reload_config.
  destruct (reload_body source w) as [[u | []] w']; exact H.
Qed.

Lemma update_auth_fields_unchanged (cfg_dict : json) (fields : list string) :
  forall config b config',
    update_auth_fields cfg_dict fields config b = Ok (config', false) ->
    config' = config.
Proof.
  induction fields as [| field rest IH]; simpl; intros config b config' H.
  - now injection H as <- _.
  - destruct (dict_get field config) as [prev |]; [| exact (IH _ _ _ H)].
    destruct (rbind (as_dict cfg_dict) (dict_index "authentication"))
      as [authentication |]; simpl in H; [| discriminate].
    destruct (py_get authentication field (JNum 0)) as [new_value |]; simpl in H;
      [| discriminate].
    destruct (negb (py_eqb prev new_value)); [| exact (IH _ _ _ H)].
    exfalso. clear IH prev.
    assert (Htrue : forall fs c c' b', update_auth_fields cfg_dict fs c true = Ok (c', b')
                                       -> b' = true).
    { clear. induction fs as [| f fs IH]; simpl; intros c c' b' H.
      - now injection H as _ <-.
      - destruct (dict_get f c); [| exact (IH _ _ _ H)].
        destruct (rbind (as_dict cfg_dict) (dict_index "authentication")); simpl in H;
          [| discriminate].
        destruct (py_get _ f (JNum 0)); simpl in H; [| discriminate].
        destruct (negb (py_eqb _ _)); exact (IH _ _ _ H). }
    specialize (Htrue _ _ _ _ H). discriminate.
Qed.

Lemma adopt_policy_carried (config : dict) (l : list Session) :
  forall l', adopt_policy config l = (l', Ok tt) -> Forall (carries_policy config) l'.
Proof.
  induction l as [| s rest IH]; simpl; intros l' H.
  - injection H as <-. constructor.
  - destruct (rbind (dict_index "session_lifetime" config) as_num) as [lifetime | e]
      eqn:Hl; [| discriminate].
    destruct (rbind (dict_index "refresh_time" config) _) as [refresh | e] eqn:Hr;
      [| discriminate].
    destruct (adopt_policy config rest) as [rest' r].
    injection H as <- ->.
    constructor; [| now apply IH].
    split; [exact Hl | exact Hr].
Qed.

Lemma bind_if_modify_mgr (A : Type) (c : bool) (f : SessionManager -> SessionManager)
    (k : unit -> M A) (w : World) :
  bind (if c then modify_mgr f else ret tt) k w
  = k tt {| mgr := if c then f (mgr w) else mgr w; db := db w |}.
Proof. destruct c, w; reflexivity. Qed.

(** X20.  A reload that changes the authentication section reaches the
    sessions that exist: when [reload_config] has finished and the
    configuration of the worker is no longer what it was, every session of
    the worker carries the session lifetime and the refresh time of the new
    configuration. *)
Theorem reload_config_reaches_existing_sessions (source : option json) (w w' : World) :
  reload_config source w = (Ok Reloaded, w') ->
  auth_config (mgr w') <> auth_config (mgr w) ->
  Forall (carries_policy (auth_config (mgr w'))) (sessions (mgr w')).
Proof.
  intros H Hchanged. unfold reload_config in H.
  destruct (reload_body source w) as [[[] | e] w1] eqn:Hbody;
    [| destruct e; discriminate H].
  injection H as <-.
  unfold reload_body in Hbody.
  destruct (get_config_dict source) as [cfg_dict | e]; [| discriminate Hbody].
  rewrite (@bind_lift_ok _ _ (Ok _) _ _ _ eq_refl), bind_get_mgr in Hbody.
  destruct (py_get cfg_dict "max_run_count" JNull) as [new_max | e];
    [| discriminate Hbody].
  rewrite (@bind_lift_ok _ _ (Ok _) _ _ _ eq_refl), bind_if_modify_mgr in Hbody.
  destruct (py_get cfg_dict "store" (JDict [])) as [new_store | e];
    [| discriminate Hbody].
  rewrite (@bind_lift_ok _ _ (Ok _) _ _ _ eq_refl), bind_if_modify_mgr, bind_get_mgr
    in Hbody.
  cbn [mgr db] in Hbody.
  match type of Hbody with
  | context [update_auth_fields _ _ (auth_config ?m) false] =>
      assert (Hsame : auth_config m = auth_config (mgr w))
        by (repeat match goal with |- context [if ?c then _ else _] => destruct c end;
            reflexivity);
      remember m as m1 eqn:Hm1
  end.
  clear Hm1. rewrite Hsame in Hbody.
  destruct (update_auth_fields cfg_dict auth_fields_to_update (auth_config (mgr w)) false)
    as [[config update_sessions] | e] eqn:Hfields; [| discriminate Hbody].
  rewrite (@bind_lift_ok _ _ (Ok _) _ _ _ eq_refl) in Hbody. cbv beta iota in Hbody.
  rewrite bind_put_mgr in Hbody.
  destruct update_sessions.
  - rewrite bind_get_mgr in Hbody. cbn [mgr db] in Hbody.
    assert (Hc : forall c m, auth_config (set_auth_config c m) = c) by reflexivity.
    assert (Hs : forall c m, sessions (set_auth_config c m) = sessions m) by reflexivity.
    rewrite Hc, Hs in Hbody.
    destruct (adopt_policy config (sessions m1)) as [l r] eqn:Hadopt.
    rewrite bind_put_mgr in Hbody. unfold lift in Hbody.
    injection Hbody as -> <-. cbn [mgr db sessions auth_config].
    apply (adopt_policy_carried _ _ Hadopt).
  - apply update_auth_fields_unchanged in Hfields. subst config.
    injection Hbody as <-. exfalso. apply Hchanged. reflexivity.
Qed.

Lemma reload_config_reaches_existing_sessions_witness :
  Forall (fun s => session_lifetime s = 600 /\ refresh_time s = Some 120)
         (sessions (mgr (snd (reload_config (Some Cases.new_policy)
                                (Samples.prune_world 0)))))
  /\ Forall (carries_policy
               (auth_config (mgr (snd (reload_config (Some Cases.new_policy)
                                         (Samples.prune_world 0))))))
            (sessions (mgr (snd (reload_config (Some Cases.new_policy)
                                   (Samples.prune_world 0))))).
Proof.
  split; [vm_compute; repeat constructor |].
  apply (@reload_config_reaches_existing_sessions (Some Cases.new_policy)
           (Samples.prune_world 0)
           (snd (reload_config (Some Cases.new_policy) (Samples.prune_world 0)))).
  - vm_compute. reflexivity.
  - vm_compute. discriminate.
Defined.

Lemma is_root_user_keeps_the_worker (env : Env) (user_name : string) (w : World) :
  mgr (snd (is_root_user env user_name w)) = mgr w.
Proof.
  eapply (@is_root_user_preserves env (fun w' => mgr w' = mgr w));
    [apply worker_kept_by_transaction | reflexivity].
Qed.

Lemma create_local_session_policy (env : Env) (now : Z) (tok user_name : string)
    (grps : list string) (root : bool) (accessed : option Z) (w w' : World)
    (s : Session) :
  create_local_session env now tok user_name grps root accessed w = (Ok s, w') ->
  refresh_time s = granted_refresh_time (configured_refresh_time (mgr w))
  /\ dict_get "session_lifetime" (auth_config (mgr w)) <> None
  /\ rbind (dict_index "session_lifetime" (auth_config (mgr w))) as_num
     = Ok (session_lifetime s).
Proof.
  unfold create_local_session. intros H.
  apply bind_ok in H as (root' & w1 & Hroot & H).
  assert (Hm : mgr w1 = mgr w).
  { destruct (negb root).
    - pose proof (is_root_user_keeps_the_worker env user_name w) as Hk.
      now rewrite Hroot in Hk.
    - now injection Hroot as _ <-. }
  rewrite bind_get_mgr, Hm in H.
  apply bind_ok in H as (lifetime_value & w2 & Hl & H).
  apply lift_ok in Hl as [Hl ->].
  apply bind_ok in H as (lifetime & w3 & Hn & H).
  apply lift_ok in Hn as [Hn ->].
  unfold granted_refresh_time.
  assert (Hlife : dict_get "session_lifetime" (auth_config (mgr w)) <> None
                  /\ rbind (dict_index "session_lifetime" (auth_config (mgr w))) as_num
                     = Ok lifetime).
  { rewrite Hl. simpl. split; [| exact Hn].
    unfold dict_index in Hl.
    destruct (dict_get "session_lifetime" (auth_config (mgr w))); [discriminate | discriminate Hl]. }
  destruct (truthy (configured_refresh_time (mgr w))).
  - apply bind_ok in H as (refresh & w4 & Hr & H).
    apply bind_ok in Hr as (r & w5 & Hr1 & Hr2).
    apply lift_ok in Hr1 as [Hr1 ->]. injection Hr2 as <- <-.
    injection H as <- _. rewrite Hr1. simpl. exact (conj eq_refl Hlife).
  - rewrite (@bind_lift_ok _ _ _ _ _ _ eq_refl) in H || idtac.
    apply bind_ok in H as (refresh & w4 & Hr & H).
    injection Hr as <- <-. injection H as <- _. simpl. exact (conj eq_refl Hlife).
Qed.

(** X21.  A reload does not reach the sessions to come: the refresh time
    [__create_local_session] gives a session is the one the constructor
    read, which [reload_config] never writes.  A session created after a
    reload gets the refresh time it would have got before it, even where the
    sessions that existed have just been given a new one. *)
Theorem reload_config_misses_new_sessions (env : Env) (source : option json) (now : Z)
    (tok user_name : string) (grps : list string) (root : bool) (accessed : option Z)
    (w w1 w2 : World) (before after : Session) :
  create_local_session env now tok user_name grps root accessed w = (Ok before, w1) ->
  create_local_session env now tok user_name grps root accessed
    (snd (reload_config source w)) = (Ok after, w2) ->
  refresh_time after = refresh_time before.
Proof.
  intros Hbefore Hafter.
  apply create_local_session_policy in Hbefore as [-> _].
  apply create_local_session_policy in Hafter as [-> _].
  pose proof (reload_body_policy_only source w) as (_ & _ & _ & Hkept & _).
  unfold reload_config.
  destruct (reload_body source w) as [[u | []] w']; simpl in *; now rewrite Hkept.
Qed.

Lemma reload_config_misses_new_sessions_witness :
  refresh_time
    (new_session 1000 "f00d" "alice" [] 600 (Some 60) false true None)
  = refresh_time (new_session 1000 "f00d" "alice" [] 300 (Some 60) false true None).
Proof.
  apply (@reload_config_misses_new_sessions Reference.env (Some Cases.new_policy) 1000
           "f00d" "alice" [] false None (Samples.prune_world 0)
           (snd (create_local_session Reference.env 1000 "f00d" "alice" [] false None
                   (Samples.prune_world 0)))
           (snd (create_local_session Reference.env 1000 "f00d" "alice" [] false None
                   (snd (reload_config (Some Cases.new_policy)
                           (Samples.prune_world 0)))))
           (new_session 1000 "f00d" "alice" [] 300 (Some 60) false true None)
           (new_session 1000 "f00d" "alice" [] 600 (Some 60) false true None));
    vm_compute; reflexivity.
Defined.

(** ** Preparing the providers *)

Lemma enabled_whatever_the_default (v e : json) (default default' : json) :
  py_get v "enabled" default = Ok e ->
  truthy e = true ->
  truthy default = false ->
  py_get v "enabled" default' = Ok e.
Proof.
  unfold py_get. destruct v as [| | | | | d]; try discriminate.
  destruct (dict_get "enabled" d); [tauto |].
  intros H Ht Hd. injection H as <-. congruence.
Qed.

Section Prepared.

Variable env : Env.
Variable shared_variables : json.

Lemma apply_template_never_enables (name : string) (pv pv' e' : json) :
  apply_template env shared_variables name pv = Ok pv' ->
  py_get pv' "enabled" (JBool false) = Ok e' ->
  truthy e' = true ->
  exists e, py_get pv "enabled" (JBool false) = Ok e /\ truthy e = true.
Proof.
  unfold apply_template. intros H He' Ht.
  destruct (py_get pv "enabled" JNull) as [enabled |] eqn:He; [| discriminate H].
  cbn [rbind] in H.
  destruct (truthy enabled) eqn:Hen; cbn [negb] in H.
  - exists enabled. split; [| exact Hen].
    now apply (@enabled_whatever_the_default pv enabled JNull (JBool false)).
  - injection H as <-. now exists e'.
Qed.

Lemma apply_template_readable (name : string) (pv pv' : json) :
  apply_template env shared_variables name pv = Ok pv' ->
  exists e, py_get pv "enabled" (JBool false) = Ok e.
Proof.
  unfold apply_template, py_get. destruct pv as [| | | | | d]; try discriminate.
  intros _. now eexists.
Qed.

Lemma apply_templates_never_enable (providers : dict) :
  forall providers' names',
    apply_templates env shared_variables providers = Ok providers' ->
    enabled_names providers' = Ok names' ->
    exists names, enabled_names providers = Ok names /\ incl names' names.
Proof.
  induction providers as [| [k pv] rest IH]; simpl; intros providers' names' H Hn.
  - injection H as <-. simpl in Hn. injection Hn as <-.
    exists []. split; [reflexivity | apply incl_refl].
  - destruct (apply_template env shared_variables k pv) as [p |] eqn:Hp; simpl in H;
      [| discriminate].
    destruct (apply_templates env shared_variables rest) as [rest' |]; simpl in H;
      [| discriminate].
    injection H as <-. simpl in Hn.
    destruct (py_get p "enabled" (JBool false)) as [e' |] eqn:He'; simpl in Hn;
      [| discriminate].
    destruct (enabled_names rest') as [names0' |] eqn:Hrest'; simpl in Hn;
      [| discriminate].
    injection Hn as <-.
    destruct (IH rest' names0' eq_refl Hrest') as (names0 & Hrest & Hincl).
    destruct (apply_template_readable _ _ Hp) as (e & He).
    rewrite He, Hrest. simpl. eexists. split; [reflexivity |].
    destruct (truthy e') eqn:Ht'.
    + destruct (apply_template_never_enables _ _ Hp He' Ht') as (e0 & He0 & Ht0).
      rewrite He in He0. injection He0 as ->. rewrite Ht0.
      intros x [<- | Hx]; [now left | right; now apply Hincl].
    + destruct (truthy e); [apply incl_tl |]; exact Hincl.
Qed.

End Prepared.

(** X22.  Preparing the providers never switches one on: every provider
    [get_oauth_providers] lists after [__oauth_apply_templates] was listed
    before it. *)
Theorem templates_never_enable_a_provider (env : Env) (m : SessionManager)
    (config' : dict) (names' : list string) :
  oauth_apply_templates env (auth_config m) = Ok config' ->
  get_oauth_providers (set_auth_config config' m) = Ok names' ->
  exists names, get_oauth_providers m = Ok names /\ incl names' names.
Proof.
  unfold oauth_apply_templates, get_oauth_providers.
  assert (Hc : forall c m, auth_config (set_auth_config c m) = c) by reflexivity.
  rewrite Hc. intros H Hn.
  assert (Hsame : config' = auth_config m ->
                  exists names, rbind (oauth_providers_of (auth_config m)) enabled_names
                                = Ok names /\ incl names' names).
  { intros <-. exists names'. split; [exact Hn | apply incl_refl]. }
  destruct (dict_get "method_oauth" (auth_config m)) as [method_oauth |] eqn:Hm;
    [| injection H as <-; now apply Hsame].
  destruct method_oauth as [| | | | | oauth]; try discriminate H.
  cbn [py_get rbind] in H.
  destruct (match dict_get "providers" oauth with
            | Some x => x
            | None => JDict []
            end) as [| | | | | providers] eqn:Hp; try discriminate H.
  cbn [as_dict rbind] in H.
  destruct (apply_templates env _ providers) as [providers' |] eqn:Ht;
    [| discriminate H].
  cbn [rbind] in H. injection H as <-.
  rewrite (providers_read _ Hm Hp).
  destruct providers as [| first rest] eqn:Hproviders.
  { rewrite <- (providers_read _ Hm Hp). now apply Hsame. }
  rewrite providers_written in Hn. rewrite <- Hproviders in *.
  cbn [rbind] in *.
  eapply apply_templates_never_enable; eassumption.
Qed.

Lemma templates_never_enable_a_provider_witness :
  get_oauth_providers
    (set_auth_config Samples.prepared_test_config
       (Samples.manager false (Samples.oauth_section Samples.test_providers)))
  = Ok ["github"]
  /\ exists names,
       get_oauth_providers
         (Samples.manager false (Samples.oauth_section Samples.test_providers))
       = Ok names
       /\ incl ["github"] names.
Proof.
  split; [vm_compute; reflexivity |].
  apply (@templates_never_enable_a_provider Reference.env
           (Samples.manager false (Samples.oauth_section Samples.test_providers))
           Samples.prepared_test_config ["github"]);
    vm_compute; reflexivity.
Defined.

(** ** The dictionary of credentials *)

Lemma first_part_is_the_name (s : string) :
  nth 0 (split colon 1 s) EmptyString = first_part s.
Proof. unfold first_part. now destruct (split colon 1 s). Qed.

Lemma try_auth_dictionary_decides (env : Env) (method_config : dict)
    (auths : list string) (auth_string : string) (w : World) :
  dictionary_ready env method_config auths w ->
  try_auth_dictionary env auth_string w
  = match filter (fun auth => String.eqb (first_part auth) (first_part auth_string))
                 auths with
    | [] => (Ok PFalse, w)
    | saved_auth_string :: _ =>
        match check_password env saved_auth_string auth_string
                (split colon 1 auth_string) with
        | Ok true =>
            match dictionary_groups method_config (first_part auth_string) with
            | Ok group_list =>
                (update_personal_access_token_groups (first_part auth_string) group_list ;;
                 ret (PVal {| v_username := first_part auth_string;
                              v_groups := Some group_list |})) w
            | Raise e => (Raise e, w)
            end
        | Ok false => (Ok PFalse, w)
        | Raise e => (Raise e, w)
        end
    end.
Proof.
  intros (Hm & Hsup & Hen & Hauths).
  unfold try_auth_dictionary. rewrite bind_get_mgr, Hm.
  assert (Hfull : truthy (JDict method_config) = true).
  { destruct method_config; [discriminate Hen | reflexivity]. }
  rewrite Hfull. cbn [negb].
  unfold is_method_enabled. rewrite bind_assoc, bind_get_mgr, Hsup.
  change ("method_" ++ "dictionary")%string with "method_dictionary".
  rewrite Hm, bind_assoc.
  rewrite (@bind_lift_ok _ _ (py_get (JDict method_config) "enabled" JNull) _ _ _ eq_refl).
  unfold bind at 1, ret at 1. cbv beta iota. rewrite Hen. cbn [negb].
  rewrite first_part_is_the_name.
  destruct (py_get (JDict method_config) "auths" JNull) as [auths_value |] eqn:Hv;
    [| discriminate Hauths].
  cbn [rbind] in Hauths.
  rewrite (@bind_lift_ok _ _ (Ok auths_value) _ _ _ eq_refl).
  rewrite (bind_lift_ok _ _ Hauths).
  destruct (filter _ auths) as [| saved others]; [reflexivity |].
  destruct (check_password env saved auth_string (split colon 1 auth_string))
    as [[] | e]; [| reflexivity | reflexivity].
  rewrite (@bind_lift_ok _ _ (Ok true) _ _ _ eq_refl). cbn [negb].
  rewrite (@bind_lift_ok _ _ (as_dict (JDict method_config)) _ _ _ eq_refl).
  unfold dictionary_groups.
  destruct (dict_get "groups" method_config) as [all_groups |]; [| reflexivity].
  rewrite bind_assoc.
  destruct (as_dict all_groups) as [by_user | e]; [| reflexivity].
  rewrite (@bind_lift_ok _ _ (Ok by_user) _ _ _ eq_refl). cbn [rbind].
  destruct (dict_get (first_part auth_string) by_user) as [l |]; [| reflexivity].
  destruct (as_str_list l); reflexivity.
Qed.

Lemma filter_first (A : Type) (f : A -> bool) (before after : list A) (a : A) :
  Forall (fun x => f x = false) before -> f a = true ->
  exists others, filter f (before ++ a :: after) = a :: others.
Proof.
  intros Hbefore Ha. induction Hbefore as [| x rest Hx _ IH]; simpl.
  - rewrite Ha. now eexists.
  - rewrite Hx. exact IH.
Qed.

(** X23.  Only the first entry of a user counts.  When the first entry of
    the list that bears the user's name does not match the credential, the
    dictionary rejects it and changes nothing, whatever the entries after it
    hold, be it the credential itself. *)
Theorem only_the_first_entry_of_a_user_counts (env : Env) (method_config : dict)
    (before after : list string) (saved_auth_string auth_string : string) (w : World) :
  dictionary_ready env method_config (before ++ saved_auth_string :: after) w ->
  Forall (fun auth => String.eqb (first_part auth) (first_part auth_string) = false)
         before ->
  first_part saved_auth_string = first_part auth_string ->
  check_password env saved_auth_string auth_string (split colon 1 auth_string)
  = Ok false ->
  try_auth_dictionary env auth_string w = (Ok PFalse, w).
Proof.
  intros Hready Hbefore Hname Hcheck.
  rewrite (try_auth_dictionary_decides auth_string Hready).
  destruct (@filter_first _
              (fun auth => String.eqb (first_part auth) (first_part auth_string))
              before after saved_auth_string Hbefore) as (others & ->).
  - rewrite Hname. apply String.eqb_refl.
  - now rewrite Hcheck.
Qed.

(** X24.  The stored entry is itself a password.  Whoever presents, as the
    credential, the first entry the list holds for a user is accepted as
    that user with the user's groups, whatever digest the entry names: the
    entry is compared with the credential before any digest is computed. *)
Theorem stored_entry_is_itself_a_password (env : Env) (method_config : dict)
    (before after : list string) (saved_auth_string : string)
    (group_list : list string) (w : World) :
  dictionary_ready env method_config (before ++ saved_auth_string :: after) w ->
  Forall (fun auth => String.eqb (first_part auth) (first_part saved_auth_string) = false)
         before ->
  dictionary_groups method_config (first_part saved_auth_string) = Ok group_list ->
  fst (try_auth_dictionary env saved_auth_string w)
  = Ok (PVal {| v_username := first_part saved_auth_string;
                v_groups := Some group_list |}).
Proof.
  intros Hready Hbefore Hgroups.
  rewrite (try_auth_dictionary_decides saved_auth_string Hready).
  destruct (@filter_first _
              (fun auth => String.eqb (first_part auth) (first_part saved_auth_string))
              before after saved_auth_string Hbefore) as (others & ->).
  - apply String.eqb_refl.
  - unfold check_password. rewrite String.eqb_refl, Hgroups.
    unfold bind, ret.
    pose proof (update_personal_access_token_groups_returns
                  (first_part saved_auth_string) group_list w) as H.
    destruct (update_personal_access_token_groups _ _ w) as [[[] | e] w1];
      [reflexivity | discriminate H].
Qed.

Lemma only_the_first_entry_of_a_user_counts_witness :
  In "alice:secret" ["alice:wrong"; "alice:secret"]
  /\ try_auth_dictionary Reference.env "alice:secret" Cases.two_entries_world
     = (Ok PFalse, Cases.two_entries_world).
Proof.
  split; [right; now left |].
  apply (@only_the_first_entry_of_a_user_counts Reference.env Cases.two_entries
           [] ["alice:secret"] "alice:wrong" "alice:secret" Cases.two_entries_world).
  - unfold dictionary_ready.
    split; [reflexivity |]. split; [reflexivity |]. split; reflexivity.
  - constructor.
  - reflexivity.
  - vm_compute. reflexivity.
Defined.

Lemma stored_entry_is_itself_a_password_witness :
  fst (try_auth_dictionary Reference.env (Samples.alice_entry Samples.password_digest)
         (Samples.dictionary_world Samples.password_digest Samples.empty_database))
  = Ok (PVal {| v_username := first_part (Samples.alice_entry Samples.password_digest);
                v_groups := Some [] |}).
Proof.
  apply (@stored_entry_is_itself_a_password Reference.env
           [("enabled", JBool true);
            ("auths", JList [JStr (Samples.alice_entry Samples.password_digest)])]
           [] [] (Samples.alice_entry Samples.password_digest) []
           (Samples.dictionary_world Samples.password_digest Samples.empty_database)).
  - unfold dictionary_ready.
    split; [reflexivity |]. split; [reflexivity |]. split; reflexivity.
  - constructor.
  - reflexivity.
Defined.

(** ** What the token validators accept *)

Lemma split_once_parts (sep : ascii) (s : string) :
  forall a b, split sep 1 s = [a; b] -> s = (a ++ String sep b)%string.
Proof.
  induction s as [| c rest IH]; simpl; intros a b H; [discriminate |].
  destruct (Ascii.eqb_spec c sep) as [-> | Hne].
  - rewrite split_zero in H. now injection H as <- <-.
  - destruct (split sep 1 rest) as [| hd tl]; [discriminate |].
    injection H as <- ->. simpl. f_equal. now apply IH.
Qed.

Lemma unpack2_parts (auth_string user_name tok : string) :
  unpack2 (split colon 1 auth_string) = Ok (user_name, tok) ->
  auth_string = (user_name ++ ":" ++ tok)%string.
Proof.
  unfold unpack2. intros H.
  destruct (split colon 1 auth_string) as [| a [| b [| c l]]] eqn:Hs; try discriminate.
  injection H as <- <-. now apply (@split_once_parts colon).
Qed.

Lemma transaction_keeps_tables (w w' : World) (u : unit) :
  transaction w = (Ok u, w') -> tables (db w') = tables (db w).
Proof.
  unfold transaction, begin_transaction, tables.
  destruct (faults (db w)) as [| [] fs]; intros H; try discriminate;
    injection H as _ <-; reflexivity.
Qed.

Lemma try_except_ok (A : Type) (body : M A) (handler : exn -> M A) (w w' : World)
    (a : A) :
  try_except body handler w = (Ok a, w') ->
  body w = (Ok a, w') \/ exists e w1, body w = (Raise e, w1) /\ handler e w1 = (Ok a, w').
Proof.
  unfold try_except. destruct (body w) as [[x | e] w1]; intros H.
  - now left.
  - right. now exists e, w1.
Qed.

(** X25.  A personal access token is accepted only from the table and
    only in time: when [__try_personal_access_token] hands back an identity,
    the credential is the user name and the token of a row of the table, the
    row has not expired, and the identity is the user of the row with the
    groups of the row. *)
Theorem personal_access_token_comes_from_the_table (now : Z) (auth_string : string)
    (w : World) (v : Validation) :
  fst (try_personal_access_token now auth_string w) = Ok (PVal v) ->
  exists p,
    In p (personal_access_tokens (db w))
    /\ auth_string = (pat_user_name p ++ ":" ++ pat_token p)%string
    /\ now <= pat_expiration p
    /\ v_username v = pat_user_name p
    /\ v_groups v = Some (split_all semicolon (py_str (pat_groups p))).
Proof.
  intros H.
  destruct (try_personal_access_token now auth_string w) as [r w'] eqn:Hrun.
  simpl in H. subst r. unfold try_personal_access_token in Hrun.
  rewrite bind_get_mgr in Hrun.
  destruct (negb (database_connection (mgr w))); [discriminate Hrun |].
  apply bind_ok in Hrun as ([user_name tok] & w0 & Hsplit & Hrun).
  apply lift_ok in Hsplit as [Hsplit ->].
  apply unpack2_parts in Hsplit.
  apply bind_ok in Hrun as (found & w1 & Hquery & Hrun).
  apply try_except_ok in Hquery as [Hquery | (e & w2 & _ & Hhandler)].
  - apply bind_ok in Hquery as ([] & w2 & Htx & Hquery).
    apply transaction_keeps_tables in Htx.
    unfold bind, get_db, ret in Hquery. injection Hquery as <- <-.
    destruct (find _ (personal_access_tokens (db w2))) as [p |] eqn:Hfind;
      [| discriminate Hrun].
    destruct (pat_expiration p <? now) eqn:Hexp; [discriminate Hrun |].
    injection Hrun as <- _.
    apply find_some in Hfind as [Hin Hmatch].
    apply andb_true_iff in Hmatch as [Hu Ht].
    apply String.eqb_eq in Hu, Ht. subst user_name tok.
    exists p. unfold tables in Htx.
    assert (Hpats : personal_access_tokens (db w2) = personal_access_tokens (db w))
      by congruence.
    rewrite Hpats in Hin.
    repeat split; try assumption; try reflexivity.
    apply Z.ltb_ge in Hexp. exact Hexp.
  - injection Hhandler as <- <-. discriminate Hrun.
Qed.

(** X26.  A bearer token is accepted only from the table of sessions:
    when [__try_auth_token] hands back a token, the credential is the user
    name and the token of a row of the table, and the token handed back is
    the one of the row. *)
Theorem bearer_token_comes_from_the_table (auth_string : string) (w : World)
    (tok : string) :
  fst (try_auth_token auth_string w) = Ok (PVal tok) ->
  exists r,
    In r (session_records (db w))
    /\ auth_string = (rec_user_name r ++ ":" ++ rec_token r)%string
    /\ tok = rec_token r.
Proof.
  intros H.
  destruct (try_auth_token auth_string w) as [r w'] eqn:Hrun.
  simpl in H. subst r. unfold try_auth_token in Hrun.
  rewrite bind_get_mgr in Hrun.
  destruct (negb (database_connection (mgr w))); [discriminate Hrun |].
  apply bind_ok in Hrun as ([user_name tok0] & w0 & Hsplit & Hrun).
  apply lift_ok in Hsplit as [Hsplit ->].
  apply unpack2_parts in Hsplit.
  apply try_except_ok in Hrun as [Hquery | (e & w2 & _ & Hhandler)].
  - apply bind_ok in Hquery as ([] & w2 & Htx & Hquery).
    apply transaction_keeps_tables in Htx.
    unfold bind, get_db in Hquery. cbv beta iota in Hquery.
    destruct (find _ (session_records (db w2))) as [r |] eqn:Hfind;
      [| discriminate Hquery].
    injection Hquery as <- _.
    apply find_some in Hfind as [Hin Hmatch].
    apply andb_true_iff in Hmatch as [Hu Ht].
    apply String.eqb_eq in Hu, Ht. subst user_name tok0.
    exists r. unfold tables in Htx.
    assert (Hrows : session_records (db w2) = session_records (db w)) by congruence.
    rewrite Hrows in Hin. now repeat split.
  - discriminate Hhandler.
Qed.

Lemma personal_access_token_comes_from_the_table_witness :
  fst (try_personal_access_token 1000 "carol:c0ffee" Cases.token_world)
  = Ok (PVal {| v_username := "carol"; v_groups := Some ["dev"; "ops"] |})
  /\ exists p,
       In p (personal_access_tokens (db Cases.token_world))
       /\ "carol:c0ffee" = (pat_user_name p ++ ":" ++ pat_token p)%string
       /\ 1000 <= pat_expiration p
       /\ "carol" = pat_user_name p
       /\ Some ["dev"; "ops"] = Some (split_all semicolon (py_str (pat_groups p))).
Proof.
  split; [vm_compute; reflexivity |].
  apply (@personal_access_token_comes_from_the_table 1000 "carol:c0ffee"
           Cases.token_world
           {| v_username := "carol"; v_groups := Some ["dev"; "ops"] |}).
  vm_compute. reflexivity.
Defined.

Lemma bearer_token_comes_from_the_table_witness :
  exists r,
    In r (session_records (db Cases.token_world))
    /\ "ann:t-ann" = (rec_user_name r ++ ":" ++ rec_token r)%string
    /\ "t-ann" = rec_token r.
Proof.
  apply (@bearer_token_comes_from_the_table "ann:t-ann" Cases.token_world "t-ann").
  vm_compute. reflexivity.
Defined.

(** ** Logging in through a provider *)

Lemma is_method_enabled_reads (env : Env) (method : string) (w w' : World)
    (r : result bool) :
  is_method_enabled env method w = (r, w') -> w' = w.
Proof.
  unfold is_method_enabled. rewrite bind_get_mgr.
  destruct (in_strings method (UNSUPPORTED_METHODS env)); [now intros [= _ <-] |].
  destruct (dict_get _ (auth_config (mgr w))) as [cfg |]; [| now intros [= _ <-]].
  unfold bind, lift, ret. destruct (py_get cfg "enabled" JNull); now intros [= _ <-].
Qed.

Lemma update_personal_access_token_groups_answered (user_name : string)
    (grps : list string) (w : World) :
  database_connection (mgr w) = true ->
  faults (db w) = [] ->
  exists pats,
    update_personal_access_token_groups user_name grps w
    = (Ok tt, {| mgr := mgr w; db := set_personal_access_tokens pats (db w) |}).
Proof.
  intros Hc Hf. unfold update_personal_access_token_groups.
  rewrite bind_get_mgr, Hc. cbn [negb].
  unfold try_except, bind, transaction, begin_transaction, modify_db. rewrite Hf.
  cbn [mgr db]. now eexists.
Qed.

Lemma find_in_appended (A : Type) (f : A -> bool) (l : list A) (a : A) :
  f a = true -> exists r, find f (l ++ [a]) = Some r /\ In r (l ++ [a]) /\ f r = true.
Proof.
  intros Ha.
  destruct (find f (l ++ [a])) as [r |] eqn:Hfind.
  - exists r. split; [reflexivity |]. now apply find_some in Hfind.
  - exfalso. pose proof (find_none _ _ Hfind a) as Hnone.
    rewrite Hnone in Ha; [discriminate |]. apply in_or_app. right. now left.
Qed.

(** X27.  A login through a provider is stored with its tokens.  When
    [create_session_oauth] returns a session on a worker whose store
    answers, the session bears the fresh token, the user and the groups
    given, and stands in the worker's list; the table of sessions has gained
    one row, for that token and user; and the table of OAuth tokens has
    gained one row, with the access token, its expiry and the refresh token,
    attached to a session row of that user. *)
Theorem oauth_login_is_stored_with_its_tokens (env : Env) (now : Z)
    (fresh provider username access : string) (expires : Z) (refresh : string)
    (grps : option (list string)) (w w' : World) (s : Session) :
  create_session_oauth env now fresh provider username access expires refresh grps w
  = (Ok (PVal s), w') ->
  database_connection (mgr w) = true ->
  faults (db w) = [] ->
  token s = fresh
  /\ user s = username
  /\ groups s = match grps with Some g => g | None => [] end
  /\ In s (sessions (mgr w'))
  /\ session_records (db w')
     = session_records (db w)
       ++ [{| rec_id := next_session_id (db w);
              rec_token := fresh;
              rec_user_name := username;
              rec_groups := Some (join ";" match grps with Some g => g | None => [] end);
              rec_last_access := now |}]
  /\ exists r,
       In r (session_records (db w'))
       /\ rec_user_name r = username
       /\ oauth_tokens (db w')
          = oauth_tokens (db w)
            ++ [{| access_token := access;
                   expires_at := expires;
                   refresh_token := refresh;
                   auth_session_id := rec_id r |}].
Proof.
  intros H Hconn Hfaults.
  assert (Hans : answering_store (auth_config (mgr w)) (configured_refresh_time (mgr w))
                   (system_permissions (db w)) w).
  { unfold answering_store.
    split; [exact Hconn |]. split; [reflexivity |]. split; [reflexivity |].
    split; [exact Hfaults | reflexivity]. }
  unfold create_session_oauth in H.
  apply bind_ok in H as (enabled & w0 & Hen & H).
  apply is_method_enabled_reads in Hen. subst w0.
  destruct (negb enabled); [discriminate H |].
  rewrite bind_get_mgr in H.
  apply bind_ok in H as (method_oauth & w0 & Hl & H). apply lift_ok in Hl as [_ ->].
  apply bind_ok in H as (providers_value & w0 & Hl & H). apply lift_ok in Hl as [_ ->].
  apply bind_ok in H as (providers & w0 & Hl & H). apply lift_ok in Hl as [_ ->].
  destruct (dict_get provider providers) as [provider_cfg |]; [| discriminate H].
  apply bind_ok in H as (provider_enabled & w0 & Hl & H). apply lift_ok in Hl as [_ ->].
  destruct (negb (truthy provider_enabled)); [discriminate H |].
  apply bind_ok in H as (local_session & w1 & Hcreate & H).
  rewrite (create_local_session_answered env now fresh username _ false None Hans)
    in Hcreate.
  injection Hcreate as Hsession <-.
  assert (Hid : token local_session = fresh /\ user local_session = username
                /\ groups local_session = match grps with Some g => g | None => [] end).
  { destruct (rbind (dict_index "session_lifetime" (auth_config (mgr w))) as_num)
      as [lifetime |]; [| discriminate Hsession].
    cbn [rbind] in Hsession.
    destruct (if truthy (configured_refresh_time (mgr w))
              then rbind (as_num (configured_refresh_time (mgr w)))
                         (fun r => Ok (Some r))
              else Ok None) as [rf |]; [| discriminate Hsession].
    cbn [rbind] in Hsession. injection Hsession as <-. now repeat split. }
  unfold append_session in H. rewrite bind_modify_mgr in H.
  apply bind_ok in H as ([] & w2 & Hupdate & H).
  destruct (@update_personal_access_token_groups_answered username
              match grps with Some g => g | None => [] end
              {| mgr := set_sessions (sessions (mgr w) ++ [local_session]) (mgr w);
                 db := db w |} Hconn Hfaults) as (pats & Hpats).
  rewrite Hpats in Hupdate. injection Hupdate as <-.
  rewrite bind_get_mgr in H. cbn [mgr db] in H.
  assert (Hconn' : forall l m, database_connection (set_sessions l m)
                               = database_connection m) by reflexivity.
  rewrite Hconn', Hconn in H.
  apply bind_ok in H as ([] & w3 & Hstore & H).
  injection H as <- <-.
  unfold try_except, bind at 1, transaction, begin_transaction in Hstore.
  cbn [mgr db] in Hstore.
  assert (Hf' : forall p d, faults (set_personal_access_tokens p d) = faults d)
    by reflexivity.
  rewrite Hf', Hfaults in Hstore. cbv beta iota in Hstore.
  unfold bind at 1, modify_db at 1 in Hstore. cbn [mgr db] in Hstore.
  unfold bind at 1, get_db at 1 in Hstore. cbn [mgr db] in Hstore.
  match type of Hstore with
  | context [find ?f (session_records (add_session_record ?n ?t ?u ?g ?d))] =>
      change (session_records (add_session_record n t u g d))
        with (session_records (db w)
              ++ [{| rec_id := next_session_id (db w); rec_token := t;
                     rec_user_name := u; rec_groups := Some g;
                     rec_last_access := n |}]) in Hstore;
      destruct (@find_in_appended _ f (session_records (db w))
                  {| rec_id := next_session_id (db w); rec_token := t;
                     rec_user_name := u; rec_groups := Some g;
                     rec_last_access := n |} (String.eqb_refl _))
        as (r & Hfind & Hin & Hr)
  end.
  rewrite Hfind in Hstore. unfold modify_db in Hstore. cbn [mgr db] in Hstore.
  injection Hstore as <-. cbn [mgr db sessions].
  destruct Hid as (Ht & Hu & Hg).
  split; [exact Ht |]. split; [exact Hu |]. split; [exact Hg |].
  split; [apply in_or_app; right; now left |].
  split; [reflexivity |].
  exists r. split; [exact Hin |]. split; [now apply String.eqb_eq in Hr | reflexivity].
Qed.

Lemma oauth_login_is_stored_with_its_tokens_witness :
  session_records
    (db (snd (create_session_oauth Reference.env 1000 "f00d" "github" "dan" "at" 5000
                "rt" (Some ["dev"]) Cases.oauth_world)))
  = [{| rec_id := 1; rec_token := "f00d"; rec_user_name := "dan";
        rec_groups := Some "dev"; rec_last_access := 1000 |}]
  /\ oauth_tokens
       (db (snd (create_session_oauth Reference.env 1000 "f00d" "github" "dan" "at" 5000
                   "rt" (Some ["dev"]) Cases.oauth_world)))
     = [{| access_token := "at"; expires_at := 5000; refresh_token := "rt";
           auth_session_id := 1 |}].
Proof.
  destruct (@oauth_login_is_stored_with_its_tokens Reference.env 1000 "f00d" "github"
              "dan" "at" 5000 "rt" (Some ["dev"]) Cases.oauth_world
              (snd (create_session_oauth Reference.env 1000 "f00d" "github" "dan" "at"
                      5000 "rt" (Some ["dev"]) Cases.oauth_world))
              (new_session 1000 "f00d" "dan" ["dev"] 300 (Some 60) false true None))
    as (_ & _ & _ & _ & Hrows & _).
  - vm_compute. reflexivity.
  - reflexivity.
  - reflexivity.
  - split; [exact Hrows | vm_compute; reflexivity].
Defined.

(** ** A reload agrees with the file *)

Lemma json_eqb_refl : forall a, json_eqb a a = true.
Proof.
  fix IH 1. intros [| b | z | s | l | d]; simpl.
  - reflexivity.
  - now destruct b.
  - apply Z.eqb_refl.
  - apply String.eqb_refl.
  - revert l. fix IHl 1. intros [| u l']; [reflexivity |].
    rewrite (IH u). exact (IHl l').
  - revert d. fix IHd 1. intros [| [k u] d']; [reflexivity |].
    rewrite String.eqb_refl, (IH u). exact (IHd d').
Qed.

Lemma py_eqb_refl (a : json) : py_eqb a a = true.
Proof. apply json_eqb_refl. Qed.

Lemma json_dumps_eqb_refl (a : json) : json_dumps_eqb a a = true.
Proof. apply json_eqb_refl. Qed.

Lemma update_auth_fields_agree (cfg_dict : json) (fields : list string) :
  NoDup fields ->
  forall config b config' b',
    update_auth_fields cfg_dict fields config b = Ok (config', b') ->
    (forall f, ~ In f fields -> dict_get f config' = dict_get f config)
    /\ forall f prev,
         In f fields -> dict_get f config = Some prev ->
         exists authentication new_value v',
           rbind (as_dict cfg_dict) (dict_index "authentication") = Ok authentication
           /\ py_get authentication f (JNum 0) = Ok new_value
           /\ dict_get f config' = Some v'
           /\ py_eqb v' new_value = true.
Proof.
  induction 1 as [| field rest Hnot Hnodup IH]; simpl; intros config b config' b' H.
  - injection H as <- <-. split; [reflexivity | intros f prev []].
  - destruct (dict_get field config) as [prev0 |] eqn:Hprev.
    + destruct (rbind (as_dict cfg_dict) (dict_index "authentication"))
        as [authentication |] eqn:Hauth; simpl in H; [| discriminate].
      destruct (py_get authentication field (JNum 0)) as [new_value |] eqn:Hnew;
        simpl in H; [| discriminate].
      destruct (py_eqb prev0 new_value) eqn:Heq; cbn [negb] in H;
        apply IH in H as [Hout Hin].
      * split.
        -- intros f Hf. apply Hout. intros Hr. apply Hf. now right.
        -- intros f prev [<- | Hf] Hget.
           ++ exists authentication, new_value, prev0.
              rewrite (Hout field Hnot). now repeat split.
           ++ exact (Hin f prev Hf Hget).
      * split.
        -- intros f Hf. rewrite Hout; [| intros Hr; apply Hf; now right].
           apply dict_get_set_ne. intros <-. apply Hf. now left.
        -- intros f prev [<- | Hf] Hget.
           ++ exists authentication, new_value, new_value.
              rewrite (Hout field Hnot), dict_get_set_eq.
              split; [reflexivity |]. split; [exact Hnew |].
              split; [reflexivity | apply py_eqb_refl].
           ++ apply (Hin f prev Hf).
              rewrite dict_get_set_ne; [exact Hget |].
              intros <-. contradiction.
    + apply IH in H as [Hout Hin]. split.
      * intros f Hf. apply Hout. intros Hr. apply Hf. now right.
      * intros f prev [<- | Hf] Hget; [congruence | exact (Hin f prev Hf Hget)].
Qed.

(** X28.  A reload that finishes leaves the worker in agreement with the
    file.  [get_max_run_count] equals, as Python compares, the value of the
    file ([None] when the file has none); the store block prints as the one
    of the file; and each of ['session_lifetime'], ['refresh_time'] and
    ['logins_until_cleanup'] that the configuration held before equals the
    value of the file, or 0 when the file has none. *)
Theorem reload_config_agrees_with_the_file (cfg_dict : json) (w w' : World) :
  reload_config (Some cfg_dict) w = (Ok Reloaded, w') ->
  (exists v, py_get cfg_dict "max_run_count" JNull = Ok v
             /\ py_eqb (get_max_run_count (mgr w')) v = true)
  /\ (exists v, py_get cfg_dict "store" (JDict []) = Ok v
                /\ json_dumps_eqb (store_config (mgr w')) v = true)
  /\ forall field prev,
       In field auth_fields_to_update ->
       dict_get field (auth_config (mgr w)) = Some prev ->
       exists authentication new_value v',
         rbind (as_dict cfg_dict) (dict_index "authentication") = Ok authentication
         /\ py_get authentication field (JNum 0) = Ok new_value
         /\ dict_get field (auth_config (mgr w')) = Some v'
         /\ py_eqb v' new_value = true.
Proof.
  intros H. unfold reload_config in H.
  destruct (reload_body (Some cfg_dict) w) as [[[] | e] w1] eqn:Hbody;
    [| destruct e; discriminate H].
  injection H as <-.
  unfold reload_body, get_config_dict, load_json in Hbody.
  destruct (negb (py_eqb cfg_dict (JDict []))); [| discriminate Hbody].
  rewrite (@bind_lift_ok _ _ (Ok _) _ _ _ eq_refl), bind_get_mgr in Hbody.
  destruct (py_get cfg_dict "max_run_count" JNull) as [new_max | e];
    [| discriminate Hbody].
  rewrite (@bind_lift_ok _ _ (Ok _) _ _ _ eq_refl), bind_if_modify_mgr in Hbody.
  destruct (py_get cfg_dict "store" (JDict [])) as [new_store | e];
    [| discriminate Hbody].
  rewrite (@bind_lift_ok _ _ (Ok _) _ _ _ eq_refl), bind_if_modify_mgr, bind_get_mgr
    in Hbody.
  cbn [mgr db] in Hbody.
  match type of Hbody with
  | context [update_auth_fields _ _ (auth_config ?m) false] =>
      assert (Hsame : auth_config m = auth_config (mgr w))
        by (repeat match goal with |- context [if ?c then _ else _] => destruct c end;
            reflexivity);
      assert (Hmax : py_eqb (max_run_count m) new_max = true)
        by (destruct (json_dumps_eqb (store_config (mgr w)) new_store);
            destruct (py_eqb (max_run_count (mgr w)) new_max) eqn:E;
            first [exact E | apply py_eqb_refl]);
      assert (Hstore : json_dumps_eqb (store_config m) new_store = true)
        by (destruct (py_eqb (max_run_count (mgr w)) new_max);
            destruct (json_dumps_eqb (store_config (mgr w)) new_store) eqn:E;
            first [exact E | apply json_dumps_eqb_refl]);
      remember m as m1 eqn:Hm1
  end.
  clear Hm1. rewrite Hsame in Hbody.
  destruct (update_auth_fields cfg_dict auth_fields_to_update (auth_config (mgr w)) false)
    as [[config update_sessions] | e] eqn:Hfields; [| discriminate Hbody].
  rewrite (@bind_lift_ok _ _ (Ok _) _ _ _ eq_refl) in Hbody. cbv beta iota in Hbody.
  rewrite bind_put_mgr in Hbody.
  assert (Hfinal : max_run_count (mgr w1) = max_run_count m1
                   /\ store_config (mgr w1) = store_config m1
                   /\ auth_config (mgr w1) = config).
  { destruct update_sessions.
    - rewrite bind_get_mgr in Hbody. cbn [mgr db] in Hbody.
      destruct (adopt_policy _ _) as [l r].
      rewrite bind_put_mgr in Hbody. unfold lift in Hbody.
      injection Hbody as _ <-. now repeat split.
    - injection Hbody as <-. now repeat split. }
  destruct Hfinal as (Hm & Hs & Hc).
  unfold get_max_run_count. rewrite Hm, Hs, Hc.
  split; [now exists new_max |]. split; [now exists new_store |].
  apply (@update_auth_fields_agree cfg_dict auth_fields_to_update) in Hfields
    as [_ Hin].
  - exact Hin.
  - unfold auth_fields_to_update. repeat constructor; simpl; intuition discriminate.
Qed.

Lemma reload_config_agrees_with_the_file_witness :
  get_max_run_count
    (mgr (snd (reload_config (Some Cases.new_policy) (Samples.prune_world 0))))
  = JNum 5
  /\ exists v,
       py_get Cases.new_policy "max_run_count" JNull = Ok v
       /\ py_eqb (get_max_run_count
                    (mgr (snd (reload_config (Some Cases.new_policy)
                                 (Samples.prune_world 0))))) v = true.
Proof.
  split; [vm_compute; reflexivity |].
  destruct (@reload_config_agrees_with_the_file Cases.new_policy (Samples.prune_world 0)
              (snd (reload_config (Some Cases.new_policy) (Samples.prune_world 0))))
    as [H _]; [vm_compute; reflexivity | exact H].
Defined.

(** ** The constructor *)

Lemma oauth_apply_templates_keeps_the_rest (env : Env) (config config' : dict)
    (k : string) :
  oauth_apply_templates env config = Ok config' ->
  k <> "method_oauth" ->
  dict_get k config' = dict_get k config.
Proof.
  unfold oauth_apply_templates. intros H Hk.
  destruct (dict_get "method_oauth" config) as [method_oauth |];
    [| now injection H as <-].
  destruct (py_get method_oauth "providers" (JDict [])) as [pv |]; [| discriminate H].
  cbn [rbind] in H.
  destruct (py_get method_oauth "shared_variables" (JDict [])) as [sv |];
    [| discriminate H].
  cbn [rbind] in H.
  destruct (as_dict pv) as [providers |]; [| discriminate H]. cbn [rbind] in H.
  destruct (as_dict method_oauth) as [oauth |]; [| discriminate H]. cbn [rbind] in H.
  destruct (apply_templates env sv providers) as [providers' |]; [| discriminate H].
  cbn [rbind] in H. injection H as <-.
  destruct providers; [reflexivity |].
  apply dict_get_set_ne. congruence.
Qed.

Lemma found_backend_keeps_the_rest (env : Env) (method : string) (config config' : dict)
    (found : bool) (k : string) :
  found_backend env method config = Ok (config', found) ->
  k <> ("method_" ++ method)%string ->
  dict_get k config' = dict_get k config.
Proof.
  unfold found_backend. intros H Hk.
  destruct (dict_get ("method_" ++ method) config) as [mc |];
    [| now injection H as <- _].
  destruct (py_get mc "enabled" JNull) as [e |]; [| discriminate H]. cbn [rbind] in H.
  destruct (negb (truthy e)); [now injection H as <- _ |].
  destruct (negb (in_strings method (UNSUPPORTED_METHODS env)));
    [now injection H as <- _ |].
  destruct (as_mapping mc) as [d |]; [| discriminate H]. cbn [rbind] in H.
  injection H as <- _. apply dict_get_set_ne. intros Heq. apply Hk. now symmetry.
Qed.

Lemma found_backend_found (env : Env) (method : string) (config config' : dict) :
  found_backend env method config = Ok (config', true) ->
  config' = config
  /\ in_strings method (UNSUPPORTED_METHODS env) = false
  /\ switched_on method config.
Proof.
  unfold found_backend, switched_on. intros H.
  destruct (dict_get ("method_" ++ method) config) as [mc |]; [| discriminate H].
  destruct (py_get mc "enabled" JNull) as [e |] eqn:He; [| discriminate H].
  cbn [rbind] in H.
  destruct (truthy e) eqn:Ht; cbn [negb] in H; [| discriminate H].
  destruct (in_strings method (UNSUPPORTED_METHODS env)); cbn [negb] in H.
  - destruct (as_mapping mc); discriminate H.
  - injection H as <-. split; [reflexivity |]. split; [reflexivity |].
    now exists mc, e.
Qed.

Lemma found_dictionary_found (config : dict) :
  found_dictionary config = Ok true -> switched_on "dictionary" config.
Proof.
  unfold found_dictionary, switched_on.
  change ("method_" ++ "dictionary")%string with "method_dictionary".
  destruct (dict_get "method_dictionary" config) as [mc |]; [| discriminate].
  destruct (py_get mc "enabled" JNull) as [e |] eqn:He; [| discriminate].
  cbn [rbind]. intros H. injection H as Ht. now exists mc, e.
Qed.

Lemma apply_template_gives_a_dictionary (env : Env) (shared_variables : json)
    (name : string) (pv pv' : json) :
  apply_template env shared_variables name pv = Ok pv' -> exists d, pv' = JDict d.
Proof.
  unfold apply_template.
  destruct pv as [| | | | | d]; try discriminate. cbn [py_get rbind as_dict].
  destruct (negb _); [intros H; injection H as <-; now eexists |].
  destruct (lookup_template env _) as [template |]; [| discriminate]. cbn [rbind].
  destruct (negb (truthy_opt template)); [intros H; injection H as <-; now eexists |].
  destruct (json_is_str _ "default"); [intros H; injection H as <-; now eexists |].
  destruct (as_dict _) as [defaults |]; [| discriminate]. cbn [rbind].
  destruct (provider_variables _ _ _) as [variables |]; [| discriminate]. cbn [rbind].
  destruct (format_params _ _ _ _ _) as [p |]; [| discriminate]. cbn [rbind].
  intros H. injection H as <-. now eexists.
Qed.

Lemma apply_templates_give_dictionaries (env : Env) (shared_variables : json)
    (providers : dict) :
  forall providers',
    apply_templates env shared_variables providers = Ok providers' ->
    Forall (fun kv => exists d, snd kv = JDict d) providers'.
Proof.
  induction providers as [| [k pv] rest IH]; simpl; intros providers' H.
  - injection H as <-. constructor.
  - destruct (apply_template env shared_variables k pv) as [p |] eqn:Hp; simpl in H;
      [| discriminate].
    destruct (apply_templates env shared_variables rest) as [rest' |]; simpl in H;
      [| discriminate].
    injection H as <-. constructor; [| now apply IH].
    simpl. exact (apply_template_gives_a_dictionary _ _ _ _ Hp).
Qed.

Lemma enabled_names_of_dictionaries (providers : dict) :
  Forall (fun kv => exists d, snd kv = JDict d) providers ->
  exists names, enabled_names providers = Ok names.
Proof.
  induction 1 as [| [k v] rest (d & Hd) _ (names & IH)]; simpl; [now eexists |].
  simpl in Hd. subst v. cbn [py_get rbind]. rewrite IH. cbn [rbind]. now eexists.
Qed.

Lemma some_provider_enabled_listed (providers : dict) (names : list string) :
  some_provider_enabled providers = Ok true ->
  enabled_names providers = Ok names ->
  exists p, In p names.
Proof.
  revert names.
  induction providers as [| [k v] rest IH]; simpl; intros names H Hn; [discriminate |].
  destruct (py_get v "enabled" JNull) as [e |] eqn:He; [| discriminate H].
  cbn [rbind] in H.
  destruct (py_get v "enabled" (JBool false)) as [e' |] eqn:He'; [| discriminate Hn].
  cbn [rbind] in Hn.
  destruct (enabled_names rest) as [names' |]; [| discriminate Hn]. cbn [rbind] in Hn.
  injection Hn as <-.
  destruct (truthy e) eqn:Ht.
  - rewrite (@enabled_whatever_the_default v e JNull (JBool false) He Ht eq_refl) in He'.
    injection He' as <-. rewrite Ht. exists k. now left.
  - destruct (IH names' H eq_refl) as (p & Hp).
    exists p. destruct (truthy e'); [now right | exact Hp].
Qed.

Lemma oauth_apply_templates_prepared (env : Env) (config config' : dict)
    (providers : dict) :
  oauth_apply_templates env config = Ok config' ->
  oauth_providers_of config' = Ok providers ->
  Forall (fun kv => exists d, snd kv = JDict d) providers.
Proof.
  unfold oauth_apply_templates. intros H Hp.
  destruct (dict_get "method_oauth" config) as [method_oauth |] eqn:Hm.
  - destruct method_oauth as [| | | | | oauth]; try discriminate H.
    cbn [py_get rbind] in H.
    destruct (match dict_get "providers" oauth with
              | Some x => x
              | None => JDict []
              end) as [| | | | | providers0] eqn:Hpv; try discriminate H.
    cbn [as_dict rbind] in H.
    destruct (apply_templates env _ providers0) as [providers' |] eqn:Ht;
      [| discriminate H].
    cbn [rbind] in H. injection H as <-.
    destruct providers0 as [| first rest].
    + rewrite (providers_read _ Hm Hpv) in Hp. injection Hp as <-. constructor.
    + rewrite providers_written in Hp. injection Hp as <-.
      exact (apply_templates_give_dictionaries _ _ _ Ht).
  - injection H as <-. unfold oauth_providers_of, py_get in Hp. rewrite Hm in Hp.
    cbn in Hp. injection Hp as <-. constructor.
Qed.

Lemma found_oauth_keeps_the_rest (env : Env) (config config' : dict) (found : bool)
    (k : string) :
  found_oauth env config = Ok (config', found) ->
  k <> "method_oauth" ->
  dict_get k config' = dict_get k config.
Proof.
  unfold found_oauth. intros H Hk.
  destruct (dict_get "method_oauth" config) as [mc |]; [| now injection H as <- _].
  destruct (py_get mc "enabled" JNull) as [e |]; [| discriminate H]. cbn [rbind] in H.
  destruct (negb (truthy e)); [now injection H as <- _ |].
  destruct (oauth_apply_templates env config) as [config1 |] eqn:Ht; [| discriminate H].
  cbn [rbind] in H.
  pose proof (@oauth_apply_templates_keeps_the_rest _ _ _ _ Ht Hk) as Hkept.
  destruct (dict_index "method_oauth" config1) as [method_oauth |]; [| discriminate H].
  cbn [rbind] in H.
  destruct (py_get method_oauth "providers" JNull) as [pv |]; [| discriminate H].
  cbn [rbind] in H.
  destruct (as_dict pv) as [providers |]; [| discriminate H]. cbn [rbind] in H.
  destruct (some_provider_enabled providers) as [[] |]; [| | discriminate H];
    cbn [rbind] in H.
  - now injection H as <- _.
  - destruct (as_mapping method_oauth) as [oauth |]; [| discriminate H].
    cbn [rbind] in H. injection H as <- _.
    rewrite dict_get_set_ne; [exact Hkept | congruence].
Qed.

Lemma found_oauth_found (env : Env) (config config' : dict) :
  found_oauth env config = Ok (config', true) ->
  exists names p,
    rbind (oauth_providers_of config') enabled_names = Ok names /\ In p names.
Proof.
  unfold found_oauth. intros H.
  destruct (dict_get "method_oauth" config) as [mc |]; [| discriminate H].
  destruct (py_get mc "enabled" JNull) as [e |]; [| discriminate H]. cbn [rbind] in H.
  destruct (negb (truthy e)); [discriminate H |].
  destruct (oauth_apply_templates env config) as [config1 |] eqn:Ht; [| discriminate H].
  cbn [rbind] in H. unfold dict_index in H.
  destruct (dict_get "method_oauth" config1) as [method_oauth |] eqn:Hm;
    [| discriminate H].
  cbn [rbind] in H.
  destruct method_oauth as [| | | | | oauth]; try discriminate H.
  cbn [py_get rbind] in H.
  destruct (dict_get "providers" oauth) as [pv |] eqn:Hpv; [| discriminate H].
  destruct pv as [| | | | | providers]; try discriminate H.
  cbn [as_dict rbind] in H.
  destruct (some_provider_enabled providers) as [[] |] eqn:Hsome; [| | discriminate H];
    cbn [rbind] in H; [| discriminate H].
  injection H as <-.
  assert (Hp : oauth_providers_of config1 = Ok providers).
  { apply (@providers_read config1 oauth providers Hm). now rewrite Hpv. }
  rewrite Hp. cbn [rbind].
  destruct (enabled_names_of_dictionaries (oauth_apply_templates_prepared _ _ Ht Hp))
    as (names & Hn).
  destruct (some_provider_enabled_listed _ Hsome Hn) as (p & Hin).
  now exists names, p.
Qed.

Lemma init_backends_cases (env : Env) (force_auth : bool) (config config' : dict) :
  init_backends env force_auth config = Ok config' ->
  truthy_opt (dict_get "enabled" config') = true ->
  truthy_opt (dict_get "enabled" config) = true
  /\ exists dictionary config1 ldap config2 pam oauth config3,
       found_dictionary config = Ok dictionary
       /\ found_backend env "ldap" config = Ok (config1, ldap)
       /\ found_backend env "pam" config1 = Ok (config2, pam)
       /\ found_oauth env config2 = Ok (config3, oauth)
       /\ config' = config3
       /\ (force_auth = false -> dictionary || ldap || pam || oauth = true).
Proof.
  unfold init_backends. intros H Hen.
  destruct (truthy_opt (dict_get "enabled" config)) eqn:He; cbn [negb] in H.
  2: { injection H as <-. congruence. }
  split; [reflexivity |].
  destruct (found_dictionary config) as [dictionary |] eqn:Hd; [| discriminate H].
  cbn [rbind] in H.
  destruct (found_backend env "ldap" config) as [[config1 ldap] |] eqn:Hl;
    [| discriminate H].
  cbn [rbind] in H.
  destruct (found_backend env "pam" config1) as [[config2 pam] |] eqn:Hp;
    [| discriminate H].
  cbn [rbind] in H.
  destruct (found_oauth env config2) as [[config3 oauth] |] eqn:Ho; [| discriminate H].
  cbn [rbind] in H.
  exists dictionary, config1, ldap, config2, pam, oauth, config3.
  split; [reflexivity |]. split; [reflexivity |]. split; [exact Hp |].
  split; [exact Ho |].
  destruct (dictionary || ldap || pam || oauth); cbn [negb] in H.
  - injection H as <-. split; reflexivity.
  - destruct force_auth.
    + injection H as <-. split; [reflexivity | discriminate].
    + injection H as <-. rewrite dict_get_set_eq in Hen. discriminate Hen.
Qed.

Lemma init_section (env : Env) (cpu_count : Z) (source : option json)
    (force_auth : bool) (m : SessionManager) :
  init env cpu_count source force_auth = Ok m ->
  exists authentication,
    init_backends env force_auth
      (if force_auth then dict_set "enabled" (JBool true) authentication
       else authentication)
    = Ok (auth_config m)
    /\ database_connection m = false
    /\ sessions m = []
    /\ logins_since_prune m = 0.
Proof.
  unfold init. intros H.
  destruct (get_config_dict source) as [scfg_dict |]; [| discriminate H].
  cbn [rbind] in H.
  destruct (get_worker_processes cpu_count scfg_dict); [| discriminate H].
  cbn [rbind] in H.
  destruct (py_get scfg_dict "max_run_count" JNull); [| discriminate H].
  cbn [rbind] in H.
  destruct (py_get scfg_dict "store" (JDict [])); [| discriminate H].
  cbn [rbind] in H.
  destruct (py_get scfg_dict "keepalive" (JDict [])); [| discriminate H].
  cbn [rbind] in H.
  destruct (rbind (as_dict scfg_dict) (dict_index "authentication"))
    as [authentication |]; [| discriminate H].
  cbn [rbind] in H.
  destruct authentication as [| | | | | section_dict]; try discriminate H.
  cbv zeta in H.
  destruct (init_regex_groups env _) as [[enabled compiled] |]; [| discriminate H].
  cbn [rbind] in H.
  destruct (init_backends env force_auth _) as [config' |] eqn:Hb; [| discriminate H].
  cbn [rbind] in H. injection H as <-.
  exists section_dict. cbn. now repeat split.
Qed.

(** X29.  Authentication needs a backend.  A manager that the
    constructor builds without forcing authentication is enabled only when a
    backend can check a credential: the dictionary is enabled, or LDAP or PAM
    is enabled and its library is there, or [get_oauth_providers] lists a
    provider. *)
Theorem authentication_needs_a_backend (env : Env) (cpu_count : Z)
    (source : option json) (m : SessionManager) :
  init env cpu_count source false = Ok m ->
  is_enabled m = true ->
  switched_on "dictionary" (auth_config m)
  \/ (in_strings "ldap" (UNSUPPORTED_METHODS env) = false
      /\ switched_on "ldap" (auth_config m))
  \/ (in_strings "pam" (UNSUPPORTED_METHODS env) = false
      /\ switched_on "pam" (auth_config m))
  \/ exists names p, get_oauth_providers m = Ok names /\ In p names.
Proof.
  intros H Hen. unfold is_enabled in Hen.
  apply init_section in H as (config & Hb & _).
  apply (init_backends_cases _ _ _ Hb) in Hen
    as (_ & dictionary & config1 & ldap & config2 & pam & oauth & config3
        & Hd & Hl & Hp & Ho & Hc & Hfound).
  specialize (Hfound eq_refl). unfold get_oauth_providers. rewrite Hc. clear Hb Hc.
  destruct oauth.
  - right. right. right. exact (found_oauth_found _ _ Ho).
  - destruct pam.
    + right. right. left.
      apply found_backend_found in Hp as (-> & Hsup & (mc & e & Hg & He & Ht)).
      split; [exact Hsup |]. exists mc, e.
      rewrite (@found_oauth_keeps_the_rest _ _ _ _ _ Ho); [now repeat split | cbn; discriminate].
    + destruct ldap.
      * right. left.
        apply found_backend_found in Hl as (-> & Hsup & (mc & e & Hg & He & Ht)).
        split; [exact Hsup |]. exists mc, e.
        rewrite (@found_oauth_keeps_the_rest _ _ _ _ _ Ho); [| cbn; discriminate].
        rewrite (@found_backend_keeps_the_rest _ _ _ _ _ _ Hp); [| cbn; discriminate].
        now repeat split.
      * left. rewrite !orb_false_r in Hfound. subst dictionary.
        apply found_dictionary_found in Hd as (mc & e & Hg & He & Ht).
        exists mc, e.
        rewrite (@found_oauth_keeps_the_rest _ _ _ _ _ Ho); [| cbn; discriminate].
        rewrite (@found_backend_keeps_the_rest _ _ _ _ _ _ Hp); [| cbn; discriminate].
        rewrite (@found_backend_keeps_the_rest _ _ _ _ _ _ Hl); [| cbn; discriminate].
        now repeat split.
Qed.

(** X30.  Forced authentication is enabled.  A manager that the
    constructor builds with [force_auth] is enabled, whatever the file says
    and whether or not a backend is found; it has no connection, no session
    and no login counted. *)
Theorem forced_authentication_is_enabled (env : Env) (cpu_count : Z)
    (source : option json) (m : SessionManager) :
  init env cpu_count source true = Ok m ->
  is_enabled m = true
  /\ database_connection m = false
  /\ sessions m = []
  /\ logins_since_prune m = 0.
Proof.
  intros H. apply init_section in H as (config & Hb & Hrest).
  split; [| exact Hrest]. unfold is_enabled.
  unfold init_backends in Hb. rewrite dict_get_set_eq in Hb. cbn in Hb.
  destruct (found_dictionary _) as [dictionary |]; [| discriminate Hb].
  cbn [rbind] in Hb.
  destruct (found_backend env "ldap" _) as [[config1 ldap] |] eqn:Hl;
    [| discriminate Hb].
  cbn [rbind] in Hb.
  destruct (found_backend env "pam" config1) as [[config2 pam] |] eqn:Hp;
    [| discriminate Hb].
  cbn [rbind] in Hb.
  destruct (found_oauth env config2) as [[config3 oauth] |] eqn:Ho; [| discriminate Hb].
  cbn [rbind] in Hb.
  assert (Hsame : config3 = auth_config m)
    by (destruct (negb _); now injection Hb as <-).
  rewrite <- Hsame.
  rewrite (@found_oauth_keeps_the_rest _ _ _ _ _ Ho); [| cbn; discriminate].
  rewrite (@found_backend_keeps_the_rest _ _ _ _ _ _ Hp); [| cbn; discriminate].
  rewrite (@found_backend_keeps_the_rest _ _ _ _ _ _ Hl); [| cbn; discriminate].
  now rewrite dict_get_set_eq.
Qed.

Lemma authentication_needs_a_backend_witness :
  init Reference.env 4 (Some Cases.server_config) false = Ok Cases.server_manager
  /\ is_enabled Cases.server_manager = true
  /\ (switched_on "dictionary" (auth_config Cases.server_manager)
      \/ (in_strings "ldap" (UNSUPPORTED_METHODS Reference.env) = false
          /\ switched_on "ldap" (auth_config Cases.server_manager))
      \/ (in_strings "pam" (UNSUPPORTED_METHODS Reference.env) = false
          /\ switched_on "pam" (auth_config Cases.server_manager))
      \/ exists names p,
           get_oauth_providers Cases.server_manager = Ok names /\ In p names).
Proof.
  split; [vm_compute; reflexivity |]. split; [reflexivity |].
  apply (@authentication_needs_a_backend Reference.env 4 (Some Cases.server_config)
           Cases.server_manager); [vm_compute; reflexivity | reflexivity].
Defined.

Lemma forced_authentication_is_enabled_witness :
  init Reference.env 4 (Some Cases.bare_config) true = Ok Cases.forced_manager
  /\ is_enabled Cases.forced_manager = true
  /\ database_connection Cases.forced_manager = false
  /\ sessions Cases.forced_manager = []
  /\ logins_since_prune Cases.forced_manager = 0.
Proof.
  split; [vm_compute; reflexivity |].
  apply (@forced_authentication_is_enabled Reference.env 4 (Some Cases.bare_config)
           Cases.forced_manager).
  vm_compute. reflexivity.
Defined.
